(** * The Shopify webhook endpoint ([src/pages/api/webhook/shopify.js])

    A shallow embedding of the webhook handler and of its three event
    handlers, [handleOrderCreated], [handleOrderUpdated] and
    [handleRefundCreated], followed by the properties of the reconciliation
    they perform against the CRM.

    The handlers are JavaScript over loosely shaped JSON payloads, so the
    embedding keeps the JavaScript value universe ([value]) and the language's
    coercions (truthiness, [Number], [String], strict equality, optional
    chaining) instead of typing the payload.  Numbers are IEEE 754 doubles,
    which are exactly Rocq's primitive floats.  Remote calls are effects: a
    computation threads the chronological trace of the calls issued so far and
    either returns or throws. *)

From Stdlib Require Import List String Ascii Bool ZArith Permutation.
From Stdlib Require Import Floats Uint63 DecimalString.
Import ListNotations.
Set Warnings "-register-all".
Local Open Scope string_scope.

(** ** Strings

    A string is a sequence of code units below 256 (the Latin-1 range). *)

Module Str.

(** [String.prototype.toLowerCase] on one code unit: [A]-[Z] and the Latin-1
    capitals (U+00C0-U+00DE without the multiplication sign U+00D7). *)
Definition lower_char (c : ascii) : ascii :=
  let n := nat_of_ascii c in
  if ((65 <=? n) && (n <=? 90))%nat then ascii_of_nat (n + 32)
  else if ((192 <=? n) && (n <=? 222) && negb (n =? 215))%nat
       then ascii_of_nat (n + 32)
       else c.

Fixpoint toLowerCase (s : string) : string :=
  match s with
  | EmptyString => EmptyString
  | String c r => String (lower_char c) (toLowerCase r)
  end.

(** White space and line terminators, as [String.prototype.trim] strips
    them: TAB, LF, VT, FF, CR, SP and NBSP. *)
Definition is_space (c : ascii) : bool :=
  let n := nat_of_ascii c in
  (((9 <=? n) && (n <=? 13)) || (n =? 32) || (n =? 160))%nat.

Fixpoint trimStart (s : string) : string :=
  match s with
  | EmptyString => EmptyString
  | String c r => if is_space c then trimStart r else s
  end.

Fixpoint trimEnd (s : string) : string :=
  match s with
  | EmptyString => EmptyString
  | String c r =>
      match trimEnd r with
      | EmptyString => if is_space c then EmptyString else String c EmptyString
      | r' => String c r'
      end
  end.

Definition trim (s : string) : string := trimEnd (trimStart s).

(** [s.split(',')]: the pieces between commas; never the empty list. *)
Fixpoint split_comma (s : string) : list string :=
  match s with
  | EmptyString => [EmptyString]
  | String c r =>
      if Ascii.eqb c ","%char then EmptyString :: split_comma r
      else match split_comma r with
           | h :: t => String c h :: t
           | [] => [String c EmptyString]
           end
  end.

(** [pieces.join(',')]. *)
Fixpoint join_comma (l : list string) : string :=
  match l with
  | [] => EmptyString
  | [s] => s
  | s :: r => s ++ "," ++ join_comma r
  end.

End Str.

(** ** JavaScript values *)

Inductive value : Type :=
| VUndef
| VNull
| VBool (b : bool)
| VNum (x : float)
| VStr (s : string)
| VArr (elems : list value)
| VObj (props : list (string * value)).

(** An object is the list of its own properties in insertion order, with
    distinct keys. *)
Definition obj := list (string * value).

Fixpoint obj_get (o : obj) (k : string) : value :=
  match o with
  | [] => VUndef
  | (k', v) :: r => if String.eqb k' k then v else obj_get r k
  end.

(** [o[k] = v]: overwrite in place, or append a new property. *)
Fixpoint obj_set (o : obj) (k : string) (v : value) : obj :=
  match o with
  | [] => [(k, v)]
  | (k', v') :: r =>
      if String.eqb k' k then (k, v) :: r else (k', v') :: obj_set r k v
  end.

(** [Object.keys(o)]. *)
Definition obj_keys (o : obj) : list string := map fst o.

Definition has_key (o : obj) (k : string) : bool :=
  existsb (String.eqb k) (obj_keys o).

(** What a computation throws. *)
Inductive exn : Type :=
| TypeError
| Error (message : string)
| FailedToCreateDeal (response : value).

Inductive result (A : Type) : Type :=
| Ok (a : A)
| Throw (e : exn).
Arguments Ok {A} a.
Arguments Throw {A} e.

Module Js.

Definition nullish (v : value) : bool :=
  match v with
  | VUndef | VNull => true
  | _ => false
  end.

(** [ToBoolean]. *)
Definition truthy (v : value) : bool :=
  match v with
  | VUndef | VNull => false
  | VBool b => b
  | VNum x => negb (PrimFloat.is_nan x || PrimFloat.is_zero x)
  | VStr s => negb (String.eqb s "")
  | VArr _ | VObj _ => true
  end.

(** [a || b]. *)
Definition or (a b : value) : value := if truthy a then a else b.

(** [v.k].  The keys the handlers read ([name], [id], [tags], [result], ...)
    are own properties of the payload objects only: on an array, a string, a
    number or a boolean they are undefined, and on [null] or [undefined] the
    access throws. *)
Definition get (v : value) (k : string) : result value :=
  match v with
  | VUndef | VNull => Throw TypeError
  | VObj o => Ok (obj_get o k)
  | _ => Ok VUndef
  end.

(** [v[0]] on a value that is neither [null] nor [undefined]. *)
Definition index0 (v : value) : value :=
  match v with
  | VArr (x :: _) => x
  | VStr (String c _) => VStr (String c EmptyString)
  | VObj o => obj_get o "0"
  | _ => VUndef
  end.

(** [v?.k] and [v?.[0]]. *)
Definition opt_get (v : value) (k : string) : value :=
  match v with
  | VObj o => obj_get o k
  | _ => VUndef
  end.

Definition opt_index0 (v : value) : value :=
  if nullish v then VUndef else index0 v.

(** [a === b].  Arrays and objects are equal only to themselves; the
    handlers compare values of distinct origin (a configured constant with
    a field of a response, a field with [undefined]), which never share an
    object. *)
Definition strict_eq (a b : value) : bool :=
  match a, b with
  | VUndef, VUndef => true
  | VNull, VNull => true
  | VBool x, VBool y => Bool.eqb x y
  | VNum x, VNum y => PrimFloat.eqb x y
  | VStr x, VStr y => String.eqb x y
  | _, _ => false
  end.

Definition strict_neq (a b : value) : bool := negb (strict_eq a b).

Section Coercions.

(** The two halves of the number syntax: [Number] on a string and [String] on
    a number. *)
Variable StringToNumber : string -> float.
Variable NumberToString : float -> string.

(** [String(v)], for payloads whose objects have no own property named
    [toString]: on an object with one, which a JSON payload can hold but
    never as a function, [String], [Number] and the template literals throw
    a TypeError, and such payloads are outside this embedding. *)
Fixpoint toString (v : value) : string :=
  match v with
  | VUndef => "undefined"
  | VNull => "null"
  | VBool true => "true"
  | VBool false => "false"
  | VNum x => NumberToString x
  | VStr s => s
  | VArr l =>
      Str.join_comma
        (map (fun e => match e with
                       | VUndef | VNull => EmptyString
                       | _ => toString e
                       end) l)
  | VObj _ => "[object Object]"
  end.

(** [Number(v)], for the same payloads. *)
Definition toNumber (v : value) : float :=
  match v with
  | VUndef => PrimFloat.nan
  | VNull => PrimFloat.zero
  | VBool true => PrimFloat.one
  | VBool false => PrimFloat.zero
  | VNum x => x
  | VStr s => StringToNumber s
  | VArr _ | VObj _ => StringToNumber (toString v)
  end.

End Coercions.

End Js.

(** ** Effects

    Everything the endpoint does to the outside goes through one of these
    calls.  Logging is left out, except where a logged expression can throw. *)

Inductive call : Type :=
| callBitrix (method : string) (params : value)
| getBitrixWebhookBase
| upsertBitrixContact (bitrixBase : value) (order : value)
| import_adminClient
| getOrder (orderId : string)
| storeEvent (event : value).

(** The world a request runs in: the number syntax of the language, the
    modules the endpoint imports, and the behaviour of the outside. *)
Record World : Type := {
  (** [Number] on a string and [String] on a number. *)
  StringToNumber : string -> float;
  NumberToString : float -> string;
  (** [src/lib/bitrix/orderMapper.js], not part of the sources and taken as
      a parameter: by the specification the field mapper is total and
      side-effect-free, and returns the deal fields and the product rows of
      an order. *)
  mapShopifyOrderToBitrixDeal : value -> obj * list value;
  (** [src/lib/bitrix/config.js], not part of the sources and taken as a
      parameter: by the specification the status policy is a pair of total
      table lookups; the configuration names the two categories. *)
  financialStatusToStageId : value -> value -> value;
  financialStatusToPaymentStatus : value -> value;
  CATEGORY_PREORDER : value;
  CATEGORY_STOCK : value;
  (** What a call answers, given the calls issued before it: a value, or a
      failure thrown at the call site. *)
  respond : list call -> call -> result value
}.

(** A computation: from the trace so far to the trace after it and its
    outcome.  A throw keeps the trace. *)
Definition M (A : Type) : Type := list call -> list call * result A.

Definition ret {A} (a : A) : M A := fun tr => (tr, Ok a).

Definition throw {A} (e : exn) : M A := fun tr => (tr, Throw e).

Definition bind {A B} (m : M A) (k : A -> M B) : M B :=
  fun tr =>
    match m tr with
    | (tr', Ok a) => k a tr'
    | (tr', Throw e) => (tr', Throw e)
    end.

(** [try { m } catch (e) { h e }]. *)
Definition try_catch {A} (m : M A) (h : exn -> M A) : M A :=
  fun tr =>
    match m tr with
    | (tr', Ok a) => (tr', Ok a)
    | (tr', Throw e) => h e tr'
    end.

Definition lift {A} (r : result A) : M A := fun tr => (tr, r).

(** [await c]: the call joins the trace, then answers. *)
Definition perform (W : World) (c : call) : M value :=
  fun tr => ((tr ++ [c])%list, respond W tr c).

Definition rbind {A B} (r : result A) (k : A -> result B) : result B :=
  match r with
  | Ok a => k a
  | Throw e => Throw e
  end.

Declare Scope js_scope.
Delimit Scope js_scope with js.
Notation "x <- m ;; k" := (bind m (fun x => k))
  (at level 61, m at next level, right associativity) : js_scope.
Notation "m ;;; k" := (bind m (fun _ => k))
  (at level 61, right associativity) : js_scope.
Notation "'let?' x := r 'in' k" := (rbind r (fun x => k))
  (at level 61, x name, r at next level, right associativity) : js_scope.
Local Open Scope js_scope.

(** [String(v)] and [Number(v)] in a world. *)
Definition ToString (W : World) (v : value) : string :=
  Js.toString (NumberToString W) v.

Definition ToNumber (W : World) (v : value) : float :=
  Js.toNumber (StringToNumber W) (NumberToString W) v.

(** ** The remote calls of the endpoint *)

Definition deal_add (dealFields : obj) : call :=
  callBitrix "/crm.deal.add.json" (VObj [("fields", VObj dealFields)]).

Definition deal_list (shopifyOrderId : string) : call :=
  callBitrix "/crm.deal.list.json"
    (VObj [("filter", VObj [("UF_SHOPIFY_ORDER_ID", VStr shopifyOrderId)]);
           ("select", VArr [VStr "ID"; VStr "OPPORTUNITY"; VStr "STAGE_ID";
                            VStr "CATEGORY_ID"])]).

Definition deal_update (dealId : value) (fields : obj) : call :=
  callBitrix "/crm.deal.update.json"
    (VObj [("id", dealId); ("fields", VObj fields)]).

Definition productrows_set (dealId : value) (rows : list value) : call :=
  callBitrix "/crm.deal.productrows.set.json"
    (VObj [("id", dealId); ("rows", VArr rows)]).

Definition is_deal_update (c : call) : bool :=
  match c with
  | callBitrix m _ => String.eqb m "/crm.deal.update.json"
  | _ => false
  end.

Definition is_productrows_set (c : call) : bool :=
  match c with
  | callBitrix m _ => String.eqb m "/crm.deal.productrows.set.json"
  | _ => false
  end.

Definition is_deal_add (c : call) : bool :=
  match c with
  | callBitrix m _ => String.eqb m "/crm.deal.add.json"
  | _ => false
  end.

(** The calls that change the CRM. *)
Definition is_mutation (c : call) : bool :=
  match c with
  | upsertBitrixContact _ _ => true
  | _ => is_deal_add c || is_deal_update c || is_productrows_set c
  end.

(** [l.length > 0]. *)
Definition nonempty {A} (l : list A) : bool :=
  match l with
  | [] => false
  | _ :: _ => true
  end.

(** ** [handleOrderCreated] *)

Definition handleOrderCreated (W : World) (order : value) : M value :=
  (* the first log line reads [order.name || order.id] *)
  _ <- lift (Js.get order "name") ;;
  let '(dealFields, productRows) := mapShopifyOrderToBitrixDeal W order in
  (* upsert contact (non-blocking) *)
  dealFields <-
    try_catch
      (bitrixBase <- perform W getBitrixWebhookBase ;;
       contactId <- perform W (upsertBitrixContact bitrixBase order) ;;
       ret (if Js.truthy contactId
            then obj_set dealFields "CONTACT_ID" contactId
            else dealFields))
      (fun _ => ret dealFields) ;;
  (* 1. create deal *)
  dealAddResp <- perform W (deal_add dealFields) ;;
  result <- lift (Js.get dealAddResp "result") ;;
  if negb (Js.truthy result) then throw (FailedToCreateDeal dealAddResp)
  else
    let dealId := result in
    (* 2. set product rows *)
    (if nonempty productRows
     then try_catch (perform W (productrows_set dealId productRows) ;;; ret tt)
                    (fun _ => ret tt)
     else ret tt) ;;;
    ret dealId.

(** ** [handleOrderUpdated] *)

Definition preorderTags : list string := ["pre-order"; "preorder-product-added"].

(** [Array.isArray(order.tags) ? order.tags
      : (order.tags ? String(order.tags).split(',').map(t => t.trim()) : [])]. *)
Definition orderTags (W : World) (tags : value) : list value :=
  match tags with
  | VArr l => l
  | _ =>
      if Js.truthy tags
      then map (fun t => VStr (Str.trim t)) (Str.split_comma (ToString W tags))
      else []
  end.

(** [preorderTags.some(preorderTag => tag.toLowerCase() === preorderTag.toLowerCase())]:
    only a string has [toLowerCase]. *)
Definition isPreorderTag (tag : value) : result bool :=
  match tag with
  | VStr s =>
      Ok (existsb (fun preorderTag =>
                     String.eqb (Str.toLowerCase s) (Str.toLowerCase preorderTag))
                  preorderTags)
  | _ => Throw TypeError
  end.

(** [orderTags.some(tag => ...)], left to right, stopping at the first hit. *)
Fixpoint hasPreorderTag (tags : list value) : result bool :=
  match tags with
  | [] => Ok false
  | tag :: rest =>
      let? hit := isPreorderTag tag in
      if hit then Ok true else hasPreorderTag rest
  end.

Definition categoryFor (W : World) (tags : value) : result value :=
  let? hasTag := hasPreorderTag (orderTags W tags) in
  Ok (if hasTag then CATEGORY_PREORDER W else CATEGORY_STOCK W).

Definition PAYMENT_STATUS : string := "UF_CRM_1739183959976".

(** [v?.shop_money?.amount]. *)
Definition shop_money_amount (v : value) : value :=
  Js.opt_get (Js.opt_get v "shop_money") "amount".

(** [order.shipping_lines?.[0]?.price]. *)
Definition firstShippingLinePrice (order : value) : result value :=
  let? lines := Js.get order "shipping_lines" in
  Ok (Js.opt_get (Js.opt_index0 lines) "price").

Definition shippingPrice (W : World) (order : value) : result float :=
  let? current := Js.get order "current_total_shipping_price_set" in
  let? total := Js.get order "total_shipping_price_set" in
  let? flat := Js.get order "shipping_price" in
  let? line := firstShippingLinePrice order in
  Ok (ToNumber W
        (Js.or (Js.or (Js.or (Js.or (shop_money_amount current)
                                    (shop_money_amount total)) flat) line)
               (VNum 0))).

(** [Number(deal.CATEGORY_ID) || 2]. *)
Definition currentCategoryOf (W : World) (deal : value) : result value :=
  let? category := Js.get deal "CATEGORY_ID" in
  Ok (Js.or (VNum (ToNumber W category)) (VNum 2)).

(** Step 2 of the handler: the [fields] object sent to [crm.deal.update]. *)
Definition orderUpdatedFields (W : World) (order deal : value) : result obj :=
  let? currentCategoryId := currentCategoryOf W deal in
  let? tags := Js.get order "tags" in
  let? categoryId := categoryFor W tags in
  let fields : obj := [] in
  let fields :=
    if Js.strict_neq categoryId currentCategoryId
    then obj_set fields "CATEGORY_ID" categoryId else fields in
  let? current_total_price := Js.get order "current_total_price" in
  let? total_price := Js.get order "total_price" in
  let newAmount :=
    ToNumber W (Js.or (Js.or current_total_price total_price) (VNum 0)) in
  let? opportunity := Js.get deal "OPPORTUNITY" in
  let fields :=
    if negb (PrimFloat.eqb newAmount (ToNumber W opportunity))
    then obj_set fields "OPPORTUNITY" (VNum newAmount) else fields in
  let? financial_status := Js.get order "financial_status" in
  let stageId := financialStatusToStageId W financial_status categoryId in
  let? currentStage := Js.get deal "STAGE_ID" in
  let fields :=
    if Js.strict_neq stageId currentStage
    then obj_set fields "STAGE_ID" stageId else fields in
  (* always update payment status *)
  let fields :=
    obj_set fields PAYMENT_STATUS
            (financialStatusToPaymentStatus W financial_status) in
  let? discounts := Js.get order "current_total_discounts" in
  let fields :=
    if Js.strict_neq discounts VUndef
    then obj_set fields "UF_SHOPIFY_TOTAL_DISCOUNT" (VNum (ToNumber W discounts))
    else fields in
  let? tax := Js.get order "current_total_tax" in
  let fields :=
    if Js.strict_neq tax VUndef
    then obj_set fields "UF_SHOPIFY_TOTAL_TAX" (VNum (ToNumber W tax))
    else fields in
  let? linePrice := firstShippingLinePrice order in
  if Js.strict_neq linePrice VUndef
  then let? shipping := shippingPrice W order in
       Ok (obj_set fields "UF_SHOPIFY_SHIPPING_PRICE" (VNum shipping))
  else Ok fields.

(** Step 4 of the handler, inside its [try]: the rows are replaced, by the
    mapped rows or by the empty set. *)
Definition resyncProductRows (W : World) (dealId order : value) : M unit :=
  let productRows := snd (mapShopifyOrderToBitrixDeal W order) in
  if nonempty productRows
  then perform W (productrows_set dealId productRows) ;;; ret tt
  else perform W (productrows_set dealId []) ;;; ret tt.

Definition handleOrderUpdated (W : World) (order : value) : M value :=
  (* the first log line reads [order.name || order.id] *)
  _ <- lift (Js.get order "name") ;;
  id <- lift (Js.get order "id") ;;
  let shopifyOrderId := ToString W id in
  (* 1. find deal by UF_SHOPIFY_ORDER_ID *)
  listResp <- perform W (deal_list shopifyOrderId) ;;
  result <- lift (Js.get listResp "result") ;;
  let deal := Js.opt_index0 result in
  if negb (Js.truthy deal) then ret VUndef
  else
    dealId <- lift (Js.get deal "ID") ;;
    (* 2. prepare update fields *)
    fields <- lift (orderUpdatedFields W order deal) ;;
    (* 3. update deal *)
    (if nonempty (obj_keys fields)
     then perform W (deal_update dealId fields) ;;; ret tt
     else ret tt) ;;;
    (* 4. update product rows *)
    try_catch (resyncProductRows W dealId order) (fun _ => ret tt) ;;;
    ret dealId.

(** ** [handleRefundCreated] *)

(** Steps 3 and 4 of the handler: the [fields] object sent to
    [crm.deal.update] after a refund. *)
Definition refundFields (W : World) (refundData shopifyOrder currentCategoryId : value)
  : result obj :=
  let dealFields := fst (mapShopifyOrderToBitrixDeal W shopifyOrder) in
  let fields : obj :=
    [("OPPORTUNITY", obj_get dealFields "OPPORTUNITY");
     ("UF_SHOPIFY_TOTAL_DISCOUNT", obj_get dealFields "UF_SHOPIFY_TOTAL_DISCOUNT");
     ("UF_SHOPIFY_SHIPPING_PRICE", obj_get dealFields "UF_SHOPIFY_SHIPPING_PRICE");
     ("UF_SHOPIFY_TOTAL_TAX", obj_get dealFields "UF_SHOPIFY_TOTAL_TAX")] in
  let? amount := Js.get refundData "amount" in
  let refundAmount := ToNumber W (Js.or amount (VNum 0)) in
  let? total_price := Js.get shopifyOrder "total_price" in
  let orderTotal := ToNumber W (Js.or total_price (VNum 0)) in
  let remainingAmount := (orderTotal - refundAmount)%float in
  if (remainingAmount <=? 0)%float then
    (* full refund *)
    let fields := obj_set fields PAYMENT_STATUS (VStr "58") in
    Ok (obj_set fields "STAGE_ID"
          (financialStatusToStageId W (VStr "refunded") currentCategoryId))
  else if (0 <? refundAmount)%float then
    (* partial refund *)
    Ok (obj_set fields PAYMENT_STATUS (VStr "58"))
  else Ok fields.

(** The body of the handler's [try], once the fetched order is there. *)
Definition applyRefund (W : World) (dealId currentCategoryId refundData shopifyOrder : value)
  : M unit :=
  let productRows := snd (mapShopifyOrderToBitrixDeal W shopifyOrder) in
  fields <- lift (refundFields W refundData shopifyOrder currentCategoryId) ;;
  perform W (deal_update dealId fields) ;;;
  (* 5. update product rows to reflect refunded quantities *)
  if nonempty productRows
  then perform W (productrows_set dealId productRows) ;;; ret tt
  else ret tt.

Definition handleRefundCreated (W : World) (refundData : value) : M value :=
  (* the second log line reads [refundData.order_id] *)
  order_id <- lift (Js.get refundData "order_id") ;;
  let shopifyOrderId := ToString W order_id in
  (* 1. find deal by UF_SHOPIFY_ORDER_ID *)
  listResp <- perform W (deal_list shopifyOrderId) ;;
  result <- lift (Js.get listResp "result") ;;
  let deal := Js.opt_index0 result in
  if negb (Js.truthy deal) then ret VUndef
  else
    dealId <- lift (Js.get deal "ID") ;;
    currentCategoryId <- lift (currentCategoryOf W deal) ;;
    (* 2. get full order from Shopify to recalculate totals *)
    try_catch
      (perform W import_adminClient ;;;
       shopifyOrder <- perform W (getOrder shopifyOrderId) ;;
       if negb (Js.truthy shopifyOrder) then ret VUndef
       else applyRefund W dealId currentCategoryId refundData shopifyOrder ;;;
            ret dealId)
      (fun _ => ret dealId).

(** ** [handler] *)

Record request : Type := {
  method : value;
  headers : obj;
  body : value
}.

Inductive sent : Type :=
| EndText (text : string)
| Success (requestId : string) (topic : value)
| InternalServerError (e : exn) (requestId : string).

(** [res.status(code).end(text)] and [res.status(code).json(payload)]; an
    error payload carries the message of the exception caught. *)
Record response : Type := {
  status : Z;
  payload : sent
}.

Definition topicOf (req : request) : value :=
  Js.or (obj_get (headers req) "x-shopify-topic")
        (obj_get (headers req) "X-Shopify-Topic").

Definition dispatch (W : World) (topic order : value) : M unit :=
  if Js.strict_eq topic (VStr "orders/create")
  then handleOrderCreated W order ;;; ret tt
  else if Js.strict_eq topic (VStr "orders/updated")
  then handleOrderUpdated W order ;;; ret tt
  else if Js.strict_eq topic (VStr "refunds/create")
  then handleRefundCreated W order ;;; ret tt
  else ret tt.

(** [requestId] is drawn from the clock and the random generator before
    anything else happens.  The log lines before the [try] are left out: for
    the payloads of this embedding they print and do not throw.  The [catch]
    is entered with what the handlers and the remote calls throw, an [exn];
    a rejection with [null] or [undefined], on which reading [e.stack] would
    throw in turn, is not among them. *)
Definition handler (W : World) (requestId : string) (req : request) : M response :=
  if Js.strict_neq (method req) (VStr "POST")
  then ret {| status := 405; payload := EndText "Method not allowed" |}
  else
    let topic := topicOf req in
    let order := body req in
    try_catch
      ((* store event for monitoring (non-blocking) *)
       try_catch (perform W (storeEvent order) ;;; ret tt) (fun _ => ret tt) ;;;
       dispatch W topic order ;;;
       ret {| status := 200; payload := Success requestId topic |})
      (fun e => ret {| status := 500; payload := InternalServerError e requestId |}).

(** ** A sample world

    One concrete world, to run the handlers on events: a fragment of the
    number syntax, a field mapper and a status policy in the sense of the
    specification, and a scripted CRM and storefront. *)

Module Sample.

Definition digit (c : ascii) : option Z :=
  let n := Z.of_nat (nat_of_ascii c) in
  if ((48 <=? n) && (n <=? 57))%Z then Some (n - 48)%Z else None.

(** The leading decimal digits of [s]: their value on top of [acc], their
    number on top of [n], and the rest of [s]. *)
Fixpoint read_digits (s : string) (acc : Z) (n : nat) : Z * nat * string :=
  match s with
  | EmptyString => (acc, n, s)
  | String c r =>
      match digit c with
      | Some d => read_digits r (10 * acc + d)%Z (S n)
      | None => (acc, n, s)
      end
  end.

(** An integer below 2^53 is a double. *)
Definition exact (z : Z) : float :=
  if (z <? 2 ^ 53)%Z then PrimFloat.of_uint63 (Uint63.of_Z z) else PrimFloat.nan.

(** [Number] on the empty string and on the unsigned decimal literals
    [123], [123.45], [123.] and [.45] of at most fifteen digits, where the
    quotient of two exact doubles is the nearest double.  The other strings
    are outside the fragment and read as [NaN]. *)
Definition StringToNumber (s : string) : float :=
  match s with
  | EmptyString => PrimFloat.zero
  | _ =>
      let '(i, ni, rest) := read_digits s 0 0 in
      match rest with
      | EmptyString => if (ni =? 0)%nat then PrimFloat.nan else exact i
      | String c frac =>
          if Ascii.eqb c "."%char then
            let '(m, nf, rest') := read_digits frac i 0 in
            match rest' with
            | EmptyString =>
                if ((ni + nf =? 0) || (15 <? ni + nf))%nat then PrimFloat.nan
                else (exact m / exact (10 ^ Z.of_nat nf))%float
            | _ => PrimFloat.nan
            end
          else PrimFloat.nan
      end
  end.

Definition decimal (z : Z) : string :=
  DecimalString.NilZero.string_of_uint (N.to_uint (Z.to_N z)).

(** [String] on [NaN], the infinities, the zeros and the integers below 2^53
    in absolute value.  The other numbers are outside the fragment and print
    as [NaN]. *)
Definition NumberToString (x : float) : string :=
  match Prim2SF x with
  | S754_zero _ => "0"
  | S754_nan => "NaN"
  | S754_infinity false => "Infinity"
  | S754_infinity true => "-Infinity"
  | S754_finite s m e =>
      let sign := if s then "-" else "" in
      if (0 <=? e)%Z then
        let n := (Z.pos m * 2 ^ e)%Z in
        if (n <? 2 ^ 53)%Z then sign ++ decimal n else "NaN"
      else if (Z.pos m mod 2 ^ (- e) =? 0)%Z
           then sign ++ decimal (Z.pos m / 2 ^ (- e))
           else "NaN"
  end.

Definition Number : value -> float := Js.toNumber StringToNumber NumberToString.

(** Modelled from the spec: the field mapper of [src/lib/bitrix/orderMapper.js],
    which is not part of the sources.  The amount prefers the current total
    over the original one, the discount, shipping and tax totals default to 0,
    and every line item maps to one product row. *)
Definition productRow (item : value) : value :=
  VObj [("PRODUCT_NAME", Js.opt_get item "title");
        ("PRICE", VNum (Number (Js.opt_get item "price")));
        ("QUANTITY", VNum (Number (Js.opt_get item "quantity")))].

Definition line_items (order : value) : list value :=
  match Js.opt_get order "line_items" with
  | VArr l => l
  | _ => []
  end.

Definition mapShopifyOrderToBitrixDeal (order : value) : obj * list value :=
  ([("TITLE", Js.opt_get order "name");
    ("UF_SHOPIFY_ORDER_ID",
     VStr (Js.toString NumberToString (Js.opt_get order "id")));
    ("OPPORTUNITY",
     VNum (Number (Js.or (Js.or (Js.opt_get order "current_total_price")
                                (Js.opt_get order "total_price")) (VNum 0))));
    ("UF_SHOPIFY_TOTAL_DISCOUNT",
     VNum (Number (Js.or (Js.opt_get order "current_total_discounts") (VNum 0))));
    ("UF_SHOPIFY_SHIPPING_PRICE",
     VNum (Number (Js.or (Js.opt_get (Js.opt_index0 (Js.opt_get order "shipping_lines"))
                                     "price") (VNum 0))));
    ("UF_SHOPIFY_TOTAL_TAX",
     VNum (Number (Js.or (Js.opt_get order "current_total_tax") (VNum 0))))],
   map productRow (line_items order)).

(** Modelled from the spec: the status policy of [src/lib/bitrix/config.js],
    which is not part of the sources.  Two total lookups; the stage is a stage
    of the category's own pipeline. *)
Definition is_status (status : value) (s : string) : bool :=
  Js.strict_eq status (VStr s).

Definition financialStatusToStageId (status categoryId : value) : value :=
  let pipeline := "C" ++ Js.toString NumberToString categoryId ++ ":" in
  if is_status status "paid" then VStr (pipeline ++ "WON")
  else if is_status status "refunded" then VStr (pipeline ++ "LOSE")
  else VStr (pipeline ++ "NEW").

Definition financialStatusToPaymentStatus (status : value) : value :=
  if is_status status "paid" then VStr "56" else VStr "58".

(** What the outside does: the deals the CRM finds, the answer of
    [crm.deal.add], the order the storefront returns, and the calls that
    fail. *)
Record script : Type := {
  deals : list value;
  created : value;
  fetched : value;
  fails : call -> bool
}.

Definition answer (S : script) (history : list call) (c : call) : result value :=
  if fails S c then Throw (Error "remote failure")
  else
    match c with
    | callBitrix m _ =>
        if String.eqb m "/crm.deal.list.json" then Ok (VObj [("result", VArr (deals S))])
        else if String.eqb m "/crm.deal.add.json" then Ok (created S)
        else Ok (VObj [("result", VBool true)])
    | getBitrixWebhookBase => Ok (VStr "https://example.bitrix24.com/rest/1/token")
    | upsertBitrixContact _ _ => Ok (VStr "301")
    | import_adminClient => Ok (VObj [])
    | getOrder _ => Ok (fetched S)
    | storeEvent e => Ok e
    end.

Definition world (S : script) : World :=
  Build_World StringToNumber NumberToString mapShopifyOrderToBitrixDeal
              financialStatusToStageId financialStatusToPaymentStatus
              (VNum 8) (VNum 2) (answer S).

Definition never (c : call) : bool := false.

(** A deal of the stock pipeline for order 1001, paid, worth 100. *)
Definition deal501 : value :=
  VObj [("ID", VStr "501"); ("OPPORTUNITY", VStr "100.00");
        ("STAGE_ID", VStr "C2:WON"); ("CATEGORY_ID", VStr "2")].

(** Order 1001 as the storefront sends it: two line items, paid, 100. *)
Definition order1001 : value :=
  VObj [("id", VNum 1001); ("name", VStr "#1001");
        ("total_price", VStr "100.00"); ("current_total_price", VStr "100.00");
        ("financial_status", VStr "paid"); ("tags", VStr "");
        ("line_items",
         VArr [VObj [("title", VStr "Mug"); ("price", VStr "30.00"); ("quantity", VNum 2)];
               VObj [("title", VStr "Cap"); ("price", VStr "40.00"); ("quantity", VNum 1)]])].

(** The CRM knows deal 501 and every call succeeds. *)
Definition crm : World := world (Build_script [deal501] VUndef VUndef never).

(** The CRM knows deal 501 and refuses every [crm.deal.update]. *)
Definition crm_refusing_updates : World :=
  world (Build_script [deal501] VUndef order1001 is_deal_update).

(** An order whose shipping amount comes as a price set, with no shipping
    line. *)
Definition order1002 : value :=
  VObj [("id", VNum 1002); ("name", VStr "#1002");
        ("total_price", VStr "105.00"); ("current_total_price", VStr "105.00");
        ("financial_status", VStr "paid"); ("tags", VStr "");
        ("total_shipping_price_set",
         VObj [("shop_money", VObj [("amount", VStr "5.00")])]);
        ("line_items", VArr [])].

(** Order 1001 once every line item is refunded. *)
Definition order1001_emptied : value :=
  VObj [("id", VNum 1001); ("name", VStr "#1001");
        ("total_price", VStr "100.00"); ("current_total_price", VStr "0.00");
        ("financial_status", VStr "refunded"); ("tags", VStr "");
        ("line_items", VArr [])].

(** Refunds on order 1001: the whole amount, and a part of it. *)
Definition refund_full : value :=
  VObj [("id", VNum 9001); ("order_id", VNum 1001); ("amount", VStr "100.00")].

Definition refund_partial : value :=
  VObj [("id", VNum 9002); ("order_id", VNum 1001); ("amount", VStr "40.00")].

(** The CRM knows deal 501 and the storefront returns order 1001, as it was
    and emptied. *)
Definition crm_and_store : World :=
  world (Build_script [deal501] VUndef order1001 never).

Definition crm_and_emptied_store : World :=
  world (Build_script [deal501] VUndef order1001_emptied never).

(** The CRM knows no deal. *)
Definition empty_crm : World :=
  world (Build_script [] VUndef order1001 never).

(** The CRM answers [crm.deal.add] without a result. *)
Definition crm_creating_nothing : World :=
  world (Build_script [] (VObj [("error", VStr "ACCESS_DENIED")]) VUndef never).

(** The CRM creates deal 77; in the second world it refuses every contact
    upsert. *)
Definition crm_creating : World :=
  world (Build_script [] (VObj [("result", VNum 77)]) VUndef never).

Definition crm_refusing_contacts : World :=
  world (Build_script [] (VObj [("result", VNum 77)]) VUndef
           (fun c => match c with
                     | upsertBitrixContact _ _ => true
                     | _ => false
                     end)).

(** A deal of the default pipeline, category 0, for order 1001. *)
Definition deal500 : value :=
  VObj [("ID", VStr "500"); ("OPPORTUNITY", VStr "100.00");
        ("STAGE_ID", VStr "C0:WON"); ("CATEGORY_ID", VStr "0")].

Definition default_pipeline_crm_and_store : World :=
  world (Build_script [deal500] VUndef order1001 never).

(** An order with a discount, a tax, and a shipping line of 5 beside a
    shipping price set of 7. *)
Definition order1003 : value :=
  VObj [("id", VNum 1003); ("name", VStr "#1003");
        ("total_price", VStr "100.00"); ("current_total_price", VStr "100.00");
        ("current_total_discounts", VStr "10.00");
        ("current_total_tax", VStr "8.00");
        ("total_shipping_price_set",
         VObj [("shop_money", VObj [("amount", VStr "7.00")])]);
        ("shipping_lines", VArr [VObj [("price", VStr "5.00")]]);
        ("financial_status", VStr "paid"); ("tags", VStr "");
        ("line_items", VArr [])].

(** The storefront client cannot be loaded; the storefront returns nothing;
    the CRM refuses every replacement of rows. *)
Definition crm_without_client : World :=
  world (Build_script [deal501] VUndef order1001
           (fun c => match c with
                     | import_adminClient => true
                     | _ => false
                     end)).

Definition crm_and_silent_store : World :=
  world (Build_script [deal501] VUndef VNull never).

Definition crm_refusing_rows : World :=
  world (Build_script [deal501] VUndef order1001 is_productrows_set).

Definition post (topic : string) (payload : value) : request :=
  {| method := VStr "POST";
     headers := [("x-shopify-topic", VStr topic)];
     body := payload |}.

End Sample.

(** ** Vocabulary of the properties *)

Local Open Scope list_scope.

(** The lookup issued after [tr] for the order [id] finds [deal]: the first
    element of the answer's [result], and a truthy one. *)
Definition locates (W : World) (tr : list call) (id deal : value) : Prop :=
  exists listResp result,
    respond W tr (deal_list (ToString W id)) = Ok listResp /\
    Js.get listResp "result" = Ok result /\
    Js.opt_index0 result = deal /\
    Js.truthy deal = true.

(** The lookup issued after [tr] for the order [id] answers, and finds
    nothing. *)
Definition locates_nothing (W : World) (tr : list call) (id : value) : Prop :=
  exists listResp result,
    respond W tr (deal_list (ToString W id)) = Ok listResp /\
    Js.get listResp "result" = Ok result /\
    Js.truthy (Js.opt_index0 result) = false.

Definition no_call (p : call -> bool) (tr : list call) : Prop :=
  forallb (fun c => negb (p c)) tr = true.

Definition count_calls (p : call -> bool) (tr : list call) : nat :=
  List.length (filter p tr).

(** The order provides a shipping amount, in the words of the specification:
    any source of the fallback chain is there, the current or the original
    price set, the flat field, or the price of the first shipping line. *)
Definition providesShippingPrice (order : value) : bool :=
  Js.strict_neq
    (shop_money_amount (Js.opt_get order "current_total_shipping_price_set")) VUndef
  || Js.strict_neq
       (shop_money_amount (Js.opt_get order "total_shipping_price_set")) VUndef
  || Js.strict_neq (Js.opt_get order "shipping_price") VUndef
  || Js.strict_neq
       (Js.opt_get (Js.opt_index0 (Js.opt_get order "shipping_lines")) "price") VUndef.

(** [Number(deal.CATEGORY_ID) || 2], for a deal that is there. *)
Definition currentCategory (W : World) (deal : value) : value :=
  Js.or (VNum (ToNumber W (Js.opt_get deal "CATEGORY_ID"))) (VNum 2).

(** After [tr], the storefront client loads and returns the order [id], a
    truthy [shopifyOrder]. *)
Definition fetches (W : World) (tr : list call) (id : string) (shopifyOrder : value)
  : Prop :=
  (exists client, respond W tr import_adminClient = Ok client) /\
  respond W (tr ++ [import_adminClient]) (getOrder id) = Ok shopifyOrder /\
  Js.truthy shopifyOrder = true.

(** The amounts the refund threshold compares. *)
Definition refundAmount (W : World) (refundData : value) : float :=
  ToNumber W (Js.or (Js.opt_get refundData "amount") (VNum 0)).

Definition orderTotal (W : World) (shopifyOrder : value) : float :=
  ToNumber W (Js.or (Js.opt_get shopifyOrder "total_price") (VNum 0)).

Definition remainingAmount (W : World) (refundData shopifyOrder : value) : float :=
  (orderTotal W shopifyOrder - refundAmount W refundData)%float.

(** A tag equals a configured preorder tag up to case. *)
Definition matchesPreorderTag (tag : string) : Prop :=
  exists preorderTag,
    In preorderTag preorderTags /\
    Str.toLowerCase tag = Str.toLowerCase preorderTag.

(** Two lists of tags that differ by case only. *)
Definition sameUpToCase (tags tags' : list string) : Prop :=
  Forall2 (fun tag tag' => Str.toLowerCase tag = Str.toLowerCase tag') tags tags'.

(** The contact step of [handleOrderCreated], as the handler has it: its
    [try] block and its [catch]. *)
Definition contactStep (W : World) (order : value) (dealFields : obj) : M obj :=
  try_catch
    (bitrixBase <- perform W getBitrixWebhookBase ;;
     contactId <- perform W (upsertBitrixContact bitrixBase order) ;;
     ret (if Js.truthy contactId
          then obj_set dealFields "CONTACT_ID" contactId
          else dealFields))
    (fun _ => ret dealFields).

(** The steps of [handleOrderCreated] after the contact: the creation of the
    deal and the setting of its rows. *)
Definition createAndSync (W : World) (productRows : list value) (dealFields : obj)
  : M value :=
  dealAddResp <- perform W (deal_add dealFields) ;;
  result <- lift (Js.get dealAddResp "result") ;;
  if negb (Js.truthy result) then throw (FailedToCreateDeal dealAddResp)
  else
    (if nonempty productRows
     then try_catch (perform W (productrows_set result productRows) ;;; ret tt)
                    (fun _ => ret tt)
     else ret tt) ;;;
    ret result.

Definition is_deal_list (c : call) : bool :=
  match c with
  | callBitrix m _ => String.eqb m "/crm.deal.list.json"
  | _ => false
  end.

Definition is_storeEvent (c : call) : bool :=
  match c with
  | storeEvent _ => true
  | _ => false
  end.

Definition is_contact_call (c : call) : bool :=
  match c with
  | getBitrixWebhookBase | upsertBitrixContact _ _ => true
  | _ => false
  end.

(** [calls] is an initial segment of [full]. *)
Definition prefix_of (calls full : list call) : Prop :=
  exists rest, calls ++ rest = full.

(** The amount [handleOrderUpdated] compares with the deal's. *)
Definition newAmount (W : World) (order : value) : float :=
  ToNumber W (Js.or (Js.or (Js.opt_get order "current_total_price")
                           (Js.opt_get order "total_price")) (VNum 0)).

(** The topic is none of the three the endpoint handles. *)
Definition unhandled (topic : value) : Prop :=
  Js.strict_eq topic (VStr "orders/create") = false /\
  Js.strict_eq topic (VStr "orders/updated") = false /\
  Js.strict_eq topic (VStr "refunds/create") = false.

(** A field that is there under a condition. *)
Definition when (b : bool) (k : string) (v : value) : obj :=
  if b then [(k, v)] else [].

(** The shipping amount [handleOrderUpdated] sends: the first truthy source
    of the chain, or 0. *)
Definition shippingAmount (W : World) (order : value) : float :=
  ToNumber W
    (Js.or (Js.or (Js.or (Js.or
       (shop_money_amount (Js.opt_get order "current_total_shipping_price_set"))
       (shop_money_amount (Js.opt_get order "total_shipping_price_set")))
       (Js.opt_get order "shipping_price"))
       (Js.opt_get (Js.opt_index0 (Js.opt_get order "shipping_lines")) "price"))
       (VNum 0)).

(** The stage the order's financial status maps to in a category. *)
Definition targetStage (W : World) (order categoryId : value) : value :=
  financialStatusToStageId W (Js.opt_get order "financial_status") categoryId.

(** The diff of an update, field by field and in the order of the keys. *)
Definition diffOf (W : World) (order deal categoryId : value) : obj :=
  when (Js.strict_neq categoryId (currentCategory W deal)) "CATEGORY_ID" categoryId ++
  when (negb (PrimFloat.eqb (newAmount W order)
                            (ToNumber W (Js.opt_get deal "OPPORTUNITY"))))
       "OPPORTUNITY" (VNum (newAmount W order)) ++
  when (Js.strict_neq (targetStage W order categoryId) (Js.opt_get deal "STAGE_ID"))
       "STAGE_ID" (targetStage W order categoryId) ++
  [(PAYMENT_STATUS,
    financialStatusToPaymentStatus W (Js.opt_get order "financial_status"))] ++
  when (Js.strict_neq (Js.opt_get order "current_total_discounts") VUndef)
       "UF_SHOPIFY_TOTAL_DISCOUNT"
       (VNum (ToNumber W (Js.opt_get order "current_total_discounts"))) ++
  when (Js.strict_neq (Js.opt_get order "current_total_tax") VUndef)
       "UF_SHOPIFY_TOTAL_TAX"
       (VNum (ToNumber W (Js.opt_get order "current_total_tax"))) ++
  when (Js.strict_neq
          (Js.opt_get (Js.opt_index0 (Js.opt_get order "shipping_lines")) "price") VUndef)
       "UF_SHOPIFY_SHIPPING_PRICE" (VNum (shippingAmount W order)).

(** The four monetary fields a refund re-sends, as the mapper computes
    them for the fetched order. *)
Definition refundedTotals (W : World) (shopifyOrder : value) : obj :=
  [("OPPORTUNITY",
    obj_get (fst (mapShopifyOrderToBitrixDeal W shopifyOrder)) "OPPORTUNITY");
   ("UF_SHOPIFY_TOTAL_DISCOUNT",
    obj_get (fst (mapShopifyOrderToBitrixDeal W shopifyOrder)) "UF_SHOPIFY_TOTAL_DISCOUNT");
   ("UF_SHOPIFY_SHIPPING_PRICE",
    obj_get (fst (mapShopifyOrderToBitrixDeal W shopifyOrder)) "UF_SHOPIFY_SHIPPING_PRICE");
   ("UF_SHOPIFY_TOTAL_TAX",
    obj_get (fst (mapShopifyOrderToBitrixDeal W shopifyOrder)) "UF_SHOPIFY_TOTAL_TAX")].

(** *** Tags, in the words of the specification

    What "case-insensitively equal", "comma-delimited" and the blanks around
    a tag mean, stated on their own: by the table of the letters and their
    capitals, by the list of the white-space characters, and by the
    concatenation of the standard library, not by the functions the code
    calls. *)

(** Each capital with its small letter: the basic Latin alphabet, then the
    letters of Latin-1, U+00C0 to U+00D6 and U+00D8 to U+00DE with U+00E0 to
    U+00F6 and U+00F8 to U+00FE. *)
Definition capitals : list (ascii * ascii) :=
  combine (list_ascii_of_string "ABCDEFGHIJKLMNOPQRSTUVWXYZ")
          (list_ascii_of_string "abcdefghijklmnopqrstuvwxyz")
  ++ combine (map ascii_of_nat (seq 192 23 ++ seq 216 7))
             (map ascii_of_nat (seq 224 23 ++ seq 248 7)).

(** Two characters are the same letter: equal, or a capital and its small
    letter, either way round. *)
Definition same_letter (c d : ascii) : bool :=
  Ascii.eqb c d
  || existsb (fun p => (Ascii.eqb c (fst p) && Ascii.eqb d (snd p))
                       || (Ascii.eqb c (snd p) && Ascii.eqb d (fst p)))
             capitals.

(** Two strings are equal up to case: letter by letter. *)
Fixpoint same_up_to_case (a b : string) : bool :=
  match a, b with
  | EmptyString, EmptyString => true
  | String c a', String d b' => same_letter c d && same_up_to_case a' b'
  | _, _ => false
  end.

(** TAB, LF, VT, FF, CR, SP and NBSP. *)
Definition white_space : list ascii :=
  ["009"; "010"; "011"; "012"; "013"; " "; "160"]%char.

Definition white (c : ascii) : bool := existsb (Ascii.eqb c) white_space.

(** A string of white space only. *)
Definition blank (s : string) : bool := forallb white (list_ascii_of_string s).

Fixpoint last_char (s : string) : option ascii :=
  match s with
  | EmptyString => None
  | String c r =>
      match last_char r with
      | None => Some c
      | Some d => Some d
      end
  end.

(** A string that neither starts nor ends with white space. *)
Definition tight (s : string) : bool :=
  match s with
  | EmptyString => true
  | String c _ => negb (white c)
  end
  && match last_char s with
     | None => true
     | Some c => negb (white c)
     end.

Definition comma_free (s : string) : bool :=
  negb (existsb (Ascii.eqb ","%char) (list_ascii_of_string s)).

(** A tag as a delimited string holds it: with blanks before and after. *)
Record padded_tag : Type := {
  before : string;
  tag_of : string;
  after : string
}.

Definition well_padded (p : padded_tag) : bool :=
  blank (before p) && blank (after p) && tight (tag_of p) && comma_free (tag_of p).

Definition piece_of (p : padded_tag) : string :=
  (before p ++ tag_of p ++ after p)%string.

(** The comma-delimited string that lists the tags. *)
Definition delimited (tags : list padded_tag) : string :=
  String.concat "," (map piece_of tags).

(** Some tag equals a configured preorder tag up to case. *)
Definition holds_preorder_tag (tags : list string) : Prop :=
  exists tag preorderTag,
    In tag tags /\ In preorderTag preorderTags /\
    same_up_to_case tag preorderTag = true.

(** Every character, for the facts that are checked character by
    character. *)
Definition all_ascii : list ascii := map ascii_of_nat (seq 0 256).

(** The deal's category, as a number. *)
Definition dealCategory (W : World) (deal : value) : float :=
  ToNumber W (Js.opt_get deal "CATEGORY_ID").

(** A [refunds/create] request for the order [oid], whose lookup, issued
    after the event is stored, finds [deal]. *)
Definition located_refund
  (W : World) (req : request) (oid deal : value) (tr : list call) : Prop :=
  Js.strict_neq (method req) (VStr "POST") = false /\
  topicOf req = VStr "refunds/create" /\
  Js.get (body req) "order_id" = Ok oid /\
  locates W (tr ++ [storeEvent (body req)]) oid deal.

(** ** Basic facts *)

Lemma truthy_not_nullish (v : value) : Js.truthy v = true -> Js.nullish v = false.
Proof. destruct v; simpl; congruence. Qed.

Lemma get_defined (v : value) (k : string) :
  Js.nullish v = false -> Js.get v k = Ok (Js.opt_get v k).
Proof. destruct v; simpl; congruence. Qed.

Lemma get_Ok_not_nullish (v : value) (k : string) (x : value) :
  Js.get v k = Ok x -> Js.nullish v = false.
Proof. destruct v; simpl; congruence. Qed.

Lemma nonempty_false {A} (l : list A) : nonempty l = false -> l = [].
Proof. destruct l; simpl; congruence. Qed.

Lemma has_key_obj_set (o : obj) (k k' : string) (v : value) :
  has_key (obj_set o k v) k' = (String.eqb k' k || has_key o k').
Proof.
  unfold has_key, obj_keys.
  induction o as [|[k0 v0] o IH]; simpl.
  - reflexivity.
  - destruct (String.eqb_spec k0 k) as [->|Hne]; simpl.
    + destruct (String.eqb k' k); reflexivity.
    + rewrite IH. destruct (String.eqb k' k0), (String.eqb k' k); reflexivity.
Qed.

Lemma has_key_cond_set (b : bool) (o : obj) (k k' : string) (v : value) :
  has_key (if b then obj_set o k v else o) k' = (b && String.eqb k' k || has_key o k').
Proof. destruct b; simpl; [apply has_key_obj_set | reflexivity]. Qed.

Lemma has_key_nonempty (o : obj) (k : string) :
  has_key o k = true -> nonempty (obj_keys o) = true.
Proof. destruct o; simpl; [discriminate | reflexivity]. Qed.

(** Running a computation one step at a time. *)
Ltac run :=
  unfold bind, lift, perform, ret, throw, try_catch; simpl.

(** ** The method gate *)

(** C10: for every request whose method is not POST the handler answers 405
    and does nothing else: the trace of calls is left as it was, so no event
    is stored and no CRM or storefront call is made. *)
Theorem C10_non_post_is_rejected_without_effects
  (W : World) (requestId : string) (req : request) (tr : list call) :
  Js.strict_neq (method req) (VStr "POST") = true ->
  handler W requestId req tr =
    (tr, Ok {| status := 405; payload := EndText "Method not allowed" |}).
Proof.
  intros Hmethod. unfold handler. rewrite Hmethod. reflexivity.
Qed.

Lemma C10_witness :
  Js.strict_neq (method {| method := VStr "GET"; headers := []; body := Sample.order1001 |})
                (VStr "POST") = true /\
  handler (Sample.world (Sample.Build_script [Sample.deal501] VUndef VUndef Sample.never))
          "r1" {| method := VStr "GET"; headers := []; body := Sample.order1001 |} [] =
    ([], Ok {| status := 405; payload := EndText "Method not allowed" |}).
Proof.
  split.
  - reflexivity.
  - apply (C10_non_post_is_rejected_without_effects
             (Sample.world (Sample.Build_script [Sample.deal501] VUndef VUndef Sample.never))
             "r1" {| method := VStr "GET"; headers := []; body := Sample.order1001 |} []).
    reflexivity.
Defined.

(** ** The update diff *)

(** Which keys the diff of [handleOrderUpdated] carries, whenever the payload
    and the deal are objects to read from and the tags route to a category. *)
Lemma orderUpdatedFields_keys (W : World) (order deal categoryId : value) :
  Js.nullish order = false ->
  Js.nullish deal = false ->
  categoryFor W (Js.opt_get order "tags") = Ok categoryId ->
  exists fields,
    orderUpdatedFields W order deal = Ok fields /\
    has_key fields PAYMENT_STATUS = true /\
    has_key fields "UF_SHOPIFY_TOTAL_DISCOUNT" =
      Js.strict_neq (Js.opt_get order "current_total_discounts") VUndef /\
    has_key fields "UF_SHOPIFY_TOTAL_TAX" =
      Js.strict_neq (Js.opt_get order "current_total_tax") VUndef /\
    has_key fields "UF_SHOPIFY_SHIPPING_PRICE" =
      Js.strict_neq
        (Js.opt_get (Js.opt_index0 (Js.opt_get order "shipping_lines")) "price") VUndef.
Proof.
  intros Ho Hd Hcat.
  unfold orderUpdatedFields, currentCategoryOf, shippingPrice, firstShippingLinePrice.
  rewrite !(get_defined order) by assumption.
  rewrite !(get_defined deal) by assumption.
  cbn [rbind]. rewrite Hcat. cbn [rbind].
  destruct (Js.strict_neq
              (Js.opt_get (Js.opt_index0 (Js.opt_get order "shipping_lines")) "price")
              VUndef) eqn:Hship.
  all: eexists; split; [reflexivity|].
  all: unfold PAYMENT_STATUS.
  all: repeat (rewrite has_key_obj_set || rewrite has_key_cond_set).
  all: cbn [String.eqb Ascii.eqb Bool.eqb has_key obj_keys map existsb].
  all: rewrite ?andb_false_r, ?andb_true_r, ?orb_false_r; cbn [orb].
  all: rewrite ?andb_false_r, ?andb_true_r, ?orb_false_r, ?orb_true_r; cbn [orb].
  all: repeat split.
Qed.

(** The run of [handleOrderUpdated] once the deal is located and the diff is
    computed: the update call, and after it, unless it fails, the replacement
    of the product rows. *)
Lemma handleOrderUpdated_located
  (W : World) (order id deal : value) (fields : obj) (tr : list call) :
  Js.get order "id" = Ok id ->
  locates W tr id deal ->
  orderUpdatedFields W order deal = Ok fields ->
  nonempty (obj_keys fields) = true ->
  handleOrderUpdated W order tr =
    match respond W (tr ++ [deal_list (ToString W id)])
                  (deal_update (Js.opt_get deal "ID") fields) with
    | Throw e =>
        (tr ++ [deal_list (ToString W id);
                deal_update (Js.opt_get deal "ID") fields], Throw e)
    | Ok _ =>
        (tr ++ [deal_list (ToString W id);
                deal_update (Js.opt_get deal "ID") fields;
                productrows_set (Js.opt_get deal "ID")
                                (snd (mapShopifyOrderToBitrixDeal W order))],
         Ok (Js.opt_get deal "ID"))
    end.
Proof.
  intros Hid (listResp & result & Hlist & Hres & Hdeal & Htruthy) Hfields Hne.
  pose proof (get_Ok_not_nullish _ _ _ Hid) as Ho.
  pose proof (truthy_not_nullish _ Htruthy) as Hd.
  unfold handleOrderUpdated.
  rewrite !(get_defined order) by assumption.
  rewrite (get_defined order) in Hid by assumption.
  injection Hid as <-.
  run. rewrite Hlist, Hres, Hdeal, Htruthy. simpl.
  rewrite (get_defined deal) by assumption.
  rewrite Hfields, Hne.
  destruct (respond W _ (deal_update _ _)) as [ack|e]; simpl.
  - unfold resyncProductRows.
    destruct (nonempty (snd (mapShopifyOrderToBitrixDeal W order))) eqn:Hrows.
    + run. destruct (respond W _ (productrows_set _ _)); simpl;
        rewrite <- !app_assoc; reflexivity.
    + apply nonempty_false in Hrows. rewrite Hrows.
      run. destruct (respond W _ (productrows_set _ _)); simpl;
        rewrite <- !app_assoc; reflexivity.
  - rewrite <- !app_assoc. reflexivity.
Qed.

(** C1 (amended): on an [orders/updated] event where a deal is located and
    the tags route to a category, the computed diff always carries the
    payment-status field, so it is never empty, and the update-deal call is
    issued exactly once, with that diff and right after the lookup, whether or
    not category, amount or stage changed. *)
Theorem C1_update_always_issued_with_payment_status
  (W : World) (order id deal categoryId : value) (tr : list call) :
  Js.get order "id" = Ok id ->
  locates W tr id deal ->
  categoryFor W (Js.opt_get order "tags") = Ok categoryId ->
  exists fields rest outcome,
    orderUpdatedFields W order deal = Ok fields /\
    has_key fields PAYMENT_STATUS = true /\
    nonempty (obj_keys fields) = true /\
    handleOrderUpdated W order tr =
      (tr ++ [deal_list (ToString W id);
              deal_update (Js.opt_get deal "ID") fields] ++ rest, outcome) /\
    no_call is_deal_update rest.
Proof.
  intros Hid Hloc Hcat.
  pose proof (get_Ok_not_nullish _ _ _ Hid) as Ho.
  assert (Hd : Js.nullish deal = false).
  { destruct Hloc as (? & ? & _ & _ & _ & Ht). now apply truthy_not_nullish. }
  destruct (orderUpdatedFields_keys W order deal categoryId Ho Hd Hcat)
    as (fields & Hfields & Hpay & _).
  pose proof (has_key_nonempty _ _ Hpay) as Hne.
  rewrite (handleOrderUpdated_located W order id deal fields tr Hid Hloc Hfields Hne).
  exists fields.
  destruct (respond W _ (deal_update _ _)) as [ack|e].
  - exists [productrows_set (Js.opt_get deal "ID")
                            (snd (mapShopifyOrderToBitrixDeal W order))].
    eexists. repeat split; assumption || reflexivity.
  - exists []. eexists. repeat split; assumption || reflexivity.
Qed.

Lemma C1_witness :
  exists fields rest outcome,
    orderUpdatedFields Sample.crm Sample.order1001 Sample.deal501 = Ok fields /\
    has_key fields PAYMENT_STATUS = true /\
    nonempty (obj_keys fields) = true /\
    handleOrderUpdated Sample.crm Sample.order1001 [] =
      ([] ++ [deal_list (ToString Sample.crm (VNum 1001));
              deal_update (Js.opt_get Sample.deal501 "ID") fields] ++ rest, outcome) /\
    no_call is_deal_update rest.
Proof.
  apply (C1_update_always_issued_with_payment_status
           Sample.crm Sample.order1001 (VNum 1001) Sample.deal501 (VNum 2) []).
  - reflexivity.
  - exists (VObj [("result", VArr [Sample.deal501])]), (VArr [Sample.deal501]).
    repeat split; reflexivity.
  - vm_compute. reflexivity.
Defined.

(** C1, as stated, fails: order 1001 arrives with the category, the amount and
    the stage deal 501 already has, and the update-deal call is issued all the
    same, with the payment-status field alone. *)
Lemma C1_counterexample_unchanged_deal_is_updated :
  locates Sample.crm [] (VNum 1001) Sample.deal501 /\
  categoryFor Sample.crm (VStr "") = Ok (VNum 2) /\
  currentCategoryOf Sample.crm Sample.deal501 = Ok (VNum 2) /\
  PrimFloat.eqb (ToNumber Sample.crm (VStr "100.00"))
                (ToNumber Sample.crm (Js.opt_get Sample.deal501 "OPPORTUNITY")) = true /\
  Js.strict_neq (financialStatusToStageId Sample.crm (VStr "paid") (VNum 2))
                (Js.opt_get Sample.deal501 "STAGE_ID") = false /\
  orderUpdatedFields Sample.crm Sample.order1001 Sample.deal501 =
    Ok [(PAYMENT_STATUS, VStr "56")] /\
  fst (handleOrderUpdated Sample.crm Sample.order1001 []) =
    [deal_list "1001";
     deal_update (VStr "501") [(PAYMENT_STATUS, VStr "56")];
     productrows_set (VStr "501")
       (snd (Sample.mapShopifyOrderToBitrixDeal Sample.order1001))] /\
  count_calls is_deal_update (fst (handleOrderUpdated Sample.crm Sample.order1001 [])) = 1%nat.
Proof.
  split.
  - exists (VObj [("result", VArr [Sample.deal501])]), (VArr [Sample.deal501]).
    repeat split; reflexivity.
  - repeat split; vm_compute; reflexivity.
Qed.

(** ** The full resync of the product rows *)

(** C6 (amended): on an [orders/updated] event where a deal is located, the
    tags route to a category and the update-deal call does not fail, exactly
    one set-product-rows call occurs, after the update call and whatever the
    diff is, with the rows the mapper computes for the order (the empty row
    set when there are none), and the handler returns the deal even if that
    call fails. *)
Theorem C6_rows_replaced_once_when_update_succeeds
  (W : World) (order id deal categoryId : value) (tr : list call) :
  Js.get order "id" = Ok id ->
  locates W tr id deal ->
  categoryFor W (Js.opt_get order "tags") = Ok categoryId ->
  (forall fields,
      orderUpdatedFields W order deal = Ok fields ->
      exists ack,
        respond W (tr ++ [deal_list (ToString W id)])
                (deal_update (Js.opt_get deal "ID") fields) = Ok ack) ->
  exists fields,
    orderUpdatedFields W order deal = Ok fields /\
    handleOrderUpdated W order tr =
      (tr ++ [deal_list (ToString W id);
              deal_update (Js.opt_get deal "ID") fields;
              productrows_set (Js.opt_get deal "ID")
                              (snd (mapShopifyOrderToBitrixDeal W order))],
       Ok (Js.opt_get deal "ID")) /\
    count_calls is_productrows_set
      [deal_list (ToString W id);
       deal_update (Js.opt_get deal "ID") fields;
       productrows_set (Js.opt_get deal "ID")
                       (snd (mapShopifyOrderToBitrixDeal W order))] = 1%nat.
Proof.
  intros Hid Hloc Hcat Hupdate.
  pose proof (get_Ok_not_nullish _ _ _ Hid) as Ho.
  assert (Hd : Js.nullish deal = false).
  { destruct Hloc as (? & ? & _ & _ & _ & Ht). now apply truthy_not_nullish. }
  destruct (orderUpdatedFields_keys W order deal categoryId Ho Hd Hcat)
    as (fields & Hfields & Hpay & _).
  pose proof (has_key_nonempty _ _ Hpay) as Hne.
  exists fields. split; [assumption|].
  rewrite (handleOrderUpdated_located W order id deal fields tr Hid Hloc Hfields Hne).
  destruct (Hupdate fields Hfields) as (ack & ->).
  split; reflexivity.
Qed.

Lemma C6_witness :
  exists fields,
    orderUpdatedFields Sample.crm Sample.order1001 Sample.deal501 = Ok fields /\
    handleOrderUpdated Sample.crm Sample.order1001 [] =
      ([] ++ [deal_list (ToString Sample.crm (VNum 1001));
              deal_update (Js.opt_get Sample.deal501 "ID") fields;
              productrows_set (Js.opt_get Sample.deal501 "ID")
                (snd (mapShopifyOrderToBitrixDeal Sample.crm Sample.order1001))],
       Ok (Js.opt_get Sample.deal501 "ID")) /\
    count_calls is_productrows_set
      [deal_list (ToString Sample.crm (VNum 1001));
       deal_update (Js.opt_get Sample.deal501 "ID") fields;
       productrows_set (Js.opt_get Sample.deal501 "ID")
         (snd (mapShopifyOrderToBitrixDeal Sample.crm Sample.order1001))] = 1%nat.
Proof.
  apply (C6_rows_replaced_once_when_update_succeeds
           Sample.crm Sample.order1001 (VNum 1001) Sample.deal501 (VNum 2) []).
  - reflexivity.
  - exists (VObj [("result", VArr [Sample.deal501])]), (VArr [Sample.deal501]).
    repeat split; reflexivity.
  - vm_compute. reflexivity.
  - intros fields _. exists (VObj [("result", VBool true)]). reflexivity.
Defined.

(** C6, as stated, fails: deal 501 is located for order 1001, whose two line
    items map to two rows, the CRM refuses the update-deal call, the failure
    leaves the handler, and no set-product-rows call is made. *)
Lemma C6_counterexample_failed_update_skips_rows :
  locates Sample.crm_refusing_updates [] (VNum 1001) Sample.deal501 /\
  List.length (snd (Sample.mapShopifyOrderToBitrixDeal Sample.order1001)) = 2%nat /\
  handleOrderUpdated Sample.crm_refusing_updates Sample.order1001 [] =
    ([deal_list "1001"; deal_update (VStr "501") [(PAYMENT_STATUS, VStr "56")]],
     Throw (Error "remote failure")) /\
  count_calls is_productrows_set
    (fst (handleOrderUpdated Sample.crm_refusing_updates Sample.order1001 [])) = 0%nat.
Proof.
  split.
  - exists (VObj [("result", VArr [Sample.deal501])]), (VArr [Sample.deal501]).
    repeat split; reflexivity.
  - repeat split; vm_compute; reflexivity.
Qed.

(** ** Presence of the monetary custom fields *)

Lemma orderUpdatedFields_Ok_inv (W : World) (order deal : value) (fields : obj) :
  orderUpdatedFields W order deal = Ok fields ->
  Js.nullish order = false /\ Js.nullish deal = false /\
  exists categoryId, categoryFor W (Js.opt_get order "tags") = Ok categoryId.
Proof.
  intros H.
  assert (Hd : Js.nullish deal = false).
  { destruct deal; try reflexivity; discriminate H. }
  assert (Ho : Js.nullish order = false).
  { unfold orderUpdatedFields, currentCategoryOf in H.
    rewrite (get_defined deal) in H by assumption. cbn [rbind] in H.
    destruct order; try reflexivity; discriminate H. }
  repeat split; try assumption.
  unfold orderUpdatedFields, currentCategoryOf in H.
  rewrite (get_defined deal), (get_defined order) in H by assumption.
  cbn [rbind] in H.
  destruct (categoryFor W (Js.opt_get order "tags")) as [c|e].
  - now exists c.
  - discriminate H.
Qed.

(** C8, as stated, fails for the shipping price: order 1002 provides its
    shipping amount as a price set and has no shipping line, and the diff
    computed against deal 501 has no shipping price field. *)
Lemma C8_counterexample_shipping_amount_without_line :
  providesShippingPrice Sample.order1002 = true /\
  orderUpdatedFields Sample.crm Sample.order1002 Sample.deal501 =
    Ok [("OPPORTUNITY", VNum 105); (PAYMENT_STATUS, VStr "56")] /\
  has_key [("OPPORTUNITY", VNum 105); (PAYMENT_STATUS, VStr "56")]
          "UF_SHOPIFY_SHIPPING_PRICE" = false.
Proof. repeat split; vm_compute; reflexivity. Qed.

(** ** Refunds *)

(** A double above zero is not below or equal to it. *)
Lemma float_pos_not_le0 (r : float) :
  (0 <? r)%float = true -> (r <=? 0)%float = false.
Proof.
  rewrite FloatAxioms.ltb_spec, FloatAxioms.leb_spec.
  change (Prim2SF 0) with (S754_zero false).
  destruct (Prim2SF r) as [s|s| |s m e]; try destruct s; cbv; congruence.
Qed.

Lemma refundFields_cases (W : World) (refundData shopifyOrder category : value) :
  Js.nullish refundData = false ->
  Js.nullish shopifyOrder = false ->
  exists fields,
    refundFields W refundData shopifyOrder category = Ok fields /\
    ((remainingAmount W refundData shopifyOrder <=? 0)%float = true ->
     obj_get fields PAYMENT_STATUS = VStr "58" /\
     obj_get fields "STAGE_ID" =
       financialStatusToStageId W (VStr "refunded") category) /\
    ((0 <? remainingAmount W refundData shopifyOrder)%float = true ->
     (0 <? refundAmount W refundData)%float = true ->
     obj_get fields PAYMENT_STATUS = VStr "58" /\
     has_key fields "STAGE_ID" = false).
Proof.
  intros Hr Ho.
  unfold refundFields.
  rewrite (get_defined refundData), (get_defined shopifyOrder) by assumption.
  cbn [rbind].
  fold (refundAmount W refundData) (orderTotal W shopifyOrder).
  fold (remainingAmount W refundData shopifyOrder).
  destruct (remainingAmount W refundData shopifyOrder <=? 0)%float eqn:Hle.
  - eexists. split; [reflexivity|]. split.
    + intros _. split; reflexivity.
    + intros Hpos _. apply float_pos_not_le0 in Hpos. congruence.
  - destruct (0 <? refundAmount W refundData)%float eqn:Hpos.
    + eexists. split; [reflexivity|]. split.
      * discriminate.
      * intros _ _. split; reflexivity.
    + eexists. split; [reflexivity|]. split; [discriminate|].
      intros _ H. discriminate H.
Qed.

(** The run of [handleRefundCreated] once the deal is located and the order
    is fetched: the update call, and after it, unless it fails, the
    replacement of the product rows when there are rows. *)
Lemma handleRefundCreated_fetched
  (W : World) (refundData oid deal shopifyOrder : value) (fields : obj) (tr : list call) :
  Js.get refundData "order_id" = Ok oid ->
  locates W tr oid deal ->
  fetches W (tr ++ [deal_list (ToString W oid)]) (ToString W oid) shopifyOrder ->
  refundFields W refundData shopifyOrder (currentCategory W deal) = Ok fields ->
  handleRefundCreated W refundData tr =
    (tr ++ [deal_list (ToString W oid); import_adminClient; getOrder (ToString W oid);
            deal_update (Js.opt_get deal "ID") fields] ++
       match respond W (tr ++ [deal_list (ToString W oid); import_adminClient;
                               getOrder (ToString W oid)])
                     (deal_update (Js.opt_get deal "ID") fields) with
       | Throw _ => []
       | Ok _ =>
           if nonempty (snd (mapShopifyOrderToBitrixDeal W shopifyOrder))
           then [productrows_set (Js.opt_get deal "ID")
                                 (snd (mapShopifyOrderToBitrixDeal W shopifyOrder))]
           else []
       end,
     Ok (Js.opt_get deal "ID")).
Proof.
  intros Hid (listResp & result & Hlist & Hres & Hdeal & Htruthy)
         ((client & Himport) & Hget & Horder) Hfields.
  pose proof (truthy_not_nullish _ Htruthy) as Hd.
  unfold handleRefundCreated, currentCategoryOf.
  rewrite Hid. run. rewrite Hlist, Hres, Hdeal, Htruthy. simpl.
  rewrite !(get_defined deal) by assumption. simpl.
  rewrite Himport, Hget, Horder. simpl.
  unfold applyRefund. fold (currentCategory W deal). rewrite Hfields. run.
  replace (((tr ++ [deal_list (ToString W oid)]) ++ [import_adminClient]) ++
           [getOrder (ToString W oid)])
    with (tr ++ [deal_list (ToString W oid); import_adminClient;
                 getOrder (ToString W oid)])
    by (rewrite <- !app_assoc; reflexivity).
  destruct (respond W _ (deal_update _ _)) as [ack|e]; simpl.
  - destruct (nonempty (snd (mapShopifyOrderToBitrixDeal W shopifyOrder))); run.
    + destruct (respond W _ (productrows_set _ _)); simpl;
        rewrite <- !app_assoc; reflexivity.
    + rewrite <- !app_assoc. reflexivity.
  - rewrite <- !app_assoc. reflexivity.
Qed.

(** The two examples of the specification: 100 refunded out of 100 forces the
    refunded stage, 40 out of 100 leaves the stage alone. *)
Example refund_100_of_100 :
  refundFields Sample.crm_and_store Sample.refund_full Sample.order1001 (VNum 2) =
    Ok [("OPPORTUNITY", VNum 100); ("UF_SHOPIFY_TOTAL_DISCOUNT", VNum 0);
        ("UF_SHOPIFY_SHIPPING_PRICE", VNum 0); ("UF_SHOPIFY_TOTAL_TAX", VNum 0);
        (PAYMENT_STATUS, VStr "58"); ("STAGE_ID", VStr "C2:LOSE")].
Proof. vm_compute. reflexivity. Qed.

Example refund_40_of_100 :
  refundFields Sample.crm_and_store Sample.refund_partial Sample.order1001 (VNum 2) =
    Ok [("OPPORTUNITY", VNum 100); ("UF_SHOPIFY_TOTAL_DISCOUNT", VNum 0);
        ("UF_SHOPIFY_SHIPPING_PRICE", VNum 0); ("UF_SHOPIFY_TOTAL_TAX", VNum 0);
        (PAYMENT_STATUS, VStr "58")].
Proof. vm_compute. reflexivity. Qed.

(** C7: the claim asks for the rows to be replaced also when the recomputed
    set is empty; the refund path does not do it.  Once the deal is located
    and the order is fetched, an order that maps to no product row leads to
    the update call and to nothing else: no set-product-rows call is made,
    and the rows the deal had stay. *)
Theorem C7_refund_leaves_rows_when_none_remain
  (W : World) (refundData oid deal shopifyOrder : value) (tr : list call) :
  Js.get refundData "order_id" = Ok oid ->
  locates W tr oid deal ->
  fetches W (tr ++ [deal_list (ToString W oid)]) (ToString W oid) shopifyOrder ->
  snd (mapShopifyOrderToBitrixDeal W shopifyOrder) = [] ->
  exists fields,
    handleRefundCreated W refundData tr =
      (tr ++ [deal_list (ToString W oid); import_adminClient;
              getOrder (ToString W oid);
              deal_update (Js.opt_get deal "ID") fields],
       Ok (Js.opt_get deal "ID")) /\
    no_call is_productrows_set
      [deal_list (ToString W oid); import_adminClient; getOrder (ToString W oid);
       deal_update (Js.opt_get deal "ID") fields].
Proof.
  intros Hid Hloc Hfetch Hrows.
  pose proof (get_Ok_not_nullish _ _ _ Hid) as Hr.
  assert (Ho : Js.nullish shopifyOrder = false).
  { destruct Hfetch as (_ & _ & Ht). now apply truthy_not_nullish. }
  destruct (refundFields_cases W refundData shopifyOrder (currentCategory W deal) Hr Ho)
    as (fields & Hfields & _).
  exists fields. split; [|reflexivity].
  rewrite (handleRefundCreated_fetched W refundData oid deal shopifyOrder fields tr)
    by assumption.
  rewrite Hrows. simpl.
  destruct (respond W _ (deal_update _ _)); simpl; reflexivity.
Qed.

Lemma C7_witness :
  exists fields,
    handleRefundCreated Sample.crm_and_emptied_store Sample.refund_full [] =
      ([] ++ [deal_list (ToString Sample.crm_and_emptied_store (VNum 1001));
              import_adminClient;
              getOrder (ToString Sample.crm_and_emptied_store (VNum 1001));
              deal_update (Js.opt_get Sample.deal501 "ID") fields],
       Ok (Js.opt_get Sample.deal501 "ID")) /\
    no_call is_productrows_set
      [deal_list (ToString Sample.crm_and_emptied_store (VNum 1001));
       import_adminClient;
       getOrder (ToString Sample.crm_and_emptied_store (VNum 1001));
       deal_update (Js.opt_get Sample.deal501 "ID") fields].
Proof.
  apply (C7_refund_leaves_rows_when_none_remain Sample.crm_and_emptied_store
           Sample.refund_full (VNum 1001) Sample.deal501 Sample.order1001_emptied []).
  - reflexivity.
  - exists (VObj [("result", VArr [Sample.deal501])]), (VArr [Sample.deal501]).
    repeat split; reflexivity.
  - split; [exists (VObj []); reflexivity | split; reflexivity].
  - reflexivity.
Defined.

(** The same order through [handleOrderUpdated]: the sibling path clears the
    rows with an explicit empty set. *)
Example update_clears_rows_when_none_remain :
  fst (handleOrderUpdated Sample.crm Sample.order1001_emptied []) =
    [deal_list "1001";
     deal_update (VStr "501")
       [("OPPORTUNITY", VNum 0); ("STAGE_ID", VStr "C2:LOSE");
        (PAYMENT_STATUS, VStr "58")];
     productrows_set (VStr "501") []].
Proof. vm_compute. reflexivity. Qed.

(** ** Failures after the lookup of a refund *)

(** Whatever the calls after the lookup answer, [handleRefundCreated] returns
    the deal it located; a fetch that fails or returns nothing leaves the CRM
    alone, and an update call that fails ends the sequence. *)
Lemma handleRefundCreated_located
  (W : World) (refundData oid deal : value) (tr : list call) :
  Js.get refundData "order_id" = Ok oid ->
  locates W tr oid deal ->
  exists calls outcome,
    handleRefundCreated W refundData tr =
      (tr ++ deal_list (ToString W oid) :: calls, Ok outcome) /\
    ((forall h c, is_deal_update c = true -> exists e, respond W h c = Throw e) ->
     no_call is_productrows_set calls) /\
    ((forall h id, match respond W h (getOrder id) with
                   | Ok shopifyOrder => Js.truthy shopifyOrder = false
                   | Throw _ => True
                   end) ->
     no_call is_mutation calls).
Proof.
  intros Hid (listResp & result & Hlist & Hres & Hdeal & Htruthy).
  pose proof (get_Ok_not_nullish _ _ _ Hid) as Hr.
  pose proof (truthy_not_nullish _ Htruthy) as Hd.
  unfold handleRefundCreated, currentCategoryOf.
  rewrite Hid. run. rewrite Hlist, Hres, Hdeal, Htruthy. simpl.
  rewrite !(get_defined deal) by assumption. simpl.
  fold (currentCategory W deal).
  destruct (respond W _ import_adminClient) as [client|e] eqn:Himport; simpl.
  2:{ exists [import_adminClient]. eexists. split.
      - rewrite <- !app_assoc. reflexivity.
      - split; intros _; reflexivity. }
  destruct (respond W _ (getOrder _)) as [shopifyOrder|e] eqn:Hget; simpl.
  2:{ exists [import_adminClient; getOrder (ToString W oid)]. eexists. split.
      - rewrite <- !app_assoc. reflexivity.
      - split; intros _; reflexivity. }
  destruct (Js.truthy shopifyOrder) eqn:Horder; simpl.
  2:{ exists [import_adminClient; getOrder (ToString W oid)]. eexists. split.
      - rewrite <- !app_assoc. reflexivity.
      - split; intros _; reflexivity. }
  pose proof (truthy_not_nullish _ Horder) as Ho.
  destruct (refundFields_cases W refundData shopifyOrder (currentCategory W deal) Hr Ho)
    as (fields & Hfields & _).
  assert (Hfetched : forall P : Prop,
             (forall h id, match respond W h (getOrder id) with
                           | Ok shopifyOrder => Js.truthy shopifyOrder = false
                           | Throw _ => True
                           end) -> P).
  { intros P H.
    specialize (H ((tr ++ [deal_list (ToString W oid)]) ++ [import_adminClient])
                  (ToString W oid)).
    rewrite Hget in H. congruence. }
  unfold applyRefund. rewrite Hfields. run.
  destruct (respond W _ (deal_update _ _)) as [ack|e] eqn:Hupdate; simpl.
  - assert (Hrefused : forall P : Prop,
               (forall h c, is_deal_update c = true -> exists e, respond W h c = Throw e) ->
               P).
    { intros P H.
      destruct (H (((tr ++ [deal_list (ToString W oid)]) ++ [import_adminClient]) ++
                   [getOrder (ToString W oid)])
                  (deal_update (Js.opt_get deal "ID") fields) eq_refl) as (e & He).
      rewrite Hupdate in He. discriminate He. }
    destruct (nonempty (snd (mapShopifyOrderToBitrixDeal W shopifyOrder))); run.
    + exists [import_adminClient; getOrder (ToString W oid);
              deal_update (Js.opt_get deal "ID") fields;
              productrows_set (Js.opt_get deal "ID")
                              (snd (mapShopifyOrderToBitrixDeal W shopifyOrder))].
      eexists. split.
      * destruct (respond W _ (productrows_set _ _)); simpl;
          rewrite <- !app_assoc; reflexivity.
      * split; [apply Hrefused | apply Hfetched].
    + exists [import_adminClient; getOrder (ToString W oid);
              deal_update (Js.opt_get deal "ID") fields].
      eexists. split.
      * rewrite <- !app_assoc. reflexivity.
      * split; [apply Hrefused | apply Hfetched].
  - exists [import_adminClient; getOrder (ToString W oid);
            deal_update (Js.opt_get deal "ID") fields].
    eexists. split.
    + rewrite <- !app_assoc. reflexivity.
    + split; [intros _; reflexivity | apply Hfetched].
Qed.

(** C9, as stated, fails: the refund of 40 on order 1001 finds deal 501 and
    fetches the order, whose two line items map to two rows; the CRM refuses
    the update-deal call, the response reports success, and the
    set-product-rows call, which would have succeeded, is never made. *)
Lemma C9_counterexample_failed_update_prevents_rows :
  locates Sample.crm_refusing_updates [storeEvent Sample.refund_partial]
          (VNum 1001) Sample.deal501 /\
  fetches Sample.crm_refusing_updates
          [storeEvent Sample.refund_partial; deal_list "1001"] "1001" Sample.order1001 /\
  List.length (snd (Sample.mapShopifyOrderToBitrixDeal Sample.order1001)) = 2%nat /\
  (forall h rows, respond Sample.crm_refusing_updates h
                          (productrows_set (VStr "501") rows) =
                  Ok (VObj [("result", VBool true)])) /\
  handler Sample.crm_refusing_updates "r1"
          (Sample.post "refunds/create" Sample.refund_partial) [] =
    ([storeEvent Sample.refund_partial; deal_list "1001"; import_adminClient;
      getOrder "1001";
      deal_update (VStr "501")
        [("OPPORTUNITY", VNum 100); ("UF_SHOPIFY_TOTAL_DISCOUNT", VNum 0);
         ("UF_SHOPIFY_SHIPPING_PRICE", VNum 0); ("UF_SHOPIFY_TOTAL_TAX", VNum 0);
         (PAYMENT_STATUS, VStr "58")]],
     Ok {| status := 200; payload := Success "r1" (VStr "refunds/create") |}) /\
  count_calls is_productrows_set
    (fst (handler Sample.crm_refusing_updates "r1"
                  (Sample.post "refunds/create" Sample.refund_partial) [])) = 0%nat.
Proof.
  split.
  { exists (VObj [("result", VArr [Sample.deal501])]), (VArr [Sample.deal501]).
    repeat split; reflexivity. }
  split.
  { split; [exists (VObj []); reflexivity | split; reflexivity]. }
  split; [reflexivity|].
  split; [intros h rows; reflexivity|].
  split; vm_compute; reflexivity.
Qed.

(** With a CRM that accepts the update, the same refund replaces the rows. *)
Example refund_replaces_rows_after_update :
  fst (handler Sample.crm_and_store "r1"
               (Sample.post "refunds/create" Sample.refund_partial) []) =
    [storeEvent Sample.refund_partial; deal_list "1001"; import_adminClient;
     getOrder "1001";
     deal_update (VStr "501")
       [("OPPORTUNITY", VNum 100); ("UF_SHOPIFY_TOTAL_DISCOUNT", VNum 0);
        ("UF_SHOPIFY_SHIPPING_PRICE", VNum 0); ("UF_SHOPIFY_TOTAL_TAX", VNum 0);
        (PAYMENT_STATUS, VStr "58")];
     productrows_set (VStr "501")
       (snd (Sample.mapShopifyOrderToBitrixDeal Sample.order1001))].
Proof. vm_compute. reflexivity. Qed.

(** ** Events without a deal *)

(** C4: on an [orders/updated] or [refunds/create] event whose order
    identifier matches no deal, the handler stores the event, looks the deal
    up and stops: no mutation call is made and the response reports
    success. *)
Theorem C4_no_deal_means_no_mutation_and_success
  (W : World) (requestId : string) (req : request) (id : value) (tr : list call) :
  Js.strict_neq (method req) (VStr "POST") = false ->
  (topicOf req = VStr "orders/updated" /\ Js.get (body req) "id" = Ok id) \/
  (topicOf req = VStr "refunds/create" /\ Js.get (body req) "order_id" = Ok id) ->
  locates_nothing W (tr ++ [storeEvent (body req)]) id ->
  handler W requestId req tr =
    (tr ++ [storeEvent (body req); deal_list (ToString W id)],
     Ok {| status := 200; payload := Success requestId (topicOf req) |}) /\
  no_call is_mutation [storeEvent (body req); deal_list (ToString W id)].
Proof.
  intros Hmethod Hevent (listResp & result & Hlist & Hres & Hnone).
  split; [|reflexivity].
  unfold handler. rewrite Hmethod. unfold dispatch.
  destruct Hevent as [[Htopic Hid]|[Htopic Hid]]; rewrite Htopic.
  - change (Js.strict_eq (VStr "orders/updated") (VStr "orders/create")) with false.
    change (Js.strict_eq (VStr "orders/updated") (VStr "orders/updated")) with true.
    cbv iota. unfold handleOrderUpdated.
    pose proof (get_Ok_not_nullish _ _ _ Hid) as Ho.
    rewrite (get_defined (body req) "name") by assumption.
    rewrite Hid. run.
    destruct (respond W tr (storeEvent (body req))); simpl;
      rewrite Hlist; simpl; rewrite Hres; simpl; rewrite Hnone; simpl;
      rewrite <- !app_assoc; reflexivity.
  - change (Js.strict_eq (VStr "refunds/create") (VStr "orders/create")) with false.
    change (Js.strict_eq (VStr "refunds/create") (VStr "orders/updated")) with false.
    change (Js.strict_eq (VStr "refunds/create") (VStr "refunds/create")) with true.
    cbv iota. unfold handleRefundCreated.
    rewrite Hid. run.
    destruct (respond W tr (storeEvent (body req))); simpl;
      rewrite Hlist; simpl; rewrite Hres; simpl; rewrite Hnone; simpl;
      rewrite <- !app_assoc; reflexivity.
Qed.

Lemma C4_witness :
  handler Sample.empty_crm "r1" (Sample.post "refunds/create" Sample.refund_full) [] =
    ([] ++ [storeEvent (body (Sample.post "refunds/create" Sample.refund_full));
            deal_list (ToString Sample.empty_crm (VNum 1001))],
     Ok {| status := 200;
           payload := Success "r1"
                        (topicOf (Sample.post "refunds/create" Sample.refund_full)) |}) /\
  no_call is_mutation
    [storeEvent (body (Sample.post "refunds/create" Sample.refund_full));
     deal_list (ToString Sample.empty_crm (VNum 1001))].
Proof.
  apply (C4_no_deal_means_no_mutation_and_success Sample.empty_crm "r1"
           (Sample.post "refunds/create" Sample.refund_full) (VNum 1001) []).
  - reflexivity.
  - right. split; reflexivity.
  - exists (VObj [("result", VArr [])]), (VArr []). repeat split; reflexivity.
Defined.

(** ** A deal that is not created *)

(** Scenario 4 of the specification, run: the contact is upserted, the deal
    creation answers without a result, and the response carries the failure. *)
Example create_without_identifier_run :
  handler Sample.crm_creating_nothing "r1"
          (Sample.post "orders/create" Sample.order1001) [] =
    ([storeEvent Sample.order1001; getBitrixWebhookBase;
      upsertBitrixContact (VStr "https://example.bitrix24.com/rest/1/token")
                          Sample.order1001;
      deal_add (obj_set (fst (Sample.mapShopifyOrderToBitrixDeal Sample.order1001))
                        "CONTACT_ID" (VStr "301"))],
     Ok {| status := 500;
           payload := InternalServerError
                        (FailedToCreateDeal (VObj [("error", VStr "ACCESS_DENIED")]))
                        "r1" |}).
Proof. vm_compute. reflexivity. Qed.

(** ** Category routing *)

Lemma hasPreorderTag_strings (tags : list string) :
  hasPreorderTag (map VStr tags) =
    Ok (existsb (fun tag =>
                   existsb (fun preorderTag =>
                              String.eqb (Str.toLowerCase tag)
                                         (Str.toLowerCase preorderTag))
                           preorderTags) tags).
Proof.
  induction tags as [|tag tags IH]; simpl.
  - reflexivity.
  - unfold rbind. rewrite IH.
    destruct (String.eqb (Str.toLowerCase tag) _); [reflexivity|].
    destruct (String.eqb (Str.toLowerCase tag) _); reflexivity.
Qed.

Lemma existsb_matchesPreorderTag (tags : list string) :
  existsb (fun tag =>
             existsb (fun preorderTag =>
                        String.eqb (Str.toLowerCase tag) (Str.toLowerCase preorderTag))
                     preorderTags) tags = true <->
  exists tag, In tag tags /\ matchesPreorderTag tag.
Proof.
  rewrite existsb_exists. split.
  - intros (tag & Hin & Hmatch). exists tag. split; [assumption|].
    apply existsb_exists in Hmatch. destruct Hmatch as (p & Hp & Heq).
    exists p. split; [assumption|]. now apply String.eqb_eq.
  - intros (tag & Hin & p & Hp & Heq). exists tag. split; [assumption|].
    apply existsb_exists. exists p. split; [assumption|]. now apply String.eqb_eq.
Qed.

Lemma categoryFor_strings (W : World) (tags : list string) :
  categoryFor W (VArr (map VStr tags)) =
    Ok (if existsb (fun tag =>
                      existsb (fun preorderTag =>
                                 String.eqb (Str.toLowerCase tag)
                                            (Str.toLowerCase preorderTag))
                              preorderTags) tags
        then CATEGORY_PREORDER W else CATEGORY_STOCK W).
Proof.
  unfold categoryFor, orderTags. rewrite hasPreorderTag_strings. reflexivity.
Qed.

Lemma existsb_sameUpToCase (tags tags' : list string) :
  sameUpToCase tags tags' ->
  existsb (fun tag =>
             existsb (fun preorderTag =>
                        String.eqb (Str.toLowerCase tag) (Str.toLowerCase preorderTag))
                     preorderTags) tags =
  existsb (fun tag =>
             existsb (fun preorderTag =>
                        String.eqb (Str.toLowerCase tag) (Str.toLowerCase preorderTag))
                     preorderTags) tags'.
Proof.
  induction 1 as [|tag tag' tags tags' Heq _ IH]; cbn [existsb].
  - reflexivity.
  - rewrite Heq, IH. reflexivity.
Qed.

(** The routing on sample tags: a delimited string with blanks and capitals,
    and a list that holds something else than strings, where [toLowerCase]
    is missing and the handler throws. *)
Example delimited_tags_route_to_preorder :
  categoryFor Sample.crm (VStr "sale, Pre-Order ,vip") = Ok (VNum 8).
Proof. vm_compute. reflexivity. Qed.

Example numeric_tag_throws (W : World) :
  categoryFor W (VArr [VNum 42; VStr "pre-order"]) = Throw TypeError.
Proof. reflexivity. Qed.

(** ** The sequence of calls of an event *)

Lemma count_calls_app (p : call -> bool) (l1 l2 : list call) :
  count_calls p (l1 ++ l2) = (count_calls p l1 + count_calls p l2)%nat.
Proof. unfold count_calls. rewrite filter_app, List.length_app. reflexivity. Qed.

Lemma prefix_no_call (p : call -> bool) (calls full : list call) :
  prefix_of calls full -> no_call p full -> no_call p calls.
Proof.
  intros (rest & <-). unfold no_call. rewrite forallb_app, andb_true_iff.
  now intros (H & _).
Qed.

Lemma prefix_count_calls (p : call -> bool) (calls full : list call) :
  prefix_of calls full -> (count_calls p calls <= count_calls p full)%nat.
Proof.
  intros (rest & <-). rewrite count_calls_app. apply Nat.le_add_r.
Qed.

Lemma prefix_cons (c : call) (calls full : list call) :
  prefix_of calls full -> prefix_of (c :: calls) (c :: full).
Proof. intros (rest & <-). now exists rest. Qed.

(** Whatever happens, the calls of [handleOrderUpdated] are an initial
    segment of: lookup, update of the deal found, replacement of its rows. *)
Lemma handleOrderUpdated_calls (W : World) (order : value) (tr : list call) :
  exists calls outcome dealId fields rows,
    handleOrderUpdated W order tr = (tr ++ calls, outcome) /\
    prefix_of calls
      [deal_list (ToString W (Js.opt_get order "id"));
       deal_update dealId fields; productrows_set dealId rows].
Proof.
  destruct (Js.get order "name") as [name|e] eqn:Hname.
  2:{ exists [], (Throw e), VUndef, [], []. split.
      - unfold handleOrderUpdated. rewrite Hname. run. now rewrite app_nil_r.
      - now eexists. }
  pose proof (get_Ok_not_nullish _ _ _ Hname) as Ho.
  pose proof (get_defined order "id" Ho) as Hid.
  destruct (respond W tr (deal_list (ToString W (Js.opt_get order "id"))))
    as [listResp|e] eqn:Hlist.
  2:{ exists [deal_list (ToString W (Js.opt_get order "id"))], (Throw e), VUndef, [], [].
      split.
      - unfold handleOrderUpdated. rewrite Hname, Hid. run. now rewrite Hlist.
      - now eexists. }
  destruct (Js.get listResp "result") as [result|e] eqn:Hres.
  2:{ exists [deal_list (ToString W (Js.opt_get order "id"))], (Throw e), VUndef, [], [].
      split.
      - unfold handleOrderUpdated. rewrite Hname, Hid. run. rewrite Hlist. simpl.
        now rewrite Hres.
      - now eexists. }
  destruct (Js.truthy (Js.opt_index0 result)) eqn:Hdeal.
  2:{ exists [deal_list (ToString W (Js.opt_get order "id"))], (Ok VUndef), VUndef, [], [].
      split.
      - unfold handleOrderUpdated. rewrite Hname, Hid. run. rewrite Hlist. simpl.
        rewrite Hres. simpl. now rewrite Hdeal.
      - now eexists. }
  assert (Hloc : locates W tr (Js.opt_get order "id") (Js.opt_index0 result)).
  { exists listResp, result. repeat split; assumption. }
  pose proof (truthy_not_nullish _ Hdeal) as Hd.
  destruct (orderUpdatedFields W order (Js.opt_index0 result)) as [fields|e] eqn:Hfields.
  2:{ exists [deal_list (ToString W (Js.opt_get order "id"))], (Throw e), VUndef, [], [].
      split.
      - unfold handleOrderUpdated. rewrite Hname, Hid. run. rewrite Hlist. simpl.
        rewrite Hres. simpl. rewrite Hdeal. simpl.
        rewrite (get_defined _ "ID" Hd). now rewrite Hfields.
      - now eexists. }
  destruct (orderUpdatedFields_Ok_inv W order _ fields Hfields) as (_ & _ & c & Hc).
  destruct (orderUpdatedFields_keys W order _ c Ho Hd Hc) as (fields' & Hfields' & Hpay & _).
  rewrite Hfields in Hfields'. injection Hfields' as <-.
  pose proof (has_key_nonempty _ _ Hpay) as Hne.
  rewrite (handleOrderUpdated_located W order _ _ fields tr Hid Hloc Hfields Hne).
  destruct (respond W _ (deal_update _ _)) as [ack|e].
  - do 2 eexists. exists (Js.opt_get (Js.opt_index0 result) "ID"), fields,
      (snd (mapShopifyOrderToBitrixDeal W order)).
    split; [reflexivity|]. now exists [].
  - do 2 eexists. exists (Js.opt_get (Js.opt_index0 result) "ID"), fields, [].
    split; [reflexivity|]. now eexists.
Qed.

(** Whatever happens, the calls of [handleRefundCreated] are an initial
    segment of: lookup, loading of the storefront client, fetch of the order,
    update of the deal found, replacement of its rows. *)
Lemma handleRefundCreated_calls (W : World) (refundData : value) (tr : list call) :
  exists calls outcome dealId fields rows,
    handleRefundCreated W refundData tr = (tr ++ calls, outcome) /\
    prefix_of calls
      [deal_list (ToString W (Js.opt_get refundData "order_id"));
       import_adminClient;
       getOrder (ToString W (Js.opt_get refundData "order_id"));
       deal_update dealId fields; productrows_set dealId rows].
Proof.
  destruct (Js.get refundData "order_id") as [oid|e] eqn:Hid.
  2:{ exists [], (Throw e), VUndef, [], []. split.
      - unfold handleRefundCreated. rewrite Hid. run. now rewrite app_nil_r.
      - now eexists. }
  pose proof (get_Ok_not_nullish _ _ _ Hid) as Hr.
  assert (oid = Js.opt_get refundData "order_id") as ->.
  { rewrite (get_defined _ _ Hr) in Hid. now injection Hid. }
  set (id := ToString W (Js.opt_get refundData "order_id")).
  destruct (respond W tr (deal_list id)) as [listResp|e] eqn:Hlist.
  2:{ exists [deal_list id], (Throw e), VUndef, [], []. split.
      - unfold handleRefundCreated. rewrite Hid. run. fold id. now rewrite Hlist.
      - now eexists. }
  destruct (Js.get listResp "result") as [result|e] eqn:Hres.
  2:{ exists [deal_list id], (Throw e), VUndef, [], []. split.
      - unfold handleRefundCreated. rewrite Hid. run. fold id. rewrite Hlist. simpl.
        now rewrite Hres.
      - now eexists. }
  destruct (Js.truthy (Js.opt_index0 result)) eqn:Hdeal.
  2:{ exists [deal_list id], (Ok VUndef), VUndef, [], []. split.
      - unfold handleRefundCreated. rewrite Hid. run. fold id. rewrite Hlist. simpl.
        rewrite Hres. simpl. now rewrite Hdeal.
      - now eexists. }
  set (deal := Js.opt_index0 result) in *.
  pose proof (truthy_not_nullish _ Hdeal) as Hd.
  assert (Hloc : locates W tr (Js.opt_get refundData "order_id") deal).
  { exists listResp, result. repeat split; assumption. }
  assert (Hstart :
             handleRefundCreated W refundData tr =
               try_catch
                 (perform W import_adminClient ;;;
                  shopifyOrder <- perform W (getOrder id) ;;
                  if negb (Js.truthy shopifyOrder) then ret VUndef
                  else applyRefund W (Js.opt_get deal "ID") (currentCategory W deal)
                                   refundData shopifyOrder ;;;
                       ret (Js.opt_get deal "ID"))
                 (fun _ => ret (Js.opt_get deal "ID")) (tr ++ [deal_list id])).
  { unfold handleRefundCreated, currentCategoryOf. rewrite Hid.
    unfold bind at 1. unfold lift at 1. fold id.
    unfold bind at 1. unfold perform at 1. rewrite Hlist.
    unfold bind at 1. unfold lift at 1. rewrite Hres. fold deal. rewrite Hdeal.
    cbn [negb]. cbv iota.
    rewrite !(get_defined deal) by assumption.
    unfold bind at 1. unfold lift at 1.
    unfold bind at 1. unfold lift at 1. cbn [rbind]. reflexivity. }
  destruct (respond W (tr ++ [deal_list id]) import_adminClient) as [client|e] eqn:Himport.
  2:{ exists [deal_list id; import_adminClient], (Ok (Js.opt_get deal "ID")), VUndef, [], [].
      split.
      - rewrite Hstart. run. rewrite Himport. simpl. now rewrite <- !app_assoc.
      - now eexists. }
  destruct (respond W ((tr ++ [deal_list id]) ++ [import_adminClient]) (getOrder id))
    as [shopifyOrder|e] eqn:Hget.
  2:{ exists [deal_list id; import_adminClient; getOrder id],
        (Ok (Js.opt_get deal "ID")), VUndef, [], [].
      split.
      - rewrite Hstart. run. rewrite Himport. simpl. rewrite Hget. simpl.
        now rewrite <- !app_assoc.
      - now eexists. }
  destruct (Js.truthy shopifyOrder) eqn:Horder.
  2:{ exists [deal_list id; import_adminClient; getOrder id], (Ok VUndef), VUndef, [], [].
      split.
      - rewrite Hstart. run. rewrite Himport. simpl. rewrite Hget. simpl.
        rewrite Horder. simpl. now rewrite <- !app_assoc.
      - now eexists. }
  pose proof (truthy_not_nullish _ Horder) as Ho.
  destruct (refundFields_cases W refundData shopifyOrder (currentCategory W deal) Hr Ho)
    as (fields & Hfields & _).
  assert (Hfetch : fetches W (tr ++ [deal_list id]) id shopifyOrder).
  { split; [now exists client | split; assumption]. }
  pose proof (handleRefundCreated_fetched W refundData _ deal shopifyOrder fields tr
                Hid Hloc Hfetch Hfields) as Hrun.
  fold id in Hrun.
  do 2 eexists.
  exists (Js.opt_get deal "ID"), fields, (snd (mapShopifyOrderToBitrixDeal W shopifyOrder)).
  split; [exact Hrun|].
  destruct (respond W _ (deal_update _ _)).
  - destruct (nonempty _); simpl; now eexists.
  - simpl. now eexists.
Qed.

(** ** The creation of a deal *)

Lemma obj_get_obj_set_same (o : obj) (k : string) (v : value) :
  obj_get (obj_set o k v) k = v.
Proof.
  induction o as [|[k0 v0] o IH]; simpl.
  - now rewrite String.eqb_refl.
  - destruct (String.eqb k0 k) eqn:Hk; simpl.
    + now rewrite String.eqb_refl.
    + now rewrite Hk.
Qed.

Lemma obj_get_obj_set_other (o : obj) (k k' : string) (v : value) :
  k' <> k -> obj_get (obj_set o k v) k' = obj_get o k'.
Proof.
  intros Hne. induction o as [|[k0 v0] o IH]; simpl.
  - destruct (String.eqb_spec k k'); [congruence | reflexivity].
  - destruct (String.eqb_spec k0 k) as [->|Hk]; simpl.
    + destruct (String.eqb_spec k k'); [congruence | reflexivity].
    + destruct (String.eqb k0 k'); [reflexivity | exact IH].
Qed.

(** [handleOrderCreated] is its three steps in a row. *)
Lemma handleOrderCreated_steps (W : World) (order : value) :
  handleOrderCreated W order =
    (_ <- lift (Js.get order "name") ;;
     dealFields <- contactStep W order (fst (mapShopifyOrderToBitrixDeal W order)) ;;
     createAndSync W (snd (mapShopifyOrderToBitrixDeal W order)) dealFields).
Proof.
  unfold handleOrderCreated, contactStep, createAndSync.
  destruct (mapShopifyOrderToBitrixDeal W order). reflexivity.
Qed.

(** The contact step never throws; it ends with the fields it was given, or
    with the contact added to them. *)
Lemma contactStep_run (W : World) (order : value) (dealFields : obj) (tr : list call) :
  contactStep W order dealFields tr =
    match respond W tr getBitrixWebhookBase with
    | Throw _ => (tr ++ [getBitrixWebhookBase], Ok dealFields)
    | Ok bitrixBase =>
        (tr ++ [getBitrixWebhookBase; upsertBitrixContact bitrixBase order],
         Ok match respond W (tr ++ [getBitrixWebhookBase])
                          (upsertBitrixContact bitrixBase order) with
            | Throw _ => dealFields
            | Ok contactId =>
                if Js.truthy contactId
                then obj_set dealFields "CONTACT_ID" contactId
                else dealFields
            end)
    end.
Proof.
  unfold contactStep. run.
  destruct (respond W tr getBitrixWebhookBase) as [bitrixBase|e]; simpl.
  - destruct (respond W _ (upsertBitrixContact bitrixBase order)); simpl;
      now rewrite <- !app_assoc.
  - reflexivity.
Qed.

(** The creation step: it throws unless the answer carries a result, and
    after that the rows are set when there are rows, a failure of that call
    being dropped. *)
Lemma createAndSync_run
  (W : World) (productRows : list value) (dealFields : obj) (tr : list call) :
  createAndSync W productRows dealFields tr =
    match respond W tr (deal_add dealFields) with
    | Throw e => (tr ++ [deal_add dealFields], Throw e)
    | Ok dealAddResp =>
        match Js.get dealAddResp "result" with
        | Throw e => (tr ++ [deal_add dealFields], Throw e)
        | Ok result =>
            if Js.truthy result
            then (tr ++ deal_add dealFields ::
                        (if nonempty productRows
                         then [productrows_set result productRows] else []),
                  Ok result)
            else (tr ++ [deal_add dealFields], Throw (FailedToCreateDeal dealAddResp))
        end
    end.
Proof.
  unfold createAndSync. run.
  destruct (respond W tr (deal_add dealFields)) as [dealAddResp|e]; simpl;
    [|reflexivity].
  destruct (Js.get dealAddResp "result") as [result|e]; simpl; [|reflexivity].
  destruct (Js.truthy result); simpl; [|reflexivity].
  destruct (nonempty productRows); run.
  - destruct (respond W _ (productrows_set _ _)); simpl; now rewrite <- !app_assoc.
  - reflexivity.
Qed.

(** Whatever happens, the calls of [handleOrderCreated] are the contact
    calls followed by an initial segment of: creation of the deal, setting of
    its rows. *)
Lemma handleOrderCreated_calls (W : World) (order : value) (tr : list call) :
  exists calls outcome bitrixBase dealFields dealId rows,
    handleOrderCreated W order tr = (tr ++ calls, outcome) /\
    (prefix_of calls
       [getBitrixWebhookBase; upsertBitrixContact bitrixBase order;
        deal_add dealFields; productrows_set dealId rows] \/
     prefix_of calls
       [getBitrixWebhookBase; deal_add dealFields; productrows_set dealId rows]).
Proof.
  rewrite handleOrderCreated_steps.
  destruct (Js.get order "name") as [name|e] eqn:Hname.
  2:{ exists [], (Throw e), VUndef, [], VUndef, []. split.
      - run. now rewrite app_nil_r.
      - left. now eexists. }
  unfold bind at 1. unfold lift at 1.
  unfold bind. rewrite contactStep_run.
  set (rows := snd (mapShopifyOrderToBitrixDeal W order)).
  set (fields := fst (mapShopifyOrderToBitrixDeal W order)).
  destruct (respond W tr getBitrixWebhookBase) as [bitrixBase|e0].
  - rewrite createAndSync_run.
    match goal with
    | |- context [deal_add ?f] => set (fields' := f)
    end.
    destruct (respond W _ (deal_add fields')) as [dealAddResp|e1].
    + destruct (Js.get dealAddResp "result") as [result|e2].
      * destruct (Js.truthy result).
        -- do 2 eexists. exists bitrixBase, fields', result, rows. split.
           ++ rewrite <- app_assoc. reflexivity.
           ++ left. simpl. destruct (nonempty rows); now eexists.
        -- do 2 eexists. exists bitrixBase, fields', VUndef, []. split.
           ++ rewrite <- app_assoc. reflexivity.
           ++ left. simpl. now eexists.
      * do 2 eexists. exists bitrixBase, fields', VUndef, []. split.
        -- rewrite <- app_assoc. reflexivity.
        -- left. simpl. now eexists.
    + do 2 eexists. exists bitrixBase, fields', VUndef, []. split.
      * rewrite <- app_assoc. reflexivity.
      * left. simpl. now eexists.
  - rewrite createAndSync_run.
    destruct (respond W _ (deal_add fields)) as [dealAddResp|e1].
    + destruct (Js.get dealAddResp "result") as [result|e2].
      * destruct (Js.truthy result).
        -- do 2 eexists. exists VUndef, fields, result, rows. split.
           ++ rewrite <- app_assoc. reflexivity.
           ++ right. simpl. destruct (nonempty rows); now eexists.
        -- do 2 eexists. exists VUndef, fields, VUndef, []. split.
           ++ rewrite <- app_assoc. reflexivity.
           ++ right. simpl. now eexists.
      * do 2 eexists. exists VUndef, fields, VUndef, []. split.
        -- rewrite <- app_assoc. reflexivity.
        -- right. simpl. now eexists.
    + do 2 eexists. exists VUndef, fields, VUndef, []. split.
      * rewrite <- app_assoc. reflexivity.
      * right. simpl. now eexists.
Qed.

(** ** The endpoint as a whole *)

(** A POST stores the event, dispatches on the topic, and answers 200 or,
    when the dispatch throws, 500 with what was thrown. *)
Lemma handler_post (W : World) (requestId : string) (req : request) (tr : list call) :
  Js.strict_neq (method req) (VStr "POST") = false ->
  handler W requestId req tr =
    match dispatch W (topicOf req) (body req) (tr ++ [storeEvent (body req)]) with
    | (tr', Ok _) =>
        (tr', Ok {| status := 200; payload := Success requestId (topicOf req) |})
    | (tr', Throw e) =>
        (tr', Ok {| status := 500; payload := InternalServerError e requestId |})
    end.
Proof.
  intros Hmethod. unfold handler. rewrite Hmethod. run.
  destruct (respond W tr (storeEvent (body req))) as [stored|e0]; simpl;
    destruct (dispatch W (topicOf req) (body req) (tr ++ [storeEvent (body req)]))
      as [tr' [[]|e]]; reflexivity.
Qed.

Lemma dispatch_created (W : World) (order : value) (tr : list call) :
  dispatch W (VStr "orders/create") order tr =
    match handleOrderCreated W order tr with
    | (tr', Ok _) => (tr', Ok tt)
    | (tr', Throw e) => (tr', Throw e)
    end.
Proof. unfold dispatch. simpl. run. destruct (handleOrderCreated W order tr) as [? []]; reflexivity. Qed.

Lemma dispatch_updated (W : World) (order : value) (tr : list call) :
  dispatch W (VStr "orders/updated") order tr =
    match handleOrderUpdated W order tr with
    | (tr', Ok _) => (tr', Ok tt)
    | (tr', Throw e) => (tr', Throw e)
    end.
Proof. unfold dispatch. simpl. run. destruct (handleOrderUpdated W order tr) as [? []]; reflexivity. Qed.

Lemma dispatch_refund (W : World) (order : value) (tr : list call) :
  dispatch W (VStr "refunds/create") order tr =
    match handleRefundCreated W order tr with
    | (tr', Ok _) => (tr', Ok tt)
    | (tr', Throw e) => (tr', Throw e)
    end.
Proof. unfold dispatch. simpl. run. destruct (handleRefundCreated W order tr) as [? []]; reflexivity. Qed.

(** X2: a POST with a topic other than the three handled ones is stored for
    monitoring and acknowledged with 200, with no CRM or storefront call, also
    when storing the event fails. *)
Theorem unhandled_topic_is_acknowledged
  (W : World) (requestId : string) (req : request) (tr : list call) :
  Js.strict_neq (method req) (VStr "POST") = false ->
  unhandled (topicOf req) ->
  handler W requestId req tr =
    (tr ++ [storeEvent (body req)],
     Ok {| status := 200; payload := Success requestId (topicOf req) |}).
Proof.
  intros Hmethod (Hc & Hu & Hr).
  rewrite (handler_post W requestId req tr Hmethod).
  unfold dispatch. rewrite Hc, Hu, Hr. reflexivity.
Qed.

Lemma unhandled_topic_witness :
  handler Sample.crm "r1" (Sample.post "orders/paid" Sample.order1001) [] =
    ([] ++ [storeEvent (body (Sample.post "orders/paid" Sample.order1001))],
     Ok {| status := 200;
           payload := Success "r1"
                        (topicOf (Sample.post "orders/paid" Sample.order1001)) |}).
Proof.
  apply (unhandled_topic_is_acknowledged Sample.crm "r1"
           (Sample.post "orders/paid" Sample.order1001) []).
  - reflexivity.
  - repeat split; reflexivity.
Defined.

(** X3: a POST for one of the three handled topics whose body is [null] or
    missing is answered 500 with a TypeError: the event is stored and nothing
    else is called. *)
Theorem missing_body_is_an_internal_error
  (W : World) (requestId : string) (req : request) (tr : list call) :
  Js.strict_neq (method req) (VStr "POST") = false ->
  topicOf req = VStr "orders/create" \/ topicOf req = VStr "orders/updated" \/
  topicOf req = VStr "refunds/create" ->
  Js.nullish (body req) = true ->
  handler W requestId req tr =
    (tr ++ [storeEvent (body req)],
     Ok {| status := 500; payload := InternalServerError TypeError requestId |}).
Proof.
  intros Hmethod Htopic Hbody.
  rewrite (handler_post W requestId req tr Hmethod).
  assert (Hget : forall k, Js.get (body req) k = Throw TypeError).
  { intros k. destruct (body req); try discriminate; reflexivity. }
  destruct Htopic as [->|[->| ->]].
  - rewrite dispatch_created. unfold handleOrderCreated. rewrite Hget. reflexivity.
  - rewrite dispatch_updated. unfold handleOrderUpdated. rewrite Hget. reflexivity.
  - rewrite dispatch_refund. unfold handleRefundCreated. rewrite Hget. reflexivity.
Qed.

Lemma missing_body_witness :
  handler Sample.crm "r1" (Sample.post "orders/updated" VNull) [] =
    ([] ++ [storeEvent (body (Sample.post "orders/updated" VNull))],
     Ok {| status := 500; payload := InternalServerError TypeError "r1" |}).
Proof.
  apply (missing_body_is_an_internal_error Sample.crm "r1"
           (Sample.post "orders/updated" VNull) []).
  - reflexivity.
  - right. left. reflexivity.
  - reflexivity.
Defined.

(** X4: on an [orders/updated] or [refunds/create] event, a lookup that fails
    fails the event: the response is 500 with the failure of the lookup, and
    no call follows it. *)
Theorem failed_lookup_fails_the_event
  (W : World) (requestId : string) (req : request) (id : value) (e : exn)
  (tr : list call) :
  Js.strict_neq (method req) (VStr "POST") = false ->
  (topicOf req = VStr "orders/updated" /\ Js.get (body req) "id" = Ok id) \/
  (topicOf req = VStr "refunds/create" /\ Js.get (body req) "order_id" = Ok id) ->
  respond W (tr ++ [storeEvent (body req)]) (deal_list (ToString W id)) = Throw e ->
  handler W requestId req tr =
    (tr ++ [storeEvent (body req); deal_list (ToString W id)],
     Ok {| status := 500; payload := InternalServerError e requestId |}).
Proof.
  intros Hmethod Hevent Hlist.
  rewrite (handler_post W requestId req tr Hmethod).
  destruct Hevent as [[-> Hid]|[-> Hid]].
  - rewrite dispatch_updated. unfold handleOrderUpdated.
    rewrite (get_defined _ "name" (get_Ok_not_nullish _ _ _ Hid)), Hid.
    run. rewrite Hlist. simpl. now rewrite <- app_assoc.
  - rewrite dispatch_refund. unfold handleRefundCreated. rewrite Hid.
    run. rewrite Hlist. simpl. now rewrite <- app_assoc.
Qed.

Lemma failed_lookup_witness :
  handler (Sample.world (Sample.Build_script [] VUndef VUndef is_deal_list)) "r1"
          (Sample.post "orders/updated" Sample.order1001) [] =
    ([] ++ [storeEvent (body (Sample.post "orders/updated" Sample.order1001));
            deal_list (ToString (Sample.world
                                   (Sample.Build_script [] VUndef VUndef is_deal_list))
                                (VNum 1001))],
     Ok {| status := 500;
           payload := InternalServerError (Error "remote failure") "r1" |}).
Proof.
  apply (failed_lookup_fails_the_event
           (Sample.world (Sample.Build_script [] VUndef VUndef is_deal_list)) "r1"
           (Sample.post "orders/updated" Sample.order1001) (VNum 1001)
           (Error "remote failure") []).
  - reflexivity.
  - left. split; reflexivity.
  - reflexivity.
Defined.

(** X5: on an [orders/updated] event the calls are, whatever the world
    answers, an initial segment of: store the event, look the deal up, update
    the deal found, replace the rows of that same deal.  So the event never
    creates a deal or a contact. *)
Theorem updated_event_call_sequence
  (W : World) (requestId : string) (req : request) (tr : list call) :
  Js.strict_neq (method req) (VStr "POST") = false ->
  topicOf req = VStr "orders/updated" ->
  exists calls res dealId fields rows,
    handler W requestId req tr = (tr ++ calls, Ok res) /\
    prefix_of calls
      [storeEvent (body req);
       deal_list (ToString W (Js.opt_get (body req) "id"));
       deal_update dealId fields; productrows_set dealId rows] /\
    no_call is_deal_add calls /\ no_call is_contact_call calls.
Proof.
  intros Hmethod Htopic.
  rewrite (handler_post W requestId req tr Hmethod), Htopic, dispatch_updated.
  destruct (handleOrderUpdated_calls W (body req) (tr ++ [storeEvent (body req)]))
    as (calls & outcome & dealId & fields & rows & Hrun & Hprefix).
  rewrite Hrun. rewrite <- app_assoc.
  apply (prefix_cons (storeEvent (body req))) in Hprefix.
  exists (storeEvent (body req) :: calls).
  destruct outcome as [v|e]; eexists; exists dealId, fields, rows;
    (split; [reflexivity|]); (split; [exact Hprefix|]);
    split; apply (prefix_no_call _ _ _ Hprefix); reflexivity.
Qed.

Lemma updated_event_call_sequence_witness :
  exists calls res dealId fields rows,
    handler Sample.crm "r1" (Sample.post "orders/updated" Sample.order1001) [] =
      ([] ++ calls, Ok res) /\
    prefix_of calls
      [storeEvent (body (Sample.post "orders/updated" Sample.order1001));
       deal_list (ToString Sample.crm
                    (Js.opt_get (body (Sample.post "orders/updated" Sample.order1001)) "id"));
       deal_update dealId fields; productrows_set dealId rows] /\
    no_call is_deal_add calls /\ no_call is_contact_call calls.
Proof.
  apply (updated_event_call_sequence Sample.crm "r1"
           (Sample.post "orders/updated" Sample.order1001) []); reflexivity.
Defined.

(** X6: on a [refunds/create] event the calls are, whatever the world
    answers, an initial segment of: store the event, look the deal up, load
    the storefront client, fetch the order, update the deal found, replace
    the rows of that same deal.  So the event never creates a deal or a
    contact. *)
Theorem refund_event_call_sequence
  (W : World) (requestId : string) (req : request) (tr : list call) :
  Js.strict_neq (method req) (VStr "POST") = false ->
  topicOf req = VStr "refunds/create" ->
  exists calls res dealId fields rows,
    handler W requestId req tr = (tr ++ calls, Ok res) /\
    prefix_of calls
      [storeEvent (body req);
       deal_list (ToString W (Js.opt_get (body req) "order_id"));
       import_adminClient;
       getOrder (ToString W (Js.opt_get (body req) "order_id"));
       deal_update dealId fields; productrows_set dealId rows] /\
    no_call is_deal_add calls /\ no_call is_contact_call calls.
Proof.
  intros Hmethod Htopic.
  rewrite (handler_post W requestId req tr Hmethod), Htopic, dispatch_refund.
  destruct (handleRefundCreated_calls W (body req) (tr ++ [storeEvent (body req)]))
    as (calls & outcome & dealId & fields & rows & Hrun & Hprefix).
  rewrite Hrun. rewrite <- app_assoc.
  apply (prefix_cons (storeEvent (body req))) in Hprefix.
  exists (storeEvent (body req) :: calls).
  destruct outcome as [v|e]; eexists; exists dealId, fields, rows;
    (split; [reflexivity|]); (split; [exact Hprefix|]);
    split; apply (prefix_no_call _ _ _ Hprefix); reflexivity.
Qed.

Lemma refund_event_call_sequence_witness :
  exists calls res dealId fields rows,
    handler Sample.crm_and_store "r1"
            (Sample.post "refunds/create" Sample.refund_partial) [] =
      ([] ++ calls, Ok res) /\
    prefix_of calls
      [storeEvent (body (Sample.post "refunds/create" Sample.refund_partial));
       deal_list (ToString Sample.crm_and_store
                    (Js.opt_get (body (Sample.post "refunds/create" Sample.refund_partial))
                                "order_id"));
       import_adminClient;
       getOrder (ToString Sample.crm_and_store
                   (Js.opt_get (body (Sample.post "refunds/create" Sample.refund_partial))
                               "order_id"));
       deal_update dealId fields; productrows_set dealId rows] /\
    no_call is_deal_add calls /\ no_call is_contact_call calls.
Proof.
  apply (refund_event_call_sequence Sample.crm_and_store "r1"
           (Sample.post "refunds/create" Sample.refund_partial) []); reflexivity.
Defined.

(** X7: on an [orders/create] event the calls are, whatever the world
    answers, an initial segment of: store the event, read the CRM base, upsert
    the contact (skipped when the base cannot be read), create the deal, set
    its rows.  The event never looks for an existing deal and never updates
    one. *)
Theorem created_event_call_sequence
  (W : World) (requestId : string) (req : request) (tr : list call) :
  Js.strict_neq (method req) (VStr "POST") = false ->
  topicOf req = VStr "orders/create" ->
  exists calls res bitrixBase dealFields dealId rows,
    handler W requestId req tr = (tr ++ calls, Ok res) /\
    (prefix_of calls
       [storeEvent (body req); getBitrixWebhookBase;
        upsertBitrixContact bitrixBase (body req);
        deal_add dealFields; productrows_set dealId rows] \/
     prefix_of calls
       [storeEvent (body req); getBitrixWebhookBase;
        deal_add dealFields; productrows_set dealId rows]) /\
    no_call is_deal_list calls /\ no_call is_deal_update calls.
Proof.
  intros Hmethod Htopic.
  rewrite (handler_post W requestId req tr Hmethod), Htopic, dispatch_created.
  destruct (handleOrderCreated_calls W (body req) (tr ++ [storeEvent (body req)]))
    as (calls & outcome & base & fields & dealId & rows & Hrun & Hprefix).
  rewrite Hrun. rewrite <- app_assoc.
  exists (storeEvent (body req) :: calls).
  destruct Hprefix as [Hprefix|Hprefix];
    apply (prefix_cons (storeEvent (body req))) in Hprefix;
    destruct outcome as [v|e]; eexists; exists base, fields, dealId, rows;
    (split; [reflexivity|]); (split; [auto|]);
    split; apply (prefix_no_call _ _ _ Hprefix); reflexivity.
Qed.

Lemma created_event_call_sequence_witness :
  exists calls res bitrixBase dealFields dealId rows,
    handler Sample.crm_creating_nothing "r1"
            (Sample.post "orders/create" Sample.order1001) [] =
      ([] ++ calls, Ok res) /\
    (prefix_of calls
       [storeEvent (body (Sample.post "orders/create" Sample.order1001));
        getBitrixWebhookBase;
        upsertBitrixContact bitrixBase
                            (body (Sample.post "orders/create" Sample.order1001));
        deal_add dealFields; productrows_set dealId rows] \/
     prefix_of calls
       [storeEvent (body (Sample.post "orders/create" Sample.order1001));
        getBitrixWebhookBase;
        deal_add dealFields; productrows_set dealId rows]) /\
    no_call is_deal_list calls /\ no_call is_deal_update calls.
Proof.
  apply (created_event_call_sequence Sample.crm_creating_nothing "r1"
           (Sample.post "orders/create" Sample.order1001) []); reflexivity.
Defined.

(** ** The steps of a creation *)

Lemma handleOrderCreated_after_contact
  (W : World) (order : value) (tr tr1 : list call) (fields : obj) :
  Js.nullish order = false ->
  contactStep W order (fst (mapShopifyOrderToBitrixDeal W order)) tr = (tr1, Ok fields) ->
  handleOrderCreated W order tr =
    createAndSync W (snd (mapShopifyOrderToBitrixDeal W order)) fields tr1.
Proof.
  intros Ho Hcontact. rewrite handleOrderCreated_steps.
  rewrite (get_defined order "name" Ho).
  unfold bind at 1. unfold lift at 1. unfold bind. now rewrite Hcontact.
Qed.

(** X8: when the contact step has ended with [fields] and the creation call
    answers with a result identifier, [handleOrderCreated] returns that
    identifier; the set-product-rows call is made for it exactly when the
    order maps to rows, and a failure of that call changes nothing. *)
Theorem created_deal_is_returned
  (W : World) (order : value) (tr tr1 : list call) (fields : obj)
  (dealAddResp dealId : value) :
  Js.nullish order = false ->
  contactStep W order (fst (mapShopifyOrderToBitrixDeal W order)) tr = (tr1, Ok fields) ->
  respond W tr1 (deal_add fields) = Ok dealAddResp ->
  Js.get dealAddResp "result" = Ok dealId ->
  Js.truthy dealId = true ->
  handleOrderCreated W order tr =
    (tr1 ++ deal_add fields ::
       (if nonempty (snd (mapShopifyOrderToBitrixDeal W order))
        then [productrows_set dealId (snd (mapShopifyOrderToBitrixDeal W order))]
        else []),
     Ok dealId).
Proof.
  intros Ho Hcontact Hadd Hresult Htruthy.
  rewrite (handleOrderCreated_after_contact W order tr tr1 fields Ho Hcontact).
  rewrite createAndSync_run, Hadd, Hresult, Htruthy. reflexivity.
Qed.

Lemma created_deal_is_returned_witness :
  handleOrderCreated Sample.crm_creating Sample.order1001 [] =
    ([getBitrixWebhookBase;
      upsertBitrixContact (VStr "https://example.bitrix24.com/rest/1/token")
                          Sample.order1001] ++
     deal_add (obj_set (fst (Sample.mapShopifyOrderToBitrixDeal Sample.order1001))
                       "CONTACT_ID" (VStr "301")) ::
       (if nonempty (snd (mapShopifyOrderToBitrixDeal Sample.crm_creating Sample.order1001))
        then [productrows_set (VNum 77)
                (snd (mapShopifyOrderToBitrixDeal Sample.crm_creating Sample.order1001))]
        else []),
     Ok (VNum 77)).
Proof.
  apply (created_deal_is_returned Sample.crm_creating Sample.order1001 []
           [getBitrixWebhookBase;
            upsertBitrixContact (VStr "https://example.bitrix24.com/rest/1/token")
                                Sample.order1001]
           (obj_set (fst (Sample.mapShopifyOrderToBitrixDeal Sample.order1001))
                    "CONTACT_ID" (VStr "301"))
           (VObj [("result", VNum 77)]) (VNum 77)); reflexivity.
Defined.

(** X9: a failure of the contact step, be it the reading of the CRM base or
    the upsert, does not fail the creation: the creation call follows the
    contact calls and carries the mapper's fields untouched. *)
Theorem failed_contact_leaves_the_creation_alone
  (W : World) (order : value) (tr : list call) :
  Js.nullish order = false ->
  (exists e, respond W tr getBitrixWebhookBase = Throw e) \/
  (exists bitrixBase e,
      respond W tr getBitrixWebhookBase = Ok bitrixBase /\
      respond W (tr ++ [getBitrixWebhookBase]) (upsertBitrixContact bitrixBase order)
        = Throw e) ->
  exists contactCalls,
    forallb is_contact_call contactCalls = true /\
    handleOrderCreated W order tr =
      createAndSync W (snd (mapShopifyOrderToBitrixDeal W order))
                    (fst (mapShopifyOrderToBitrixDeal W order)) (tr ++ contactCalls) /\
    exists rest outcome,
      handleOrderCreated W order tr =
        (tr ++ contactCalls ++
           deal_add (fst (mapShopifyOrderToBitrixDeal W order)) :: rest, outcome).
Proof.
  intros Ho Hfail.
  assert (Hfirst : forall rows f h, exists rest outcome,
             createAndSync W rows f h = (h ++ deal_add f :: rest, outcome)).
  { intros rows f h. rewrite createAndSync_run.
    destruct (respond W h (deal_add f)) as [r|e]; [|now do 2 eexists].
    destruct (Js.get r "result") as [v|e]; [|now do 2 eexists].
    destruct (Js.truthy v); now do 2 eexists. }
  destruct Hfail as [(e & Hbase)|(base & e & Hbase & Hupsert)].
  - exists [getBitrixWebhookBase]. split; [reflexivity|].
    assert (Hrun : handleOrderCreated W order tr =
                   createAndSync W (snd (mapShopifyOrderToBitrixDeal W order))
                     (fst (mapShopifyOrderToBitrixDeal W order))
                     (tr ++ [getBitrixWebhookBase])).
    { apply handleOrderCreated_after_contact; [assumption|].
      now rewrite contactStep_run, Hbase. }
    split; [exact Hrun|]. rewrite Hrun.
    destruct (Hfirst (snd (mapShopifyOrderToBitrixDeal W order))
                     (fst (mapShopifyOrderToBitrixDeal W order))
                     (tr ++ [getBitrixWebhookBase])) as (rest & outcome & ->).
    exists rest, outcome. now rewrite <- app_assoc.
  - exists [getBitrixWebhookBase; upsertBitrixContact base order].
    split; [reflexivity|].
    assert (Hrun : handleOrderCreated W order tr =
                   createAndSync W (snd (mapShopifyOrderToBitrixDeal W order))
                     (fst (mapShopifyOrderToBitrixDeal W order))
                     (tr ++ [getBitrixWebhookBase; upsertBitrixContact base order])).
    { apply handleOrderCreated_after_contact; [assumption|].
      now rewrite contactStep_run, Hbase, Hupsert. }
    split; [exact Hrun|]. rewrite Hrun.
    destruct (Hfirst (snd (mapShopifyOrderToBitrixDeal W order))
                     (fst (mapShopifyOrderToBitrixDeal W order))
                     (tr ++ [getBitrixWebhookBase; upsertBitrixContact base order]))
      as (rest & outcome & ->).
    exists rest, outcome. now rewrite <- app_assoc.
Qed.

Lemma failed_contact_witness :
  exists contactCalls,
    forallb is_contact_call contactCalls = true /\
    handleOrderCreated Sample.crm_refusing_contacts Sample.order1001 [] =
      createAndSync Sample.crm_refusing_contacts
        (snd (mapShopifyOrderToBitrixDeal Sample.crm_refusing_contacts Sample.order1001))
        (fst (mapShopifyOrderToBitrixDeal Sample.crm_refusing_contacts Sample.order1001))
        ([] ++ contactCalls) /\
    exists rest outcome,
      handleOrderCreated Sample.crm_refusing_contacts Sample.order1001 [] =
        ([] ++ contactCalls ++
           deal_add (fst (mapShopifyOrderToBitrixDeal Sample.crm_refusing_contacts
                            Sample.order1001)) :: rest, outcome).
Proof.
  apply (failed_contact_leaves_the_creation_alone Sample.crm_refusing_contacts
           Sample.order1001 []).
  - reflexivity.
  - right. exists (VStr "https://example.bitrix24.com/rest/1/token"),
      (Error "remote failure"). split; reflexivity.
Defined.

(** X10: when the upsert answers with a contact, the creation call carries
    the mapper's fields with [CONTACT_ID] set to that contact and every other
    field as the mapper gave it. *)
Theorem upserted_contact_is_attached
  (W : World) (order bitrixBase contactId : value) (tr : list call) :
  Js.nullish order = false ->
  respond W tr getBitrixWebhookBase = Ok bitrixBase ->
  respond W (tr ++ [getBitrixWebhookBase]) (upsertBitrixContact bitrixBase order)
    = Ok contactId ->
  Js.truthy contactId = true ->
  exists fields rest outcome,
    handleOrderCreated W order tr =
      (tr ++ [getBitrixWebhookBase; upsertBitrixContact bitrixBase order;
              deal_add fields] ++ rest, outcome) /\
    obj_get fields "CONTACT_ID" = contactId /\
    forall k, k <> "CONTACT_ID" ->
              obj_get fields k = obj_get (fst (mapShopifyOrderToBitrixDeal W order)) k.
Proof.
  intros Ho Hbase Hupsert Htruthy.
  exists (obj_set (fst (mapShopifyOrderToBitrixDeal W order)) "CONTACT_ID" contactId).
  rewrite (handleOrderCreated_after_contact W order tr
             (tr ++ [getBitrixWebhookBase; upsertBitrixContact bitrixBase order])
             (obj_set (fst (mapShopifyOrderToBitrixDeal W order)) "CONTACT_ID" contactId)
             Ho).
  2:{ now rewrite contactStep_run, Hbase, Hupsert, Htruthy. }
  rewrite createAndSync_run.
  set (fields := obj_set (fst (mapShopifyOrderToBitrixDeal W order)) "CONTACT_ID"
                        contactId).
  assert (Hfields : obj_get fields "CONTACT_ID" = contactId /\
                    forall k, k <> "CONTACT_ID" ->
                              obj_get fields k =
                                obj_get (fst (mapShopifyOrderToBitrixDeal W order)) k).
  { split; [apply obj_get_obj_set_same | intros k Hk; now apply obj_get_obj_set_other]. }
  assert (Hshape : forall rest : list call,
             (tr ++ [getBitrixWebhookBase; upsertBitrixContact bitrixBase order]) ++
               deal_add fields :: rest =
             tr ++ [getBitrixWebhookBase; upsertBitrixContact bitrixBase order;
                    deal_add fields] ++ rest).
  { intros rest. now rewrite <- !app_assoc. }
  destruct (respond W _ (deal_add _)) as [r|e].
  - destruct (Js.get r "result") as [v|e].
    + destruct (Js.truthy v); rewrite Hshape; do 2 eexists; split;
        reflexivity || exact Hfields.
    + rewrite Hshape. do 2 eexists. split; reflexivity || exact Hfields.
  - rewrite Hshape. do 2 eexists. split; reflexivity || exact Hfields.
Qed.

Lemma upserted_contact_witness :
  exists fields rest outcome,
    handleOrderCreated Sample.crm_creating Sample.order1001 [] =
      ([] ++ [getBitrixWebhookBase;
              upsertBitrixContact (VStr "https://example.bitrix24.com/rest/1/token")
                                  Sample.order1001;
              deal_add fields] ++ rest, outcome) /\
    obj_get fields "CONTACT_ID" = VStr "301" /\
    forall k, k <> "CONTACT_ID" ->
              obj_get fields k =
                obj_get (fst (mapShopifyOrderToBitrixDeal Sample.crm_creating
                                Sample.order1001)) k.
Proof.
  apply (upserted_contact_is_attached Sample.crm_creating Sample.order1001
           (VStr "https://example.bitrix24.com/rest/1/token") (VStr "301") []);
    reflexivity.
Defined.

(** ** The diff of an update, exactly *)

Lemma orderUpdatedFields_exact (W : World) (order deal categoryId : value) :
  Js.nullish order = false ->
  Js.nullish deal = false ->
  categoryFor W (Js.opt_get order "tags") = Ok categoryId ->
  orderUpdatedFields W order deal = Ok (diffOf W order deal categoryId).
Proof.
  intros Ho Hd Hcat.
  unfold orderUpdatedFields, currentCategoryOf, shippingPrice, firstShippingLinePrice.
  rewrite !(get_defined order) by assumption.
  rewrite !(get_defined deal) by assumption.
  cbn [rbind]. rewrite Hcat. cbn [rbind].
  fold (currentCategory W deal) (newAmount W order) (shippingAmount W order).
  fold (targetStage W order categoryId).
  unfold diffOf, when, PAYMENT_STATUS.
  destruct (Js.strict_neq categoryId (currentCategory W deal));
    destruct (negb (PrimFloat.eqb (newAmount W order)
                                  (ToNumber W (Js.opt_get deal "OPPORTUNITY"))));
    destruct (Js.strict_neq (targetStage W order categoryId) (Js.opt_get deal "STAGE_ID"));
    destruct (Js.strict_neq (Js.opt_get order "current_total_discounts") VUndef);
    destruct (Js.strict_neq (Js.opt_get order "current_total_tax") VUndef);
    destruct (Js.strict_neq
                (Js.opt_get (Js.opt_index0 (Js.opt_get order "shipping_lines")) "price")
                VUndef);
    reflexivity.
Qed.

(** Nothing equals a NaN. *)
Lemma float_eqb_nan (x y : float) :
  PrimFloat.is_nan y = true -> PrimFloat.eqb x y = false.
Proof.
  unfold PrimFloat.is_nan. rewrite !FloatAxioms.eqb_spec.
  destruct (Prim2SF y) as [s|s| |s m e].
  - destruct s; discriminate.
  - destruct s; discriminate.
  - intros _. destruct (Prim2SF x) as [s'|s'| |s' m' e']; try destruct s'; reflexivity.
  - unfold SFeqb, SFcompare. destruct s;
      rewrite Z.compare_refl, Pos.compare_refl; discriminate.
Qed.

(** X11: the diff [handleOrderUpdated] computes is exactly, and in this
    order: the category when it differs from the deal's, the amount when it
    differs from the deal's, the stage when it differs from the deal's, the
    payment status, and the discount, the tax and the shipping price when the
    order has them; no other field is sent. *)
Theorem update_diff_is_exact (W : World) (order deal : value) (fields : obj) :
  orderUpdatedFields W order deal = Ok fields ->
  exists categoryId,
    categoryFor W (Js.opt_get order "tags") = Ok categoryId /\
    fields = diffOf W order deal categoryId.
Proof.
  intros H.
  destruct (orderUpdatedFields_Ok_inv W order deal fields H) as (Ho & Hd & c & Hc).
  exists c. split; [assumption|].
  rewrite (orderUpdatedFields_exact W order deal c Ho Hd Hc) in H.
  now injection H.
Qed.

Lemma update_diff_is_exact_witness :
  exists categoryId,
    categoryFor Sample.crm (Js.opt_get Sample.order1002 "tags") = Ok categoryId /\
    [("OPPORTUNITY", VNum 105); (PAYMENT_STATUS, VStr "56")] =
      diffOf Sample.crm Sample.order1002 Sample.deal501 categoryId.
Proof.
  apply (update_diff_is_exact Sample.crm Sample.order1002 Sample.deal501).
  vm_compute. reflexivity.
Defined.

(** X12: when the deal's amount is not a number (the field is missing, or
    does not read as one), the comparison with the order's amount never
    holds, and the diff carries the order's amount. *)
Theorem missing_deal_amount_is_resent (W : World) (order deal : value) (fields : obj) :
  orderUpdatedFields W order deal = Ok fields ->
  PrimFloat.is_nan (ToNumber W (Js.opt_get deal "OPPORTUNITY")) = true ->
  has_key fields "OPPORTUNITY" = true /\
  obj_get fields "OPPORTUNITY" = VNum (newAmount W order).
Proof.
  intros H Hnan.
  destruct (orderUpdatedFields_Ok_inv W order deal fields H) as (Ho & Hd & c & Hc).
  rewrite (orderUpdatedFields_exact W order deal c Ho Hd Hc) in H.
  injection H as <-.
  unfold diffOf. rewrite (float_eqb_nan _ _ Hnan). unfold when.
  destruct (Js.strict_neq c (currentCategory W deal)); split; reflexivity.
Qed.

Lemma missing_deal_amount_witness :
  has_key [("OPPORTUNITY", VNum 100); ("STAGE_ID", VStr "C2:WON");
           (PAYMENT_STATUS, VStr "56")] "OPPORTUNITY" = true /\
  obj_get [("OPPORTUNITY", VNum 100); ("STAGE_ID", VStr "C2:WON");
           (PAYMENT_STATUS, VStr "56")] "OPPORTUNITY" =
    VNum (newAmount Sample.crm Sample.order1001).
Proof.
  apply (missing_deal_amount_is_resent Sample.crm Sample.order1001
           (VObj [("ID", VStr "502")])).
  - vm_compute. reflexivity.
  - reflexivity.
Defined.

Lemma handleOrderUpdated_diff_throws
  (W : World) (order id deal : value) (e : exn) (tr : list call) :
  Js.get order "id" = Ok id ->
  locates W tr id deal ->
  orderUpdatedFields W order deal = Throw e ->
  handleOrderUpdated W order tr = (tr ++ [deal_list (ToString W id)], Throw e).
Proof.
  intros Hid (listResp & result & Hlist & Hres & Hdeal & Htruthy) Hfields.
  pose proof (get_Ok_not_nullish _ _ _ Hid) as Ho.
  pose proof (truthy_not_nullish _ Htruthy) as Hd.
  unfold handleOrderUpdated.
  rewrite (get_defined order "name" Ho), Hid.
  run. rewrite Hlist, Hres, Hdeal, Htruthy. simpl.
  rewrite (get_defined deal "ID" Hd), Hfields. reflexivity.
Qed.

Lemma orderUpdatedFields_tags_throw (W : World) (order deal : value) (e : exn) :
  Js.nullish order = false ->
  Js.nullish deal = false ->
  categoryFor W (Js.opt_get order "tags") = Throw e ->
  orderUpdatedFields W order deal = Throw e.
Proof.
  intros Ho Hd Hcat.
  unfold orderUpdatedFields, currentCategoryOf.
  rewrite (get_defined deal), (get_defined order) by assumption.
  cbn [rbind]. now rewrite Hcat.
Qed.

(** X13: on an [orders/updated] event where a deal is located, a failure of
    the update-deal call fails the event: the response is 500 with that
    failure, and the call is the last one. *)
Theorem failed_update_fails_the_event
  (W : World) (requestId : string) (req : request) (id deal categoryId : value)
  (e : exn) (tr : list call) :
  Js.strict_neq (method req) (VStr "POST") = false ->
  topicOf req = VStr "orders/updated" ->
  Js.get (body req) "id" = Ok id ->
  locates W (tr ++ [storeEvent (body req)]) id deal ->
  categoryFor W (Js.opt_get (body req) "tags") = Ok categoryId ->
  respond W (tr ++ [storeEvent (body req); deal_list (ToString W id)])
          (deal_update (Js.opt_get deal "ID") (diffOf W (body req) deal categoryId))
    = Throw e ->
  handler W requestId req tr =
    (tr ++ [storeEvent (body req); deal_list (ToString W id);
            deal_update (Js.opt_get deal "ID") (diffOf W (body req) deal categoryId)],
     Ok {| status := 500; payload := InternalServerError e requestId |}).
Proof.
  intros Hmethod Htopic Hid Hloc Hcat Hupdate.
  pose proof (get_Ok_not_nullish _ _ _ Hid) as Ho.
  assert (Hd : Js.nullish deal = false).
  { destruct Hloc as (? & ? & _ & _ & _ & Ht). now apply truthy_not_nullish. }
  pose proof (orderUpdatedFields_exact W (body req) deal categoryId Ho Hd Hcat) as Hfields.
  assert (Hne : nonempty (obj_keys (diffOf W (body req) deal categoryId)) = true).
  { destruct (orderUpdatedFields_keys W (body req) deal categoryId Ho Hd Hcat)
      as (f & Hf & Hpay & _).
    rewrite Hfields in Hf. injection Hf as <-. exact (has_key_nonempty _ _ Hpay). }
  rewrite (handler_post W requestId req tr Hmethod), Htopic, dispatch_updated.
  rewrite (handleOrderUpdated_located W (body req) id deal _ _ Hid Hloc Hfields Hne).
  replace ((tr ++ [storeEvent (body req)]) ++ [deal_list (ToString W id)])
    with (tr ++ [storeEvent (body req); deal_list (ToString W id)])
    by now rewrite <- app_assoc.
  rewrite Hupdate. now rewrite <- app_assoc.
Qed.

Lemma failed_update_witness :
  handler Sample.crm_refusing_updates "r1"
          (Sample.post "orders/updated" Sample.order1001) [] =
    ([] ++ [storeEvent (body (Sample.post "orders/updated" Sample.order1001));
            deal_list (ToString Sample.crm_refusing_updates (VNum 1001));
            deal_update (Js.opt_get Sample.deal501 "ID")
              (diffOf Sample.crm_refusing_updates
                      (body (Sample.post "orders/updated" Sample.order1001))
                      Sample.deal501 (VNum 2))],
     Ok {| status := 500;
           payload := InternalServerError (Error "remote failure") "r1" |}).
Proof.
  apply (failed_update_fails_the_event Sample.crm_refusing_updates "r1"
           (Sample.post "orders/updated" Sample.order1001) (VNum 1001)
           Sample.deal501 (VNum 2) (Error "remote failure") []).
  - reflexivity.
  - reflexivity.
  - reflexivity.
  - exists (VObj [("result", VArr [Sample.deal501])]), (VArr [Sample.deal501]).
    repeat split; reflexivity.
  - vm_compute. reflexivity.
  - vm_compute. reflexivity.
Defined.

(** X14: on an [orders/updated] event where a deal is located, tags that
    cannot be scanned fail the event before anything is written: the response
    is 500 with the exception of the scan, and the lookup is the last call. *)
Theorem unreadable_tags_fail_the_event
  (W : World) (requestId : string) (req : request) (id deal : value)
  (e : exn) (tr : list call) :
  Js.strict_neq (method req) (VStr "POST") = false ->
  topicOf req = VStr "orders/updated" ->
  Js.get (body req) "id" = Ok id ->
  locates W (tr ++ [storeEvent (body req)]) id deal ->
  categoryFor W (Js.opt_get (body req) "tags") = Throw e ->
  handler W requestId req tr =
    (tr ++ [storeEvent (body req); deal_list (ToString W id)],
     Ok {| status := 500; payload := InternalServerError e requestId |}).
Proof.
  intros Hmethod Htopic Hid Hloc Hcat.
  pose proof (get_Ok_not_nullish _ _ _ Hid) as Ho.
  assert (Hd : Js.nullish deal = false).
  { destruct Hloc as (? & ? & _ & _ & _ & Ht). now apply truthy_not_nullish. }
  rewrite (handler_post W requestId req tr Hmethod), Htopic, dispatch_updated.
  rewrite (handleOrderUpdated_diff_throws W (body req) id deal e _ Hid Hloc
             (orderUpdatedFields_tags_throw W (body req) deal e Ho Hd Hcat)).
  now rewrite <- app_assoc.
Qed.

Lemma unreadable_tags_witness :
  handler Sample.crm "r1"
          (Sample.post "orders/updated"
             (VObj [("id", VNum 1001); ("tags", VArr [VNull])])) [] =
    ([] ++ [storeEvent (body (Sample.post "orders/updated"
                                (VObj [("id", VNum 1001); ("tags", VArr [VNull])])));
            deal_list (ToString Sample.crm (VNum 1001))],
     Ok {| status := 500; payload := InternalServerError TypeError "r1" |}).
Proof.
  apply (unreadable_tags_fail_the_event Sample.crm "r1"
           (Sample.post "orders/updated"
              (VObj [("id", VNum 1001); ("tags", VArr [VNull])]))
           (VNum 1001) Sample.deal501 TypeError []).
  - reflexivity.
  - reflexivity.
  - reflexivity.
  - exists (VObj [("result", VArr [Sample.deal501])]), (VArr [Sample.deal501]).
    repeat split; reflexivity.
  - reflexivity.
Defined.

(** ** The scan of the tags *)

Lemma hasPreorderTag_app_strings (tags : list string) (rest : list value) :
  hasPreorderTag (map VStr tags ++ rest) =
    if existsb (fun tag =>
                  existsb (fun preorderTag =>
                             String.eqb (Str.toLowerCase tag)
                                        (Str.toLowerCase preorderTag))
                          preorderTags) tags
    then Ok true else hasPreorderTag rest.
Proof.
  induction tags as [|tag tags IH]; [reflexivity|].
  cbn [map app hasPreorderTag isPreorderTag rbind existsb].
  destruct (existsb _ preorderTags); [reflexivity | exact IH].
Qed.

(** X15: the scan of a list of tags goes from left to right and stops at the
    first match: a list whose leading strings hold a preorder tag routes to
    the preorder category whatever follows them, and a list whose leading
    strings hold none throws at the first element that is not a string. *)
Theorem tag_scan_stops_at_the_first_match
  (W : World) (tags : list string) (v : value) (rest : list value) :
  ((exists tag, In tag tags /\ matchesPreorderTag tag) ->
   categoryFor W (VArr (map VStr tags ++ rest)) = Ok (CATEGORY_PREORDER W)) /\
  (~ (exists tag, In tag tags /\ matchesPreorderTag tag) ->
   (forall s, v <> VStr s) ->
   categoryFor W (VArr (map VStr tags ++ v :: rest)) = Throw TypeError).
Proof.
  unfold categoryFor, orderTags. rewrite !hasPreorderTag_app_strings. split.
  - intros H. apply existsb_matchesPreorderTag in H. now rewrite H.
  - intros H Hv. destruct (existsb _ tags) eqn:Hex.
    + exfalso. apply H. now apply existsb_matchesPreorderTag.
    + destruct v; try reflexivity. now destruct (Hv s).
Qed.

Lemma existsb_Permutation {A} (f : A -> bool) (l l' : list A) :
  Permutation l l' -> existsb f l = existsb f l'.
Proof.
  induction 1 as [|x l l' _ IH|x y l|l l' l'' _ IH1 _ IH2]; simpl.
  - reflexivity.
  - now rewrite IH.
  - destruct (f x), (f y); reflexivity.
  - now rewrite IH1.
Qed.

(** X16: for a list of strings the category does not depend on the order of
    the tags. *)
Theorem category_ignores_the_order_of_tags (W : World) (tags tags' : list string) :
  Permutation tags tags' ->
  categoryFor W (VArr (map VStr tags)) = categoryFor W (VArr (map VStr tags')).
Proof.
  intros Hperm. rewrite !categoryFor_strings.
  now rewrite (existsb_Permutation _ tags tags' Hperm).
Qed.

Lemma category_ignores_the_order_witness :
  categoryFor Sample.crm (VArr (map VStr ["vip"; "Preorder-Product-Added"])) =
  categoryFor Sample.crm (VArr (map VStr ["Preorder-Product-Added"; "vip"])).
Proof.
  apply (category_ignores_the_order_of_tags Sample.crm
           ["vip"; "Preorder-Product-Added"] ["Preorder-Product-Added"; "vip"]).
  apply perm_swap.
Defined.

(** ** The fields of a refund, exactly *)

Lemma refundFields_exact (W : World) (refundData shopifyOrder category : value) :
  Js.nullish refundData = false ->
  Js.nullish shopifyOrder = false ->
  refundFields W refundData shopifyOrder category =
    Ok (refundedTotals W shopifyOrder ++
        if (remainingAmount W refundData shopifyOrder <=? 0)%float
        then [(PAYMENT_STATUS, VStr "58");
              ("STAGE_ID", financialStatusToStageId W (VStr "refunded") category)]
        else if (0 <? refundAmount W refundData)%float
             then [(PAYMENT_STATUS, VStr "58")]
             else []).
Proof.
  intros Hr Ho. unfold refundFields.
  rewrite (get_defined refundData), (get_defined shopifyOrder) by assumption.
  cbn [rbind].
  fold (refundAmount W refundData) (orderTotal W shopifyOrder).
  fold (remainingAmount W refundData shopifyOrder).
  destruct (remainingAmount W refundData shopifyOrder <=? 0)%float; [reflexivity|].
  destruct (0 <? refundAmount W refundData)%float; reflexivity.
Qed.

Lemma refundFields_Ok_inv
  (W : World) (refundData shopifyOrder category : value) (fields : obj) :
  refundFields W refundData shopifyOrder category = Ok fields ->
  Js.nullish refundData = false /\ Js.nullish shopifyOrder = false.
Proof.
  intros H. unfold refundFields in H.
  assert (Hr : Js.nullish refundData = false).
  { destruct refundData; try reflexivity; discriminate H. }
  split; [assumption|].
  rewrite (get_defined refundData) in H by assumption. cbn [rbind] in H.
  destruct shopifyOrder; try reflexivity; discriminate H.
Qed.

(** X17: the fields of a refund update are the four monetary totals the
    mapper computes for the fetched order, always; the payment status exactly
    when the remaining amount is at most zero or the refund amount is above
    zero; the stage exactly when the remaining amount is at most zero; and
    never the category. *)
Theorem refund_fields_are_characterised
  (W : World) (refundData shopifyOrder category : value) (fields : obj) :
  refundFields W refundData shopifyOrder category = Ok fields ->
  (forall k, has_key (refundedTotals W shopifyOrder) k = true ->
             obj_get fields k = obj_get (refundedTotals W shopifyOrder) k) /\
  has_key fields PAYMENT_STATUS =
    ((remainingAmount W refundData shopifyOrder <=? 0)%float
     || (0 <? refundAmount W refundData)%float) /\
  has_key fields "STAGE_ID" = (remainingAmount W refundData shopifyOrder <=? 0)%float /\
  has_key fields "CATEGORY_ID" = false.
Proof.
  intros H.
  destruct (refundFields_Ok_inv W refundData shopifyOrder category fields H) as (Hr & Ho).
  rewrite (refundFields_exact W refundData shopifyOrder category Hr Ho) in H.
  injection H as <-.
  split.
  - intros k Hk. unfold refundedTotals in *. cbn [app obj_get].
    destruct (String.eqb_spec "OPPORTUNITY" k) as [E|N1]; [reflexivity|].
    destruct (String.eqb_spec "UF_SHOPIFY_TOTAL_DISCOUNT" k) as [E|N2]; [reflexivity|].
    destruct (String.eqb_spec "UF_SHOPIFY_SHIPPING_PRICE" k) as [E|N3]; [reflexivity|].
    destruct (String.eqb_spec "UF_SHOPIFY_TOTAL_TAX" k) as [E|N4]; [reflexivity|].
    exfalso. cbn [has_key obj_keys map fst existsb] in Hk.
    rewrite !(proj2 (String.eqb_neq k _)) in Hk by congruence.
    discriminate Hk.
  - destruct (remainingAmount W refundData shopifyOrder <=? 0)%float;
      [repeat split; reflexivity|].
    destruct (0 <? refundAmount W refundData)%float; repeat split; reflexivity.
Qed.

Lemma refund_fields_witness :
  (forall k, has_key (refundedTotals Sample.crm_and_store Sample.order1001) k = true ->
             obj_get [("OPPORTUNITY", VNum 100); ("UF_SHOPIFY_TOTAL_DISCOUNT", VNum 0);
                      ("UF_SHOPIFY_SHIPPING_PRICE", VNum 0);
                      ("UF_SHOPIFY_TOTAL_TAX", VNum 0); (PAYMENT_STATUS, VStr "58")] k =
               obj_get (refundedTotals Sample.crm_and_store Sample.order1001) k) /\
  has_key [("OPPORTUNITY", VNum 100); ("UF_SHOPIFY_TOTAL_DISCOUNT", VNum 0);
           ("UF_SHOPIFY_SHIPPING_PRICE", VNum 0);
           ("UF_SHOPIFY_TOTAL_TAX", VNum 0); (PAYMENT_STATUS, VStr "58")]
          PAYMENT_STATUS =
    ((remainingAmount Sample.crm_and_store Sample.refund_partial Sample.order1001 <=? 0)%float
     || (0 <? refundAmount Sample.crm_and_store Sample.refund_partial)%float) /\
  has_key [("OPPORTUNITY", VNum 100); ("UF_SHOPIFY_TOTAL_DISCOUNT", VNum 0);
           ("UF_SHOPIFY_SHIPPING_PRICE", VNum 0);
           ("UF_SHOPIFY_TOTAL_TAX", VNum 0); (PAYMENT_STATUS, VStr "58")] "STAGE_ID" =
    (remainingAmount Sample.crm_and_store Sample.refund_partial Sample.order1001 <=? 0)%float /\
  has_key [("OPPORTUNITY", VNum 100); ("UF_SHOPIFY_TOTAL_DISCOUNT", VNum 0);
           ("UF_SHOPIFY_SHIPPING_PRICE", VNum 0);
           ("UF_SHOPIFY_TOTAL_TAX", VNum 0); (PAYMENT_STATUS, VStr "58")]
          "CATEGORY_ID" = false.
Proof.
  apply (refund_fields_are_characterised Sample.crm_and_store Sample.refund_partial
           Sample.order1001 (VNum 2)).
  vm_compute. reflexivity.
Defined.

(** X18: a refund that carries no amount counts as a refund of 0: unless the
    order total itself is at most zero, the update re-sends the four monetary
    totals and touches neither the payment status nor the stage. *)
Theorem refund_without_amount_keeps_the_status
  (W : World) (refundData shopifyOrder category : value) (fields : obj) :
  refundFields W refundData shopifyOrder category = Ok fields ->
  Js.truthy (Js.opt_get refundData "amount") = false ->
  (remainingAmount W refundData shopifyOrder <=? 0)%float = false ->
  fields = refundedTotals W shopifyOrder.
Proof.
  intros H Hamount Hremaining.
  destruct (refundFields_Ok_inv W refundData shopifyOrder category fields H) as (Hr & Ho).
  rewrite (refundFields_exact W refundData shopifyOrder category Hr Ho) in H.
  injection H as <-.
  rewrite Hremaining. unfold refundAmount, Js.or. rewrite Hamount.
  change (0 <? ToNumber W (VNum 0))%float with false.
  reflexivity.
Qed.

Lemma refund_without_amount_witness :
  [("OPPORTUNITY", VNum 100); ("UF_SHOPIFY_TOTAL_DISCOUNT", VNum 0);
   ("UF_SHOPIFY_SHIPPING_PRICE", VNum 0); ("UF_SHOPIFY_TOTAL_TAX", VNum 0)] =
  refundedTotals Sample.crm_and_store Sample.order1001.
Proof.
  apply (refund_without_amount_keeps_the_status Sample.crm_and_store
           (VObj [("id", VNum 9003); ("order_id", VNum 1001)])
           Sample.order1001 (VNum 2)).
  - vm_compute. reflexivity.
  - reflexivity.
  - vm_compute. reflexivity.
Defined.

(** ** Tags: the code against the words of the specification *)

Lemma in_all_ascii (c : ascii) : In c all_ascii.
Proof.
  unfold all_ascii. rewrite <- (ascii_nat_embedding c). apply in_map.
  apply in_seq. split; [apply Nat.le_0_l | apply nat_ascii_bounded].
Qed.

Lemma ascii_forall (P : ascii -> bool) :
  forallb P all_ascii = true -> forall c, P c = true.
Proof.
  intros H c. rewrite forallb_forall in H. apply H, in_all_ascii.
Qed.

Lemma ascii_forall2 (P : ascii -> ascii -> bool) :
  forallb (fun c => forallb (P c) all_ascii) all_ascii = true ->
  forall c d, P c d = true.
Proof.
  intros H c d.
  apply (ascii_forall (P c)). apply (ascii_forall (fun c => forallb (P c) all_ascii) H).
Qed.

(** [toLowerCase] identifies exactly the characters that are the same
    letter. *)
Lemma lower_char_same_letter (c d : ascii) :
  Ascii.eqb (Str.lower_char c) (Str.lower_char d) = same_letter c d.
Proof.
  apply Bool.eqb_prop.
  apply (ascii_forall2
           (fun c d => Bool.eqb (Ascii.eqb (Str.lower_char c) (Str.lower_char d))
                                (same_letter c d))).
  vm_compute. reflexivity.
Qed.

(** [trim] strips exactly the white space. *)
Lemma is_space_white (c : ascii) : Str.is_space c = white c.
Proof.
  apply Bool.eqb_prop.
  apply (ascii_forall (fun c => Bool.eqb (Str.is_space c) (white c))).
  vm_compute. reflexivity.
Qed.

Lemma white_not_comma (c : ascii) : white c = true -> Ascii.eqb ","%char c = false.
Proof.
  intros H.
  pose proof (ascii_forall (fun c => negb (white c && Ascii.eqb ","%char c))) as Hall.
  specialize (Hall ltac:(vm_compute; reflexivity) c).
  cbv beta in Hall. rewrite H in Hall. cbn [andb] in Hall.
  destruct (Ascii.eqb ","%char c); [discriminate Hall | reflexivity].
Qed.

Lemma toLowerCase_same_up_to_case (a b : string) :
  String.eqb (Str.toLowerCase a) (Str.toLowerCase b) = same_up_to_case a b.
Proof.
  revert b. induction a as [|c a IH]; intros [|d b]; simpl; try reflexivity.
  now rewrite lower_char_same_letter, IH.
Qed.

Lemma existsb_same_up_to_case (tags : list string) :
  existsb (fun tag =>
             existsb (fun preorderTag =>
                        String.eqb (Str.toLowerCase tag) (Str.toLowerCase preorderTag))
                     preorderTags) tags = true <->
  holds_preorder_tag tags.
Proof.
  rewrite existsb_exists. split.
  - intros (tag & Hin & Hmatch). apply existsb_exists in Hmatch.
    destruct Hmatch as (p & Hp & Heq). exists tag, p.
    now rewrite <- toLowerCase_same_up_to_case.
  - intros (tag & p & Hin & Hp & Heq). exists tag. split; [assumption|].
    apply existsb_exists. exists p. now rewrite toLowerCase_same_up_to_case.
Qed.

Lemma trimStart_blank (l x : string) :
  blank l = true -> Str.trimStart (l ++ x)%string = Str.trimStart x.
Proof.
  induction l as [|c l IH]; [reflexivity|]. unfold blank. simpl.
  rewrite andb_true_iff. intros (Hc & Hl).
  rewrite is_space_white, Hc. now apply IH.
Qed.

Lemma trimStart_all_blank (l : string) : blank l = true -> Str.trimStart l = EmptyString.
Proof.
  induction l as [|c l IH]; [reflexivity|]. unfold blank. simpl.
  rewrite andb_true_iff. intros (Hc & Hl).
  rewrite is_space_white, Hc. now apply IH.
Qed.

Lemma trimEnd_blank (r : string) : blank r = true -> Str.trimEnd r = EmptyString.
Proof.
  induction r as [|c r IH]; [reflexivity|]. unfold blank. simpl.
  rewrite andb_true_iff. intros (Hc & Hr).
  rewrite (IH Hr), is_space_white, Hc. reflexivity.
Qed.

Lemma last_char_None (s : string) : last_char s = None -> s = EmptyString.
Proof.
  destruct s as [|c s]; [reflexivity|]. simpl. now destruct (last_char s).
Qed.

Lemma trimEnd_tight (t r : string) :
  match last_char t with
  | None => true
  | Some c => negb (white c)
  end = true ->
  blank r = true ->
  Str.trimEnd (t ++ r)%string = t.
Proof.
  intros Ht Hr. induction t as [|c t IH]; simpl.
  - now apply trimEnd_blank.
  - simpl in Ht. destruct (last_char t) as [d|] eqn:Hlast.
    + rewrite (IH Ht). destruct t; [discriminate Hlast | reflexivity].
    + apply last_char_None in Hlast. subst t. simpl.
      rewrite (trimEnd_blank r Hr), is_space_white.
      now destruct (white c).
Qed.

Lemma comma_free_app (a b : string) :
  comma_free (a ++ b)%string = comma_free a && comma_free b.
Proof.
  unfold comma_free. induction a as [|c a IH];
    cbn [append list_ascii_of_string existsb].
  - reflexivity.
  - destruct (Ascii.eqb ","%char c); cbn [orb negb andb]; [reflexivity | exact IH].
Qed.

Lemma blank_comma_free (s : string) : blank s = true -> comma_free s = true.
Proof.
  unfold blank, comma_free. induction s as [|c s IH];
    cbn [list_ascii_of_string existsb forallb]; [reflexivity|].
  rewrite andb_true_iff. intros (Hc & Hs).
  rewrite (white_not_comma c Hc). cbn [orb]. now apply IH.
Qed.

(** [trim] gives back the tag of a padded piece. *)
Lemma trim_piece (p : padded_tag) :
  well_padded p = true -> Str.trim (piece_of p) = tag_of p.
Proof.
  unfold well_padded, piece_of, tight, Str.trim.
  rewrite !andb_true_iff. intros (((Hb & Ha) & (Hfirst & Hlast)) & _).
  rewrite (trimStart_blank _ _ Hb).
  destruct (tag_of p) as [|c t] eqn:Htag.
  - simpl. now rewrite (trimStart_all_blank _ Ha).
  - cbn [append Str.trimStart]. rewrite is_space_white.
    destruct (white c); [discriminate Hfirst|].
    now apply (trimEnd_tight (String c t) (after p)).
Qed.

Lemma split_comma_piece (p rest : string) :
  comma_free p = true ->
  Str.split_comma (p ++ String ","%char rest)%string = p :: Str.split_comma rest.
Proof.
  unfold comma_free. induction p as [|c p IH];
    cbn [append list_ascii_of_string existsb Str.split_comma].
  - intros _. now rewrite Ascii.eqb_refl.
  - rewrite (Ascii.eqb_sym ","%char c).
    destruct (Ascii.eqb c ","%char); cbn [orb negb]; [discriminate|].
    intros Hp. now rewrite (IH Hp).
Qed.

Lemma split_comma_last (p : string) :
  comma_free p = true -> Str.split_comma p = [p].
Proof.
  unfold comma_free. induction p as [|c p IH];
    cbn [list_ascii_of_string existsb Str.split_comma]; [reflexivity|].
  rewrite (Ascii.eqb_sym ","%char c).
  destruct (Ascii.eqb c ","%char); cbn [orb negb]; [discriminate|].
  intros Hp. now rewrite (IH Hp).
Qed.

(** [split(',')] gives back the pieces of a delimited string. *)
Lemma split_comma_concat (pieces : list string) :
  pieces <> [] ->
  forallb comma_free pieces = true ->
  Str.split_comma (String.concat "," pieces) = pieces.
Proof.
  induction pieces as [|p pieces IH]; [congruence|]. intros _. simpl forallb.
  rewrite andb_true_iff. intros (Hp & Hrest).
  destruct pieces as [|q pieces].
  - simpl. now apply split_comma_last.
  - change (String.concat "," (p :: q :: pieces))
      with (p ++ String ","%char (String.concat "," (q :: pieces)))%string.
    rewrite (split_comma_piece _ _ Hp). f_equal. apply IH; [discriminate | assumption].
Qed.

Lemma trimmed_pieces_of_delimited (tags : list padded_tag) :
  tags <> [] ->
  forallb well_padded tags = true ->
  map Str.trim (Str.split_comma (delimited tags)) = map tag_of tags.
Proof.
  intros Hne Hall. unfold delimited.
  rewrite split_comma_concat.
  - rewrite map_map. apply map_ext_in. intros p Hp. apply trim_piece.
    rewrite forallb_forall in Hall. now apply Hall.
  - destruct tags; [congruence | discriminate].
  - rewrite forallb_forall in *. intros piece Hpiece.
    apply in_map_iff in Hpiece. destruct Hpiece as (p & <- & Hp).
    specialize (Hall p Hp). unfold well_padded in Hall.
    rewrite !andb_true_iff in Hall. destruct Hall as (((Hb & Ha) & _) & Hc).
    unfold piece_of. rewrite !comma_free_app, Hc.
    now rewrite (blank_comma_free _ Hb), (blank_comma_free _ Ha).
Qed.

(** C5: the category follows the tags up to case, for a list of tags and for
    a comma-delimited string alike.  With equality up to case read off the
    table of the letters and their capitals: a list of tags routes to the
    preorder category when some tag equals a configured preorder tag up to
    case, and to the stock category otherwise; a comma-delimited string, with
    or without white space around its tags, routes as the list of these tags;
    lists that differ by case route alike; tags [["Pre-Order"]] and tags
    ["pre-order"] both route to the preorder category; an order without tags
    routes to the stock category. *)
Theorem C5_category_routing_up_to_case (W : World) :
  (forall tags : list string,
      (holds_preorder_tag tags ->
       categoryFor W (VArr (map VStr tags)) = Ok (CATEGORY_PREORDER W)) /\
      (~ holds_preorder_tag tags ->
       categoryFor W (VArr (map VStr tags)) = Ok (CATEGORY_STOCK W))) /\
  (forall tags : list padded_tag,
      tags <> [] ->
      forallb well_padded tags = true ->
      categoryFor W (VStr (delimited tags)) =
        categoryFor W (VArr (map VStr (map tag_of tags)))) /\
  (forall tags tags' : list string,
      Forall2 (fun tag tag' => same_up_to_case tag tag' = true) tags tags' ->
      categoryFor W (VArr (map VStr tags)) = categoryFor W (VArr (map VStr tags'))) /\
  categoryFor W (VArr [VStr "Pre-Order"]) = Ok (CATEGORY_PREORDER W) /\
  categoryFor W (VStr "pre-order") = Ok (CATEGORY_PREORDER W) /\
  categoryFor W VUndef = Ok (CATEGORY_STOCK W) /\
  categoryFor W (VStr "") = Ok (CATEGORY_STOCK W).
Proof.
  split; [|split; [|split; [|repeat split]]].
  - intros tags. rewrite categoryFor_strings. split.
    + intros H. apply existsb_same_up_to_case in H. now rewrite H.
    + intros H. destruct (existsb _ tags) eqn:Hex; [|reflexivity].
      exfalso. apply H. now apply existsb_same_up_to_case.
  - intros tags Hne Hall.
    pose proof (trimmed_pieces_of_delimited tags Hne Hall) as Htags.
    destruct (delimited tags) as [|c s] eqn:Hs.
    + rewrite <- Htags. reflexivity.
    + unfold categoryFor at 1. unfold orderTags.
      change (Js.truthy (VStr (String c s))) with true. cbv iota.
      change (ToString W (VStr (String c s))) with (String c s).
      rewrite <- (map_map Str.trim VStr), Htags. reflexivity.
  - intros tags tags' Hsame. rewrite !categoryFor_strings.
    rewrite (existsb_sameUpToCase tags tags'); [reflexivity|].
    unfold sameUpToCase.
    induction Hsame as [|tag tag' tags tags' Heq _ IH]; constructor; [|exact IH].
    rewrite <- toLowerCase_same_up_to_case in Heq. now apply String.eqb_eq.
Qed.

Lemma C5_witness :
  categoryFor Sample.crm (VArr (map VStr ["vip"; "PREORDER-Product-Added"])) =
    Ok (CATEGORY_PREORDER Sample.crm) /\
  categoryFor Sample.crm
    (VStr (delimited [Build_padded_tag "" "sale" ""; Build_padded_tag " " "Pre-Order" " ";
                      Build_padded_tag "" "vip" ""])) =
    categoryFor Sample.crm
      (VArr (map VStr (map tag_of [Build_padded_tag "" "sale" "";
                                   Build_padded_tag " " "Pre-Order" " ";
                                   Build_padded_tag "" "vip" ""]))) /\
  categoryFor Sample.crm (VArr (map VStr ["PRE-ORDER"])) =
    categoryFor Sample.crm (VArr (map VStr ["pre-order"])).
Proof.
  split; [|split].
  - apply (proj1 (C5_category_routing_up_to_case Sample.crm)
                 ["vip"; "PREORDER-Product-Added"]).
    exists "PREORDER-Product-Added", "preorder-product-added".
    split; [right; left; reflexivity | split; [right; left; reflexivity | reflexivity]].
  - apply (proj1 (proj2 (C5_category_routing_up_to_case Sample.crm))).
    + discriminate.
    + reflexivity.
  - apply (proj1 (proj2 (proj2 (C5_category_routing_up_to_case Sample.crm)))).
    constructor; [reflexivity | constructor].
Defined.

(** ** Presence and value of the monetary custom fields *)

(** C8 (amended): in the diff of an [orders/updated] event, whatever the deal
    holds, the discount total is there exactly when the order has a
    [current_total_discounts], the tax total exactly when it has a
    [current_total_tax], and the shipping price exactly when its first
    shipping line has a price; each field that is there carries the number
    read from the order, the shipping price being read from the first truthy
    source of the chain: the other sources of the shipping amount feed the
    value and not the presence. *)
Theorem C8_monetary_fields_follow_presence
  (W : World) (order deal : value) (fields : obj) :
  orderUpdatedFields W order deal = Ok fields ->
  has_key fields "UF_SHOPIFY_TOTAL_DISCOUNT" =
    Js.strict_neq (Js.opt_get order "current_total_discounts") VUndef /\
  has_key fields "UF_SHOPIFY_TOTAL_TAX" =
    Js.strict_neq (Js.opt_get order "current_total_tax") VUndef /\
  has_key fields "UF_SHOPIFY_SHIPPING_PRICE" =
    Js.strict_neq
      (Js.opt_get (Js.opt_index0 (Js.opt_get order "shipping_lines")) "price") VUndef /\
  obj_get fields "UF_SHOPIFY_TOTAL_DISCOUNT" =
    (if Js.strict_neq (Js.opt_get order "current_total_discounts") VUndef
     then VNum (ToNumber W (Js.opt_get order "current_total_discounts"))
     else VUndef) /\
  obj_get fields "UF_SHOPIFY_TOTAL_TAX" =
    (if Js.strict_neq (Js.opt_get order "current_total_tax") VUndef
     then VNum (ToNumber W (Js.opt_get order "current_total_tax"))
     else VUndef) /\
  obj_get fields "UF_SHOPIFY_SHIPPING_PRICE" =
    (if Js.strict_neq
          (Js.opt_get (Js.opt_index0 (Js.opt_get order "shipping_lines")) "price") VUndef
     then VNum (shippingAmount W order)
     else VUndef).
Proof.
  intros H.
  destruct (orderUpdatedFields_Ok_inv W order deal fields H) as (Ho & Hd & c & Hc).
  destruct (orderUpdatedFields_keys W order deal c Ho Hd Hc)
    as (fields' & Hfields' & _ & Hdisc & Htax & Hship).
  rewrite H in Hfields'. injection Hfields' as <-.
  do 3 (split; [assumption|]).
  rewrite (orderUpdatedFields_exact W order deal c Ho Hd Hc) in H.
  injection H as <-. clear Hdisc Htax Hship.
  unfold diffOf, when, PAYMENT_STATUS.
  destruct (Js.strict_neq c (currentCategory W deal));
    destruct (negb (PrimFloat.eqb (newAmount W order)
                                  (ToNumber W (Js.opt_get deal "OPPORTUNITY"))));
    destruct (Js.strict_neq (targetStage W order c) (Js.opt_get deal "STAGE_ID"));
    destruct (Js.strict_neq (Js.opt_get order "current_total_discounts") VUndef);
    destruct (Js.strict_neq (Js.opt_get order "current_total_tax") VUndef);
    destruct (Js.strict_neq
                (Js.opt_get (Js.opt_index0 (Js.opt_get order "shipping_lines")) "price")
                VUndef);
    repeat split; reflexivity.
Qed.

Lemma C8_witness :
  has_key [(PAYMENT_STATUS, VStr "56"); ("UF_SHOPIFY_TOTAL_DISCOUNT", VNum 10);
           ("UF_SHOPIFY_TOTAL_TAX", VNum 8); ("UF_SHOPIFY_SHIPPING_PRICE", VNum 7)]
          "UF_SHOPIFY_TOTAL_DISCOUNT" =
    Js.strict_neq (Js.opt_get Sample.order1003 "current_total_discounts") VUndef /\
  has_key [(PAYMENT_STATUS, VStr "56"); ("UF_SHOPIFY_TOTAL_DISCOUNT", VNum 10);
           ("UF_SHOPIFY_TOTAL_TAX", VNum 8); ("UF_SHOPIFY_SHIPPING_PRICE", VNum 7)]
          "UF_SHOPIFY_TOTAL_TAX" =
    Js.strict_neq (Js.opt_get Sample.order1003 "current_total_tax") VUndef /\
  has_key [(PAYMENT_STATUS, VStr "56"); ("UF_SHOPIFY_TOTAL_DISCOUNT", VNum 10);
           ("UF_SHOPIFY_TOTAL_TAX", VNum 8); ("UF_SHOPIFY_SHIPPING_PRICE", VNum 7)]
          "UF_SHOPIFY_SHIPPING_PRICE" =
    Js.strict_neq
      (Js.opt_get (Js.opt_index0 (Js.opt_get Sample.order1003 "shipping_lines")) "price")
      VUndef /\
  obj_get [(PAYMENT_STATUS, VStr "56"); ("UF_SHOPIFY_TOTAL_DISCOUNT", VNum 10);
           ("UF_SHOPIFY_TOTAL_TAX", VNum 8); ("UF_SHOPIFY_SHIPPING_PRICE", VNum 7)]
          "UF_SHOPIFY_TOTAL_DISCOUNT" =
    (if Js.strict_neq (Js.opt_get Sample.order1003 "current_total_discounts") VUndef
     then VNum (ToNumber Sample.crm (Js.opt_get Sample.order1003 "current_total_discounts"))
     else VUndef) /\
  obj_get [(PAYMENT_STATUS, VStr "56"); ("UF_SHOPIFY_TOTAL_DISCOUNT", VNum 10);
           ("UF_SHOPIFY_TOTAL_TAX", VNum 8); ("UF_SHOPIFY_SHIPPING_PRICE", VNum 7)]
          "UF_SHOPIFY_TOTAL_TAX" =
    (if Js.strict_neq (Js.opt_get Sample.order1003 "current_total_tax") VUndef
     then VNum (ToNumber Sample.crm (Js.opt_get Sample.order1003 "current_total_tax"))
     else VUndef) /\
  obj_get [(PAYMENT_STATUS, VStr "56"); ("UF_SHOPIFY_TOTAL_DISCOUNT", VNum 10);
           ("UF_SHOPIFY_TOTAL_TAX", VNum 8); ("UF_SHOPIFY_SHIPPING_PRICE", VNum 7)]
          "UF_SHOPIFY_SHIPPING_PRICE" =
    (if Js.strict_neq
          (Js.opt_get (Js.opt_index0 (Js.opt_get Sample.order1003 "shipping_lines"))
                      "price") VUndef
     then VNum (shippingAmount Sample.crm Sample.order1003)
     else VUndef).
Proof.
  apply (C8_monetary_fields_follow_presence Sample.crm Sample.order1003 Sample.deal501).
  vm_compute. reflexivity.
Defined.

(** The witness, read: the three fields are there, with the discount 10, the
    tax 8, and the shipping price 7 of the price set rather than the 5 of the
    shipping line. *)
Example order1003_diff :
  orderUpdatedFields Sample.crm Sample.order1003 Sample.deal501 =
    Ok [(PAYMENT_STATUS, VStr "56"); ("UF_SHOPIFY_TOTAL_DISCOUNT", VNum 10);
        ("UF_SHOPIFY_TOTAL_TAX", VNum 8); ("UF_SHOPIFY_SHIPPING_PRICE", VNum 7)] /\
  Js.strict_neq (Js.opt_get Sample.order1003 "current_total_discounts") VUndef = true /\
  Js.strict_neq (Js.opt_get Sample.order1003 "current_total_tax") VUndef = true /\
  Js.strict_neq
    (Js.opt_get (Js.opt_index0 (Js.opt_get Sample.order1003 "shipping_lines")) "price")
    VUndef = true.
Proof. repeat split; vm_compute; reflexivity. Qed.

(** ** The refund threshold and the category of the stage *)

(** C3 (amended): on a [refunds/create] event where the deal is located and
    the order is fetched, the update call is issued with fields that, when
    the remaining amount is at most zero, carry the unpaid code 58 and the
    refunded stage of [Number(deal.CATEGORY_ID) || 2], which is the deal's
    category when that is a number other than zero and category 2 otherwise,
    and that, when the remaining amount and the refund amount are above
    zero, carry the unpaid code 58 and no stage. *)
Theorem C3_refund_threshold_with_category_default
  (W : World) (refundData oid deal shopifyOrder : value) (tr : list call) :
  Js.get refundData "order_id" = Ok oid ->
  locates W tr oid deal ->
  fetches W (tr ++ [deal_list (ToString W oid)]) (ToString W oid) shopifyOrder ->
  exists fields rest,
    handleRefundCreated W refundData tr =
      (tr ++ [deal_list (ToString W oid); import_adminClient;
              getOrder (ToString W oid);
              deal_update (Js.opt_get deal "ID") fields] ++ rest,
       Ok (Js.opt_get deal "ID")) /\
    ((remainingAmount W refundData shopifyOrder <=? 0)%float = true ->
     obj_get fields PAYMENT_STATUS = VStr "58" /\
     obj_get fields "STAGE_ID" =
       financialStatusToStageId W (VStr "refunded")
         (if Js.truthy (VNum (dealCategory W deal))
          then VNum (dealCategory W deal)
          else VNum 2)) /\
    ((0 <? remainingAmount W refundData shopifyOrder)%float = true ->
     (0 <? refundAmount W refundData)%float = true ->
     obj_get fields PAYMENT_STATUS = VStr "58" /\
     has_key fields "STAGE_ID" = false).
Proof.
  intros Hid Hloc Hfetch.
  pose proof (get_Ok_not_nullish _ _ _ Hid) as Hr.
  assert (Ho : Js.nullish shopifyOrder = false).
  { destruct Hfetch as (_ & _ & Ht). now apply truthy_not_nullish. }
  destruct (refundFields_cases W refundData shopifyOrder (currentCategory W deal) Hr Ho)
    as (fields & Hfields & Hfull & Hpartial).
  exists fields. eexists. split.
  - apply (handleRefundCreated_fetched W refundData oid deal shopifyOrder fields tr);
      assumption.
  - split; [exact Hfull | exact Hpartial].
Qed.

(** The threshold on both sides: the refund of 100 out of 100 forces the
    refunded stage of category 2, the category of deal 501, and the refund of
    40 out of 100 sets the unpaid code and no stage. *)
Lemma C3_witness :
  (exists fields rest,
      handleRefundCreated Sample.crm_and_store Sample.refund_full [] =
        ([] ++ [deal_list (ToString Sample.crm_and_store (VNum 1001)); import_adminClient;
                getOrder (ToString Sample.crm_and_store (VNum 1001));
                deal_update (Js.opt_get Sample.deal501 "ID") fields] ++ rest,
         Ok (Js.opt_get Sample.deal501 "ID")) /\
      obj_get fields PAYMENT_STATUS = VStr "58" /\
      obj_get fields "STAGE_ID" = VStr "C2:LOSE") /\
  (exists fields rest,
      handleRefundCreated Sample.crm_and_store Sample.refund_partial [] =
        ([] ++ [deal_list (ToString Sample.crm_and_store (VNum 1001)); import_adminClient;
                getOrder (ToString Sample.crm_and_store (VNum 1001));
                deal_update (Js.opt_get Sample.deal501 "ID") fields] ++ rest,
         Ok (Js.opt_get Sample.deal501 "ID")) /\
      obj_get fields PAYMENT_STATUS = VStr "58" /\
      has_key fields "STAGE_ID" = false).
Proof.
  assert (Hloc : locates Sample.crm_and_store [] (VNum 1001) Sample.deal501).
  { exists (VObj [("result", VArr [Sample.deal501])]), (VArr [Sample.deal501]).
    repeat split; reflexivity. }
  assert (Hfetch : fetches Sample.crm_and_store
                     ([] ++ [deal_list (ToString Sample.crm_and_store (VNum 1001))])
                     (ToString Sample.crm_and_store (VNum 1001)) Sample.order1001).
  { split; [exists (VObj []); reflexivity | split; reflexivity]. }
  split.
  - destruct (C3_refund_threshold_with_category_default Sample.crm_and_store
                Sample.refund_full (VNum 1001) Sample.deal501 Sample.order1001 []
                eq_refl Hloc Hfetch) as (fields & rest & Hrun & Hfull & _).
    exists fields, rest. split; [exact Hrun|]. apply Hfull. vm_compute. reflexivity.
  - destruct (C3_refund_threshold_with_category_default Sample.crm_and_store
                Sample.refund_partial (VNum 1001) Sample.deal501 Sample.order1001 []
                eq_refl Hloc Hfetch) as (fields & rest & Hrun & _ & Hpartial).
    exists fields, rest. split; [exact Hrun|].
    apply Hpartial; vm_compute; reflexivity.
Defined.

(** C3, as stated, fails: deal 500 is in category 0, the default pipeline;
    the refund of 100 out of 100 on its order leaves nothing, and the update
    carries the refunded stage of category 2, not the one of the deal's
    category. *)
Lemma C3_counterexample_deal_of_category_zero :
  locates Sample.default_pipeline_crm_and_store [] (VNum 1001) Sample.deal500 /\
  fetches Sample.default_pipeline_crm_and_store [deal_list "1001"] "1001"
          Sample.order1001 /\
  (remainingAmount Sample.default_pipeline_crm_and_store Sample.refund_full
                   Sample.order1001 <=? 0)%float = true /\
  Js.opt_get Sample.deal500 "CATEGORY_ID" = VStr "0" /\
  dealCategory Sample.default_pipeline_crm_and_store Sample.deal500 = 0%float /\
  financialStatusToStageId Sample.default_pipeline_crm_and_store (VStr "refunded")
    (VNum (dealCategory Sample.default_pipeline_crm_and_store Sample.deal500)) =
    VStr "C0:LOSE" /\
  handleRefundCreated Sample.default_pipeline_crm_and_store Sample.refund_full [] =
    ([deal_list "1001"; import_adminClient; getOrder "1001";
      deal_update (VStr "500")
        [("OPPORTUNITY", VNum 100); ("UF_SHOPIFY_TOTAL_DISCOUNT", VNum 0);
         ("UF_SHOPIFY_SHIPPING_PRICE", VNum 0); ("UF_SHOPIFY_TOTAL_TAX", VNum 0);
         (PAYMENT_STATUS, VStr "58"); ("STAGE_ID", VStr "C2:LOSE")];
      productrows_set (VStr "500")
        (snd (Sample.mapShopifyOrderToBitrixDeal Sample.order1001))],
     Ok (VStr "500")).
Proof.
  split.
  { exists (VObj [("result", VArr [Sample.deal500])]), (VArr [Sample.deal500]).
    repeat split; reflexivity. }
  split.
  { split; [exists (VObj []); reflexivity | split; reflexivity]. }
  repeat split; vm_compute; reflexivity.
Qed.

(** ** The failures of a refund, call by call *)

(** After a lookup that finds the deal, [handleRefundCreated] is its [try]
    block. *)
Lemma handleRefundCreated_after_lookup
  (W : World) (refundData oid deal : value) (tr : list call) :
  Js.get refundData "order_id" = Ok oid ->
  locates W tr oid deal ->
  handleRefundCreated W refundData tr =
    try_catch
      (perform W import_adminClient ;;;
       shopifyOrder <- perform W (getOrder (ToString W oid)) ;;
       if negb (Js.truthy shopifyOrder) then ret VUndef
       else applyRefund W (Js.opt_get deal "ID") (currentCategory W deal)
                        refundData shopifyOrder ;;;
            ret (Js.opt_get deal "ID"))
      (fun _ => ret (Js.opt_get deal "ID")) (tr ++ [deal_list (ToString W oid)]).
Proof.
  intros Hid (listResp & result & Hlist & Hres & Hdeal & Htruthy).
  pose proof (truthy_not_nullish _ Htruthy) as Hd.
  unfold handleRefundCreated, currentCategoryOf. rewrite Hid.
  unfold bind at 1. unfold lift at 1.
  unfold bind at 1. unfold perform at 1. rewrite Hlist.
  unfold bind at 1. unfold lift at 1. rewrite Hres, Hdeal, Htruthy.
  cbn [negb]. cbv iota.
  rewrite !(get_defined deal) by assumption.
  unfold bind at 1. unfold lift at 1.
  unfold bind at 1. unfold lift at 1. cbn [rbind]. reflexivity.
Qed.

Lemma handler_refund
  (W : World) (requestId : string) (req : request) (tr : list call) :
  Js.strict_neq (method req) (VStr "POST") = false ->
  topicOf req = VStr "refunds/create" ->
  handler W requestId req tr =
    match handleRefundCreated W (body req) (tr ++ [storeEvent (body req)]) with
    | (tr', Ok _) =>
        (tr', Ok {| status := 200; payload := Success requestId (topicOf req) |})
    | (tr', Throw e) =>
        (tr', Ok {| status := 500; payload := InternalServerError e requestId |})
    end.
Proof.
  intros Hmethod Htopic.
  rewrite (handler_post W requestId req tr Hmethod).
  rewrite Htopic at 1. rewrite dispatch_refund.
  now destruct (handleRefundCreated W (body req) (tr ++ [storeEvent (body req)]))
    as [tr' [v|e]].
Qed.

(** C9 (amended): on a [refunds/create] event where the deal is located,
    every failure after the lookup is absorbed and the response reports
    success; the calls are in sequence, not independent of each other.  When
    the storefront client cannot be loaded, the sequence stops there; when
    the fetch fails or returns nothing, it stops there and no mutation call
    is made; when the update-deal call fails, it stops there and the
    set-product-rows call is not made; when the set-product-rows call fails,
    the update has been made.  Each time the response is the success one. *)
Theorem C9_refund_failures_absorbed_in_sequence :
  (forall W requestId req oid deal tr,
      located_refund W req oid deal tr ->
      exists calls,
        handler W requestId req tr =
          (tr ++ storeEvent (body req) :: deal_list (ToString W oid) :: calls,
           Ok {| status := 200; payload := Success requestId (topicOf req) |})) /\
  (forall W requestId req oid deal tr e,
      located_refund W req oid deal tr ->
      respond W (tr ++ [storeEvent (body req); deal_list (ToString W oid)])
              import_adminClient = Throw e ->
      handler W requestId req tr =
        (tr ++ [storeEvent (body req); deal_list (ToString W oid); import_adminClient],
         Ok {| status := 200; payload := Success requestId (topicOf req) |})) /\
  (forall W requestId req oid deal tr client,
      located_refund W req oid deal tr ->
      respond W (tr ++ [storeEvent (body req); deal_list (ToString W oid)])
              import_adminClient = Ok client ->
      match respond W (tr ++ [storeEvent (body req); deal_list (ToString W oid);
                              import_adminClient])
                    (getOrder (ToString W oid)) with
      | Ok shopifyOrder => Js.truthy shopifyOrder = false
      | Throw _ => True
      end ->
      handler W requestId req tr =
        (tr ++ [storeEvent (body req); deal_list (ToString W oid); import_adminClient;
                getOrder (ToString W oid)],
         Ok {| status := 200; payload := Success requestId (topicOf req) |}) /\
      no_call is_mutation
        [storeEvent (body req); deal_list (ToString W oid); import_adminClient;
         getOrder (ToString W oid)]) /\
  (forall W requestId req oid deal tr shopifyOrder fields e,
      located_refund W req oid deal tr ->
      fetches W (tr ++ [storeEvent (body req); deal_list (ToString W oid)])
              (ToString W oid) shopifyOrder ->
      refundFields W (body req) shopifyOrder (currentCategory W deal) = Ok fields ->
      respond W (tr ++ [storeEvent (body req); deal_list (ToString W oid);
                        import_adminClient; getOrder (ToString W oid)])
              (deal_update (Js.opt_get deal "ID") fields) = Throw e ->
      handler W requestId req tr =
        (tr ++ [storeEvent (body req); deal_list (ToString W oid); import_adminClient;
                getOrder (ToString W oid); deal_update (Js.opt_get deal "ID") fields],
         Ok {| status := 200; payload := Success requestId (topicOf req) |}) /\
      no_call is_productrows_set
        [storeEvent (body req); deal_list (ToString W oid); import_adminClient;
         getOrder (ToString W oid); deal_update (Js.opt_get deal "ID") fields]) /\
  (forall W requestId req oid deal tr shopifyOrder fields ack e,
      located_refund W req oid deal tr ->
      fetches W (tr ++ [storeEvent (body req); deal_list (ToString W oid)])
              (ToString W oid) shopifyOrder ->
      refundFields W (body req) shopifyOrder (currentCategory W deal) = Ok fields ->
      respond W (tr ++ [storeEvent (body req); deal_list (ToString W oid);
                        import_adminClient; getOrder (ToString W oid)])
              (deal_update (Js.opt_get deal "ID") fields) = Ok ack ->
      nonempty (snd (mapShopifyOrderToBitrixDeal W shopifyOrder)) = true ->
      respond W (tr ++ [storeEvent (body req); deal_list (ToString W oid);
                        import_adminClient; getOrder (ToString W oid);
                        deal_update (Js.opt_get deal "ID") fields])
              (productrows_set (Js.opt_get deal "ID")
                               (snd (mapShopifyOrderToBitrixDeal W shopifyOrder)))
        = Throw e ->
      handler W requestId req tr =
        (tr ++ [storeEvent (body req); deal_list (ToString W oid); import_adminClient;
                getOrder (ToString W oid); deal_update (Js.opt_get deal "ID") fields;
                productrows_set (Js.opt_get deal "ID")
                                (snd (mapShopifyOrderToBitrixDeal W shopifyOrder))],
         Ok {| status := 200; payload := Success requestId (topicOf req) |})).
Proof.
  assert (Hflat : forall (tr : list call) (a : call) (l : list call),
             (tr ++ [a]) ++ l = tr ++ a :: l).
  { intros tr a l. now rewrite <- app_assoc. }
  split; [|split; [|split; [|split]]].
  - intros W requestId req oid deal tr (Hmethod & Htopic & Hid & Hloc).
    rewrite (handler_refund W requestId req tr Hmethod Htopic).
    destruct (handleRefundCreated_located W (body req) oid deal _ Hid Hloc)
      as (calls & outcome & Hrun & _).
    exists calls. rewrite Hrun. now rewrite Hflat.
  - intros W requestId req oid deal tr e (Hmethod & Htopic & Hid & Hloc) Himport.
    rewrite (handler_refund W requestId req tr Hmethod Htopic).
    rewrite (handleRefundCreated_after_lookup W (body req) oid deal _ Hid Hloc).
    rewrite Hflat. run. rewrite Himport. simpl. now rewrite <- !app_assoc.
  - intros W requestId req oid deal tr client (Hmethod & Htopic & Hid & Hloc)
           Himport Hget.
    split; [|reflexivity].
    rewrite (handler_refund W requestId req tr Hmethod Htopic).
    rewrite (handleRefundCreated_after_lookup W (body req) oid deal _ Hid Hloc).
    rewrite Hflat. run. rewrite Himport. simpl.
    replace ((tr ++ [storeEvent (body req); deal_list (ToString W oid)]) ++
             [import_adminClient])
      with (tr ++ [storeEvent (body req); deal_list (ToString W oid); import_adminClient])
      by now rewrite <- app_assoc.
    destruct (respond W _ (getOrder (ToString W oid))) as [shopifyOrder|e]; simpl.
    + rewrite Hget. simpl. now rewrite <- !app_assoc.
    + now rewrite <- !app_assoc.
  - intros W requestId req oid deal tr shopifyOrder fields e
           (Hmethod & Htopic & Hid & Hloc) Hfetch Hfields Hupdate.
    split; [|reflexivity].
    rewrite (handler_refund W requestId req tr Hmethod Htopic).
    rewrite <- Hflat in Hfetch.
    rewrite (handleRefundCreated_fetched W (body req) oid deal shopifyOrder fields _
               Hid Hloc Hfetch Hfields).
    rewrite !Hflat, Hupdate. reflexivity.
  - intros W requestId req oid deal tr shopifyOrder fields ack e
           (Hmethod & Htopic & Hid & Hloc) Hfetch Hfields Hupdate Hrows _.
    rewrite (handler_refund W requestId req tr Hmethod Htopic).
    rewrite <- Hflat in Hfetch.
    rewrite (handleRefundCreated_fetched W (body req) oid deal shopifyOrder fields _
               Hid Hloc Hfetch Hfields).
    rewrite !Hflat, Hupdate, Hrows. reflexivity.
Qed.

Ltac sample_refund_located :=
  repeat split;
  exists (VObj [("result", VArr [Sample.deal501])]), (VArr [Sample.deal501]);
  repeat split; reflexivity.

(** Each part on the refund of 40 on order 1001, in a world where the call
    in question fails: the client cannot be loaded; the storefront returns
    nothing; the CRM refuses the update; the CRM refuses the rows. *)
Lemma C9_witness :
  (exists calls,
      handler Sample.crm_and_store "r1"
              (Sample.post "refunds/create" Sample.refund_partial) [] =
        ([] ++ storeEvent (body (Sample.post "refunds/create" Sample.refund_partial))
            :: deal_list (ToString Sample.crm_and_store (VNum 1001)) :: calls,
         Ok {| status := 200; payload := Success "r1" (VStr "refunds/create") |})) /\
  handler Sample.crm_without_client "r1"
          (Sample.post "refunds/create" Sample.refund_partial) [] =
    ([storeEvent Sample.refund_partial; deal_list "1001"; import_adminClient],
     Ok {| status := 200; payload := Success "r1" (VStr "refunds/create") |}) /\
  handler Sample.crm_and_silent_store "r1"
          (Sample.post "refunds/create" Sample.refund_partial) [] =
    ([storeEvent Sample.refund_partial; deal_list "1001"; import_adminClient;
      getOrder "1001"],
     Ok {| status := 200; payload := Success "r1" (VStr "refunds/create") |}) /\
  handler Sample.crm_refusing_updates "r1"
          (Sample.post "refunds/create" Sample.refund_partial) [] =
    ([storeEvent Sample.refund_partial; deal_list "1001"; import_adminClient;
      getOrder "1001";
      deal_update (VStr "501")
        [("OPPORTUNITY", VNum 100); ("UF_SHOPIFY_TOTAL_DISCOUNT", VNum 0);
         ("UF_SHOPIFY_SHIPPING_PRICE", VNum 0); ("UF_SHOPIFY_TOTAL_TAX", VNum 0);
         (PAYMENT_STATUS, VStr "58")]],
     Ok {| status := 200; payload := Success "r1" (VStr "refunds/create") |}) /\
  handler Sample.crm_refusing_rows "r1"
          (Sample.post "refunds/create" Sample.refund_partial) [] =
    ([storeEvent Sample.refund_partial; deal_list "1001"; import_adminClient;
      getOrder "1001";
      deal_update (VStr "501")
        [("OPPORTUNITY", VNum 100); ("UF_SHOPIFY_TOTAL_DISCOUNT", VNum 0);
         ("UF_SHOPIFY_SHIPPING_PRICE", VNum 0); ("UF_SHOPIFY_TOTAL_TAX", VNum 0);
         (PAYMENT_STATUS, VStr "58")];
      productrows_set (VStr "501")
        (snd (Sample.mapShopifyOrderToBitrixDeal Sample.order1001))],
     Ok {| status := 200; payload := Success "r1" (VStr "refunds/create") |}).
Proof.
  split; [|split; [|split; [|split]]].
  - apply (proj1 C9_refund_failures_absorbed_in_sequence Sample.crm_and_store "r1"
             (Sample.post "refunds/create" Sample.refund_partial) (VNum 1001)
             Sample.deal501 []).
    sample_refund_located.
  - apply (proj1 (proj2 C9_refund_failures_absorbed_in_sequence)
             Sample.crm_without_client "r1"
             (Sample.post "refunds/create" Sample.refund_partial) (VNum 1001)
             Sample.deal501 [] (Error "remote failure")).
    + sample_refund_located.
    + reflexivity.
  - apply (proj1 (proj2 (proj2 C9_refund_failures_absorbed_in_sequence))
             Sample.crm_and_silent_store "r1"
             (Sample.post "refunds/create" Sample.refund_partial) (VNum 1001)
             Sample.deal501 [] (VObj [])).
    + sample_refund_located.
    + reflexivity.
    + reflexivity.
  - apply (proj1 (proj2 (proj2 (proj2 C9_refund_failures_absorbed_in_sequence)))
             Sample.crm_refusing_updates "r1"
             (Sample.post "refunds/create" Sample.refund_partial) (VNum 1001)
             Sample.deal501 [] Sample.order1001
             [("OPPORTUNITY", VNum 100); ("UF_SHOPIFY_TOTAL_DISCOUNT", VNum 0);
              ("UF_SHOPIFY_SHIPPING_PRICE", VNum 0); ("UF_SHOPIFY_TOTAL_TAX", VNum 0);
              (PAYMENT_STATUS, VStr "58")]
             (Error "remote failure")).
    + sample_refund_located.
    + split; [exists (VObj []); reflexivity | split; reflexivity].
    + vm_compute. reflexivity.
    + reflexivity.
  - apply (proj2 (proj2 (proj2 (proj2 C9_refund_failures_absorbed_in_sequence)))
             Sample.crm_refusing_rows "r1"
             (Sample.post "refunds/create" Sample.refund_partial) (VNum 1001)
             Sample.deal501 [] Sample.order1001
             [("OPPORTUNITY", VNum 100); ("UF_SHOPIFY_TOTAL_DISCOUNT", VNum 0);
              ("UF_SHOPIFY_SHIPPING_PRICE", VNum 0); ("UF_SHOPIFY_TOTAL_TAX", VNum 0);
              (PAYMENT_STATUS, VStr "58")]
             (VObj [("result", VBool true)]) (Error "remote failure")).
    + sample_refund_located.
    + split; [exists (VObj []); reflexivity | split; reflexivity].
    + vm_compute. reflexivity.
    + reflexivity.
    + reflexivity.
    + reflexivity.
Defined.

(** ** A creation that answers without an identifier *)

(** The contact step appends the calls of the contact, one or two. *)
Lemma contactStep_calls
  (W : World) (order : value) (dealFields fields : obj) (tr tr1 : list call) :
  contactStep W order dealFields tr = (tr1, Ok fields) ->
  exists contactCalls,
    tr1 = tr ++ contactCalls /\ forallb is_contact_call contactCalls = true.
Proof.
  rewrite contactStep_run.
  destruct (respond W tr getBitrixWebhookBase) as [bitrixBase|e]; intros H;
    injection H as <- _.
  - now exists [getBitrixWebhookBase; upsertBitrixContact bitrixBase order].
  - now exists [getBitrixWebhookBase].
Qed.

(** C2: on an [orders/create] event, when the create-deal call of the event,
    issued after the contact step with the fields that step ended with,
    answers with a response that has no result identifier, the handler stops
    there: the response is the internal-error one, with status 500 and the
    failure to create the deal, the create-deal call is the last call, and no
    set-product-rows call is made. *)
Theorem C2_create_without_identifier_fails_the_event
  (W : World) (requestId : string) (req : request) (tr tr1 : list call)
  (fields : obj) (dealAddResp : value) :
  Js.strict_neq (method req) (VStr "POST") = false ->
  topicOf req = VStr "orders/create" ->
  Js.nullish (body req) = false ->
  contactStep W (body req) (fst (mapShopifyOrderToBitrixDeal W (body req)))
              (tr ++ [storeEvent (body req)]) = (tr1, Ok fields) ->
  respond W tr1 (deal_add fields) = Ok dealAddResp ->
  Js.truthy (Js.opt_get dealAddResp "result") = false ->
  handler W requestId req tr =
    (tr1 ++ [deal_add fields],
     Ok {| status := 500;
           payload := InternalServerError
                        (if Js.nullish dealAddResp then TypeError
                         else FailedToCreateDeal dealAddResp)
                        requestId |}) /\
  exists contactCalls,
    tr1 ++ [deal_add fields] =
      tr ++ storeEvent (body req) :: contactCalls ++ [deal_add fields] /\
    forallb is_contact_call contactCalls = true /\
    no_call is_productrows_set
      (storeEvent (body req) :: contactCalls ++ [deal_add fields]).
Proof.
  intros Hmethod Htopic Ho Hcontact Hadd Hresult. split.
  - rewrite (handler_post W requestId req tr Hmethod).
    rewrite Htopic at 1. rewrite dispatch_created.
    rewrite (handleOrderCreated_after_contact W (body req) _ tr1 fields Ho Hcontact).
    rewrite createAndSync_run, Hadd.
    destruct (Js.nullish dealAddResp) eqn:Hresp.
    + destruct dealAddResp; try discriminate Hresp; reflexivity.
    + rewrite (get_defined dealAddResp "result" Hresp), Hresult. reflexivity.
  - destruct (contactStep_calls W _ _ _ _ _ Hcontact) as (contactCalls & -> & Hall).
    exists contactCalls. split; [now rewrite <- !app_assoc|]. split; [assumption|].
    unfold no_call. cbn [forallb is_productrows_set negb andb].
    rewrite forallb_app. cbn [forallb is_productrows_set deal_add]. rewrite andb_true_r.
    rewrite forallb_forall in *. intros c Hc. specialize (Hall c Hc).
    now destruct c.
Qed.

Lemma C2_witness :
  handler Sample.crm_creating_nothing "r1"
          (Sample.post "orders/create" Sample.order1001) [] =
    ([storeEvent Sample.order1001; getBitrixWebhookBase;
      upsertBitrixContact (VStr "https://example.bitrix24.com/rest/1/token")
                          Sample.order1001] ++
     [deal_add (obj_set (fst (Sample.mapShopifyOrderToBitrixDeal Sample.order1001))
                        "CONTACT_ID" (VStr "301"))],
     Ok {| status := 500;
           payload := InternalServerError
                        (if Js.nullish (VObj [("error", VStr "ACCESS_DENIED")])
                         then TypeError
                         else FailedToCreateDeal (VObj [("error", VStr "ACCESS_DENIED")]))
                        "r1" |}) /\
  exists contactCalls,
    [storeEvent Sample.order1001; getBitrixWebhookBase;
     upsertBitrixContact (VStr "https://example.bitrix24.com/rest/1/token")
                         Sample.order1001] ++
    [deal_add (obj_set (fst (Sample.mapShopifyOrderToBitrixDeal Sample.order1001))
                       "CONTACT_ID" (VStr "301"))] =
      [] ++ storeEvent (body (Sample.post "orders/create" Sample.order1001))
         :: contactCalls ++
            [deal_add (obj_set (fst (Sample.mapShopifyOrderToBitrixDeal Sample.order1001))
                               "CONTACT_ID" (VStr "301"))] /\
    forallb is_contact_call contactCalls = true /\
    no_call is_productrows_set
      (storeEvent (body (Sample.post "orders/create" Sample.order1001))
         :: contactCalls ++
            [deal_add (obj_set (fst (Sample.mapShopifyOrderToBitrixDeal Sample.order1001))
                               "CONTACT_ID" (VStr "301"))]).
Proof.
  apply (C2_create_without_identifier_fails_the_event Sample.crm_creating_nothing "r1"
           (Sample.post "orders/create" Sample.order1001) []
           [storeEvent Sample.order1001; getBitrixWebhookBase;
            upsertBitrixContact (VStr "https://example.bitrix24.com/rest/1/token")
                                Sample.order1001]
           (obj_set (fst (Sample.mapShopifyOrderToBitrixDeal Sample.order1001))
                    "CONTACT_ID" (VStr "301"))
           (VObj [("error", VStr "ACCESS_DENIED")])); reflexivity.
Defined.
